(** * OHS hazard reporting app: the submission pipeline of [OHS.py]

    A shallow embedding of the storage initializer, the image persister,
    the report appender and the form-submission logic of [main], together
    with the library operations they call ([os.path], [datetime.strftime],
    [str.split], pandas' [to_csv], [st.image]), and the properties of the
    pipeline.

    Strings are byte strings (UTF-8 encoded text); every character the
    program inspects (space, dot, slash, comma, quote, newline) is ASCII,
    so working on bytes agrees with working on code points. *)

From Stdlib Require Import Ascii String List Arith Lia Bool.
From stdpp Require Import gmap strings.
Import ListNotations.

Local Arguments String.append !s1 s2 /.

(** ** Python string operations *)

Module Py.

(** Truthiness of a [str]: only the empty string is falsy. *)
Definition truthy (s : string) : bool :=
  match s with
  | EmptyString => false
  | String _ _ => true
  end.

(** [c in s]. *)
Fixpoint contains (c : ascii) (s : string) : bool :=
  match s with
  | EmptyString => false
  | String a s' => Ascii.eqb a c || contains c s'
  end.

(** [s.split(sep)] for a one-character separator. *)
Fixpoint split (sep : ascii) (s : string) : list string :=
  match s with
  | EmptyString => [EmptyString]
  | String a s' =>
      if Ascii.eqb a sep then EmptyString :: split sep s'
      else match split sep s' with
           | h :: t => String a h :: t
           | [] => [String a EmptyString]
           end
  end.

(** [l[0]] on the result of [split], which is never the empty list. *)
Definition item0 (l : list string) : string := hd EmptyString l.

(** [s.rfind(c)]: the highest index of [c] in [s], or [-1]. *)
Fixpoint rfind_from (c : ascii) (s : string) (i : Z) (acc : Z) : Z :=
  match s with
  | EmptyString => acc
  | String a s' => rfind_from c s' (i + 1) (if Ascii.eqb a c then i else acc)
  end.

Definition rfind (c : ascii) (s : string) : Z := rfind_from c s 0 (-1).

(** Slices [s[:n]] and [s[n:]] for [0 <= n]. *)
Fixpoint take (n : nat) (s : string) : string :=
  match n, s with
  | S n', String a s' => String a (take n' s')
  | _, _ => EmptyString
  end.

Fixpoint drop (n : nat) (s : string) : string :=
  match n, s with
  | S n', String _ s' => drop n' s'
  | _, _ => s
  end.

(** ASCII part of [str.isspace], and [s.strip()]. The program never
    strips; these state what trimming would mean. *)
Definition isspace (c : ascii) : bool :=
  let n := nat_of_ascii c in
  ((9 <=? n) && (n <=? 13)) || ((28 <=? n) && (n <=? 32)).

Fixpoint lstrip (s : string) : string :=
  match s with
  | EmptyString => EmptyString
  | String a s' => if isspace a then lstrip s' else s
  end.

Fixpoint rstrip (s : string) : string :=
  match s with
  | EmptyString => EmptyString
  | String a s' =>
      match rstrip s' with
      | EmptyString => if isspace a then EmptyString else String a EmptyString
      | r => String a r
      end
  end.

Definition strip (s : string) : string := rstrip (lstrip s).

End Py.

(** ** [os.path] on POSIX *)

Module PosixPath.

Definition sep : ascii := "/"%char.
Definition extsep : ascii := "."%char.

(** The loop of [genericpath._splitext] that skips leading dots:
    [true] when some character in [p[i : i + fuel]] is not a dot. *)
Fixpoint has_non_dot (p : string) (i fuel : nat) : bool :=
  match fuel with
  | O => false
  | S fuel' =>
      match String.get i p with
      | Some a => if Ascii.eqb a extsep then has_non_dot p (S i) fuel' else true
      | None => true
      end
  end.

(** [os.path.splitext(p)]. *)
Definition splitext (p : string) : string * string :=
  let sepIndex := Py.rfind sep p in
  let dotIndex := Py.rfind extsep p in
  if (sepIndex <? dotIndex)%Z then
    let filenameIndex := Z.to_nat (sepIndex + 1) in
    if has_non_dot p filenameIndex (Z.to_nat dotIndex - filenameIndex)
    then (Py.take (Z.to_nat dotIndex) p, Py.drop (Z.to_nat dotIndex) p)
    else (p, EmptyString)
  else (p, EmptyString).

Definition endswith_sep (a : string) : bool :=
  match String.get (String.length a - 1) a with
  | Some c => Ascii.eqb c sep
  | None => false
  end.

(** [os.path.join(a, b)]. *)
Definition join (a b : string) : string :=
  match b with
  | String c _ =>
      if Ascii.eqb c sep then b
      else if negb (Py.truthy a) || endswith_sep a then a +:+ b
      else a +:+ String sep b
  | EmptyString =>
      if negb (Py.truthy a) || endswith_sep a then a
      else a +:+ String sep EmptyString
  end.

(** The directory part of a path: [None] when the path has no
    separator (the file lives in the working directory). *)
Definition parent (p : string) : option string :=
  let i := Py.rfind sep p in
  if (i <? 0)%Z then None else Some (Py.take (Z.to_nat i) p).

(** [os.path.basename(p)]: what follows the last separator. *)
Definition basename (p : string) : string :=
  Py.drop (Z.to_nat (Py.rfind sep p + 1)) p.

End PosixPath.

(** ** [datetime] and [strftime] *)

Module Clock.

Record datetime := {
  year : Z; month : Z; day : Z;
  hour : Z; minute : Z; second : Z;
  microsecond : Z
}.

(** What [datetime.now()] can return: a date from the epoch to the last
    year a [datetime] holds, with every field in its range. *)
Definition valid (t : datetime) : Prop :=
  (1970 <= year t <= 9999 /\ 1 <= month t <= 12 /\ 1 <= day t <= 31 /\
   0 <= hour t < 24 /\ 0 <= minute t < 60 /\ 0 <= second t < 60 /\
   0 <= microsecond t < 1000000)%Z.

Definition digit (n : Z) : ascii := ascii_of_nat (Z.to_nat (48 + n mod 10)).

(** Decimal digits of [n >= 0], most significant first. *)
Fixpoint decimal_go (fuel : nat) (n : Z) (acc : string) : string :=
  match fuel with
  | O => acc
  | S fuel' =>
      let acc' := String (digit n) acc in
      if (n / 10 =? 0)%Z then acc' else decimal_go fuel' (n / 10)%Z acc'
  end.

Definition decimal (n : Z) : string :=
  decimal_go (S (Z.to_nat n)) n EmptyString.

Fixpoint zeros (k : nat) : string :=
  match k with
  | O => EmptyString
  | S k' => String "0"%char (zeros k')
  end.

(** [str(n).zfill(width)]: what [%02d] and [%04d] print. *)
Definition zfill (width : nat) (n : Z) : string :=
  let d := decimal n in
  zeros (width - String.length d) +:+ d.

Definition directive (c : ascii) (t : datetime) : option string :=
  if Ascii.eqb c "Y" then Some (zfill 4 (year t))
  else if Ascii.eqb c "m" then Some (zfill 2 (month t))
  else if Ascii.eqb c "d" then Some (zfill 2 (day t))
  else if Ascii.eqb c "H" then Some (zfill 2 (hour t))
  else if Ascii.eqb c "M" then Some (zfill 2 (minute t))
  else if Ascii.eqb c "S" then Some (zfill 2 (second t))
  else None.

(** [t.strftime(fmt)] for the directives the program uses; any other
    text is copied. [%Y] is the year in four digits (from year 1000 on
    every platform prints it so), the other fields take two digits. *)
Fixpoint strftime (fmt : string) (t : datetime) : string :=
  match fmt with
  | EmptyString => EmptyString
  | String c rest =>
      if Ascii.eqb c "%" then
        match rest with
        | String d rest' =>
            match directive d t with
            | Some s => s +:+ strftime rest' t
            | None => String c (String d (strftime rest' t))
            end
        | EmptyString => String c EmptyString
        end
      else String c (strftime rest t)
  end.

Definition same_second (a b : datetime) : Prop :=
  year a = year b /\ month a = month b /\ day a = day b /\
  hour a = hour b /\ minute a = minute b /\ second a = second b.

End Clock.


(** ** CSV text as pandas' [to_csv] writes it

  [DataFrame.to_csv] hands every row to Python's [csv.writer] with the
  default dialect: comma delimiter, double-quote quote character,
  doubled quotes inside quoted fields, minimal quoting, and a line feed
  ([os.linesep] on POSIX) after every row. Minimal quoting quotes a
  field that holds the delimiter, the quote character or a character of
  the line terminator, here the line feed. A carriage return on its own
  is another matter: the writer of Python 3.13 and later quotes it as
  well, the writer of earlier versions leaves the field bare. Which
  writer runs is not the program's choice, so the writer takes it as an
  argument: [quote_cr] is [true] from Python 3.13 on. *)

Module Csv.

Definition delimiter : ascii := ","%char.
Definition quotechar : ascii := "034"%char.
Definition LF : ascii := "010"%char.
Definition CR : ascii := "013"%char.

(** Characters that force a field to be quoted. *)
Definition special (quote_cr : bool) (c : ascii) : bool :=
  Ascii.eqb c delimiter || Ascii.eqb c quotechar ||
  Ascii.eqb c LF || (quote_cr && Ascii.eqb c CR).

Fixpoint needs_quotes (quote_cr : bool) (f : string) : bool :=
  match f with
  | EmptyString => false
  | String c f' => special quote_cr c || needs_quotes quote_cr f'
  end.

(** The quoted body of a field: every quote character is doubled and
    the closing quote follows. *)
Fixpoint quoted_body (f : string) : string :=
  match f with
  | EmptyString => String quotechar EmptyString
  | String c f' =>
      if Ascii.eqb c quotechar
      then String quotechar (String quotechar (quoted_body f'))
      else String c (quoted_body f')
  end.

Definition write_field (quote_cr : bool) (f : string) : string :=
  if needs_quotes quote_cr f then String quotechar (quoted_body f) else f.

Fixpoint join_fields (quote_cr : bool) (row : list string) : string :=
  match row with
  | [] => EmptyString
  | [f] => write_field quote_cr f
  | f :: rest =>
      write_field quote_cr f +:+ String delimiter (join_fields quote_cr rest)
  end.

(** [writer.writerow(row)]; a row made of one empty field is written
    as a pair of quotes so that it differs from an empty line. *)
Definition writerow (quote_cr : bool) (row : list string) : string :=
  match row with
  | [EmptyString] =>
      String quotechar (String quotechar (String LF EmptyString))
  | _ => join_fields quote_cr row +:+ String LF EmptyString
  end.

Fixpoint writerows (quote_cr : bool) (rows : list (list string)) : string :=
  match rows with
  | [] => EmptyString
  | r :: rest => writerow quote_cr r +:+ writerows quote_cr rest
  end.

(** The text of rows written one after the other, each by the writer
    that ran at the time. *)
Fixpoint written (recs : list (bool * list string)) : string :=
  match recs with
  | [] => EmptyString
  | r :: rest => writerow (fst r) (snd r) +:+ written rest
  end.

(** Every field of the row that holds a carriage return is written in
    quotes. This is so for every row when [quote_cr] is [true], and for
    every row without carriage returns. *)
Definition cr_quoted (quote_cr : bool) (row : list string) : bool :=
  forallb (fun f => needs_quotes quote_cr f || negb (Py.contains CR f)) row.

(** *** Reading the text back

    The program never reads its log. The reader below is the usual
    one for this dialect (the state machine of Python's [csv.reader],
    run over the whole text, without the limit that module puts on the
    size of a field): it is what "reading the log back" means in the
    statements about the log. *)

Inductive cursor :=
| StartRecord
| AfterCR
| StartField (fields : list string)
| InField (fields : list string) (field : string)
| InQuotedField (fields : list string) (field : string)
| QuoteInQuotedField (fields : list string) (field : string).

Record pstate := { rows : list (list string); cur : cursor }.

Definition snoc (s : string) (c : ascii) : string :=
  s +:+ String c EmptyString.

Definition emit (st : pstate) (record : list string) (next : cursor) : pstate :=
  {| rows := rows st ++ [record]; cur := next |}.

Definition move (st : pstate) (next : cursor) : pstate :=
  {| rows := rows st; cur := next |}.

(** At the start of a field, with [fields] already read in this record. *)
Definition start_field (st : pstate) (fields : list string) (c : ascii) : pstate :=
  if Ascii.eqb c LF then emit st (fields ++ [EmptyString]) StartRecord
  else if Ascii.eqb c CR then emit st (fields ++ [EmptyString]) AfterCR
  else if Ascii.eqb c quotechar then move st (InQuotedField fields EmptyString)
  else if Ascii.eqb c delimiter then move st (StartField (fields ++ [EmptyString]))
  else move st (InField fields (String c EmptyString)).

Definition start_record (st : pstate) (c : ascii) : pstate :=
  if Ascii.eqb c LF then emit st [] StartRecord
  else if Ascii.eqb c CR then emit st [] AfterCR
  else start_field st [] c.

Definition step (st : pstate) (c : ascii) : pstate :=
  match cur st with
  | StartRecord => start_record st c
  | AfterCR =>
      if Ascii.eqb c LF then move st StartRecord else start_record st c
  | StartField fields => start_field st fields c
  | InField fields field =>
      if Ascii.eqb c LF then emit st (fields ++ [field]) StartRecord
      else if Ascii.eqb c CR then emit st (fields ++ [field]) AfterCR
      else if Ascii.eqb c delimiter then move st (StartField (fields ++ [field]))
      else move st (InField fields (snoc field c))
  | InQuotedField fields field =>
      if Ascii.eqb c quotechar then move st (QuoteInQuotedField fields field)
      else move st (InQuotedField fields (snoc field c))
  | QuoteInQuotedField fields field =>
      if Ascii.eqb c quotechar then move st (InQuotedField fields (snoc field c))
      else if Ascii.eqb c delimiter then move st (StartField (fields ++ [field]))
      else if Ascii.eqb c LF then emit st (fields ++ [field]) StartRecord
      else if Ascii.eqb c CR then emit st (fields ++ [field]) AfterCR
      else move st (InField fields (snoc field c))
  end.

Fixpoint feed (st : pstate) (text : string) : pstate :=
  match text with
  | EmptyString => st
  | String c text' => feed (step st c) text'
  end.

Definition initial : pstate := {| rows := []; cur := StartRecord |}.

(** The record still open when the text ends without a line end. *)
Definition pending (c : cursor) : list (list string) :=
  match c with
  | StartRecord | AfterCR => []
  | StartField fields => [fields ++ [EmptyString]]
  | InField fields field
  | InQuotedField fields field
  | QuoteInQuotedField fields field => [fields ++ [field]]
  end.

Definition reader (text : string) : list (list string) :=
  let st := feed initial text in
  rows st ++ pending (cur st).

(** The text ends exactly at a record boundary. *)
Definition complete (text : string) : bool :=
  match cur (feed initial text) with
  | StartRecord => true
  | _ => false
  end.

End Csv.

(** ** pandas data frames, as far as the program uses them *)

Module Pandas.

Record DataFrame := { columns : list string; data : list (list string) }.

(** [pd.DataFrame(columns=cols)]. *)
Definition of_columns (cols : list string) : DataFrame :=
  {| columns := cols; data := [] |}.

(** [pd.DataFrame([d])] for a dict [d], kept in insertion order: the
    keys become the columns, the values the single row. *)
Definition of_dict (d : list (string * string)) : DataFrame :=
  {| columns := map fst d; data := [map snd d] |}.

(** The text [df.to_csv(..., header=h, index=False)] writes. *)
Definition csv_text (quote_cr : bool) (df : DataFrame) (header : bool) : string :=
  (if header then Csv.writerow quote_cr (columns df) else EmptyString)
  +:+ Csv.writerows quote_cr (data df).

End Pandas.

(** ** The world the program runs in: files, clock, page output *)

Module Sys.

Inductive node :=
| Dir
| File (content : string).

(** The exceptions a run can meet: [OSError] with its message and the
    path it is about, [ValueError], and what Streamlit raises when it
    cannot show a picture (its type and text vary with the version; the
    messages used below stand for them). *)
Inductive exn :=
| OSError (strerror : string) (filename : string)
| ValueError (message : string)
| LibraryError (message : string).

(** [str(e)], as an f-string prints the exception. *)
Definition str_exn (e : exn) : string :=
  match e with
  | OSError strerror filename => strerror +:+ ": '" +:+ filename +:+ "'"
  | ValueError message => message
  | LibraryError message => message
  end.

(** Streamlit calls that put something on the page. *)
Inductive ui_kind := StError | StWarning | StSuccess | StInfo | StImage | StBalloons.

(** What a run does, in order. *)
Inductive event :=
| MakeDir (path : string)
| WriteFile (path : string) (content : string)
| AppendFile (path : string) (content : string)
| Ui (kind : ui_kind) (text : string).

Record world := { fs : gmap string node; trace : list event }.

(** What a run cannot control: the clock; the paths the operating
    system refuses to create or write (permissions, read-only or full
    disk), with the error message it gives; which bytes the picture
    decoder behind [st.image] takes for a picture; and whether the CSV
    writer of the interpreter quotes a lone carriage return (Python 3.13
    and later). A refused operation changes nothing: a write or an
    append happens as a whole or not at all. The shape of a file name is
    not left to [denies]: see [check_nul] and [check_length]. *)
Record env := {
  now : Clock.datetime;
  denies : string -> option string;
  decodes : string -> bool;
  quotes_cr : bool
}.

Inductive result (A : Type) :=
| Ok (a : A)
| Raise (e : exn).
Arguments Ok {A} a.
Arguments Raise {A} e.

Definition M (A : Type) : Type := env -> world -> result A * world.

Definition ret {A} (a : A) : M A := fun _ w => (Ok a, w).

Definition bind {A B} (m : M A) (k : A -> M B) : M B :=
  fun e w =>
    match m e w with
    | (Ok a, w') => k a e w'
    | (Raise x, w') => (Raise x, w')
    end.

Definition raise {A} (x : exn) : M A := fun _ w => (Raise x, w).

(** [try: m except Exception as e: handler(e)]. *)
Definition try_except {A} (m : M A) (handler : exn -> M A) : M A :=
  fun e w =>
    match m e w with
    | (Ok a, w') => (Ok a, w')
    | (Raise x, w') => handler x e w'
    end.

Definition record (ev : event) : M unit :=
  fun _ w => (Ok tt, {| fs := fs w; trace := trace w ++ [ev] |}).

Definition put (p : string) (n : node) : M unit :=
  fun _ w => (Ok tt, {| fs := <[p := n]> (fs w); trace := trace w |}).

Definition lookup_node (p : string) : M (option node) :=
  fun _ w => (Ok (fs w !! p), w).

Definition denied (p : string) : M (option string) :=
  fun e w => (Ok (denies e p), w).

(** [datetime.now()]. *)
Definition datetime_now : M Clock.datetime := fun e w => (Ok (now e), w).

Definition decoded (content : string) : M bool :=
  fun e w => (Ok (decodes e content), w).

(** The CSV writer of the interpreter that runs the page. *)
Definition csv_writer : M bool := fun e w => (Ok (quotes_cr e), w).

Declare Scope prog_scope.
Delimit Scope prog_scope with prog.
Notation "'let*' x ':=' m 'in' k" := (bind m (fun x => k))
  (at level 10, x name, m at level 100, k at level 200) : prog_scope.
Notation "m ;; k" := (bind m (fun _ => k))
  (at level 100, k at level 200, right associativity) : prog_scope.
Open Scope prog_scope.

(** [os.path.exists(p)]. *)
Definition path_exists (p : string) : M bool :=
  let* n := lookup_node p in
  ret (match n with Some _ => true | None => false end).

(** The directory that is to hold [p] must be there. *)
Definition check_parent (p : string) : M unit :=
  match PosixPath.parent p with
  | None | Some EmptyString => ret tt
  | Some d =>
      let* n := lookup_node d in
      match n with
      | Some Dir => ret tt
      | Some (File _) => raise (OSError "[Errno 20] Not a directory" p)
      | None => raise (OSError "[Errno 2] No such file or directory" p)
      end
  end.

Definition NUL : ascii := "000"%char.

(** The longest file name, in bytes, that the file systems of Linux
    take. *)
Definition NAME_MAX : nat := 255.

(** No path with a NUL byte reaches the system: Python raises
    [ValueError] first. *)
Definition check_nul (p : string) : M unit :=
  if Py.contains NUL p then raise (ValueError "embedded null byte") else ret tt.

(** The system creates no file whose name is longer than [NAME_MAX]. *)
Definition check_length (p : string) : M unit :=
  if NAME_MAX <? String.length (PosixPath.basename p)
  then raise (OSError "[Errno 36] File name too long" p)
  else ret tt.

(** [os.makedirs(p)] for a path of one component. *)
Definition makedirs (p : string) : M unit :=
  check_nul p ;;
  let* n := lookup_node p in
  match n with
  | Some _ => raise (OSError "[Errno 17] File exists" p)
  | None =>
      check_length p ;;
      let* d := denied p in
      match d with
      | Some msg => raise (OSError msg p)
      | None => put p Dir ;; record (MakeDir p)
      end
  end.

(** Opening [p] for writing: the checks common to every mode, in the
    order the path is walked. *)
Definition open_for_writing (p : string) : M (option string) :=
  check_nul p ;;
  check_parent p ;;
  check_length p ;;
  let* n := lookup_node p in
  match n with
  | Some Dir => raise (OSError "[Errno 21] Is a directory" p)
  | Some (File old) =>
      let* d := denied p in
      match d with
      | Some msg => raise (OSError msg p)
      | None => ret (Some old)
      end
  | None =>
      let* d := denied p in
      match d with
      | Some msg => raise (OSError msg p)
      | None => ret None
      end
  end.

(** [with open(p, "w") as f: f.write(content)]: the file is created
    or replaced. *)
Definition write_file (p content : string) : M unit :=
  open_for_writing p ;;
  put p (File content) ;;
  record (WriteFile p content).

(** [with open(p, "a") as f: f.write(content)]: the file is created
    if missing, and what it holds is kept. *)
Definition append_file (p content : string) : M unit :=
  let* old := open_for_writing p in
  put p (File (match old with Some o => o | None => EmptyString end +:+ content)) ;;
  record (AppendFile p content).

(** [df.to_csv(path, mode=..., header=..., index=False)]. *)
Definition to_csv (df : Pandas.DataFrame) (path : string)
    (append header : bool) : M unit :=
  let* quote_cr := csv_writer in
  if append then append_file path (Pandas.csv_text quote_cr df header)
  else write_file path (Pandas.csv_text quote_cr df header).

(** Streamlit output. *)
Definition st (kind : ui_kind) (text : string) : M unit := record (Ui kind text).

(** [st.image(path, ...)] for a local path. Streamlit reads the file
    and has the picture decoded to size it: a path that cannot be read
    as a file, or bytes that are no picture, make the call raise. *)
Definition st_image (path : string) : M unit :=
  let* n := lookup_node path in
  match n with
  | Some (File content) =>
      let* ok := decoded content in
      if ok then st StImage path
      else raise (LibraryError "cannot identify image file")
  | _ => raise (LibraryError ("Error opening '" +:+ path +:+ "'"))
  end.

(** A run from a given file system, with an empty trace. *)
Definition exec {A} (m : M A) (e : env) (files : gmap string node) : result A * world :=
  m e {| fs := files; trace := [] |}.

End Sys.

(** ** The program *)

Module OHS.
Import Sys.

Definition LOGO_PATH : string := "fmf_logo.png".
Definition UPLOADS_DIR : string := "uploads".
Definition REPORTS_CSV : string := "hazard_reports.csv".

Definition COLUMNS : list string :=
  ["ReportID"; "Timestamp"; "EmployeeID"; "Entity";
   "SpecificArea"; "Urgency"; "Description"; "ImagePath"].

(** What [st.file_uploader] returns for an attached file. *)
Record UploadedFile := { name : string; getbuffer : string }.

(** The widget values of one run of the page. *)
Record Form := {
  employee_id : string;
  entity : string;
  specific_area : string;
  description : string;
  urgency : string;
  uploaded_photo : option UploadedFile;
  submitted : bool
}.

Definition initialize_storage : M unit :=
  let* ex := path_exists UPLOADS_DIR in
  (if negb ex then makedirs UPLOADS_DIR else ret tt) ;;
  let* ex := path_exists REPORTS_CSV in
  if negb ex
  then to_csv (Pandas.of_columns COLUMNS) REPORTS_CSV false true
  else ret tt.

Definition save_report (report_data : list (string * string)) : M bool :=
  try_except
    (to_csv (Pandas.of_dict report_data) REPORTS_CSV true false ;;
     ret true)
    (fun e =>
       st StError ("Error saving report: " +:+ str_exn e) ;;
       ret false).

Definition save_image (uploaded_file : option UploadedFile) (report_id : string)
    : M (option string) :=
  match uploaded_file with
  | Some f =>
      let file_extension := snd (PosixPath.splitext (name f)) in
      let image_filename := report_id +:+ file_extension in
      let image_path := PosixPath.join UPLOADS_DIR image_filename in
      write_file image_path (getbuffer f) ;;
      ret (Some image_path)
  | None => ret None
  end.

Definition VALIDATION_MESSAGE : string :=
  "Please fill in both the 'Specific Area' and 'Hazard Description' fields.".

(** [timestamp.strftime("HAZ%Y%m%d-%H%M%S")]. *)
Definition report_id_of (timestamp : Clock.datetime) : string :=
  Clock.strftime "HAZ%Y%m%d-%H%M%S" timestamp.

(** The dict literal of [main], in the order its keys are written. *)
Definition report_data_of (f : Form) (timestamp : Clock.datetime)
    (image_path : option string) : list (string * string) :=
  [("ReportID", report_id_of timestamp);
   ("Timestamp", Clock.strftime "%Y-%m-%d %H:%M:%S" timestamp);
   ("EmployeeID", if Py.truthy (employee_id f) then employee_id f else "Anonymous");
   ("Entity", entity f);
   ("SpecificArea", specific_area f);
   ("Urgency", Py.item0 (Py.split " " (urgency f)));
   ("Description", description f);
   ("ImagePath", match image_path with
                 | Some p => if Py.truthy p then p else "N/A"
                 | None => "N/A"
                 end)].

(** The body of [if submitted:]. *)
Definition submission (f : Form) : M unit :=
  if negb (Py.truthy (description f)) || negb (Py.truthy (specific_area f))
  then st StError VALIDATION_MESSAGE
  else
    let* timestamp := datetime_now in
    let report_id := report_id_of timestamp in
    let* image_path := save_image (uploaded_photo f) report_id in
    let report_data := report_data_of f timestamp image_path in
    let* ok := save_report report_data in
    if ok
    then
      st StSuccess "✅ Thank you! Your report has been submitted successfully." ;;
      st StInfo ("Your Report ID is: **" +:+ report_id +:+ "**") ;;
      st StBalloons EmptyString
    else
      st StError "Failed to save the report. Please contact the OHS department directly.".

(** The logo at the top of the page. The other widgets only draw. *)
Definition header : M unit :=
  let* ex := path_exists LOGO_PATH in
  if ex then st_image LOGO_PATH
  else st StWarning ("Logo not found at '" +:+ LOGO_PATH +:+ "'. Please update the path.").

Definition main (f : Form) : M unit :=
  initialize_storage ;;
  header ;;
  if submitted f then submission f else ret tt.

(** *** Reading a run *)

Definition is_validation_error (ev : event) : bool :=
  match ev with
  | Ui StError text => String.eqb text VALIDATION_MESSAGE
  | _ => false
  end.

Definition is_success (ev : event) : bool :=
  match ev with
  | Ui StSuccess _ => true
  | _ => false
  end.

(** The run showed the validation error. *)
Definition rejected (w : world) : bool := existsb is_validation_error (trace w).

(** The run showed the success message. *)
Definition succeeded (w : world) : bool := existsb is_success (trace w).

Definition is_file_write (ev : event) : bool :=
  match ev with
  | MakeDir _ | WriteFile _ _ | AppendFile _ _ => true
  | Ui _ _ => false
  end.

Definition is_append (ev : event) : bool :=
  match ev with
  | AppendFile _ _ => true
  | _ => false
  end.

(** The content of the log, when it is a file. *)
Definition log_text (files : gmap string node) : option string :=
  match files !! REPORTS_CSV with
  | Some (File c) => Some c
  | _ => None
  end.

(** The rows a reader of the log sees. *)
Definition log_rows (files : gmap string node) : list (list string) :=
  match log_text files with
  | Some c => Csv.reader c
  | None => []
  end.

Definition is_file (files : gmap string node) (p : string) : bool :=
  match files !! p with
  | Some (File _) => true
  | _ => false
  end.

(** The [ImagePath] column of a row. *)
Definition image_ref (row : list string) : string := nth 7 row EmptyString.

End OHS.

(** ** Auxiliary readings of the operations, used in the proofs *)

Module CsvAux.
Import Csv.
(** Where the reader stands after a written field. *)
Definition after_field (quote_cr : bool) (fields : list string) (f : string)
    : cursor :=
  if needs_quotes quote_cr f then QuoteInQuotedField fields f
  else match f with
       | EmptyString => StartField fields
       | _ => InField fields f
       end.
End CsvAux.

Module SysAux.
Import Sys.
(** What the shape of a path alone makes [open] refuse. *)
Definition name_error (p : string) : option exn :=
  if Py.contains NUL p then Some (ValueError "embedded null byte")
  else if NAME_MAX <? String.length (PosixPath.basename p)
       then Some (OSError "[Errno 36] File name too long" p)
       else None.

(** Why opening [p] for writing fails, if it does. *)
Definition open_error (e : env) (files : gmap string node) (p : string) : option exn :=
  let target :=
    if NAME_MAX <? String.length (PosixPath.basename p)
    then Some (OSError "[Errno 36] File name too long" p)
    else
      match files !! p with
      | Some Dir => Some (OSError "[Errno 21] Is a directory" p)
      | _ =>
          match denies e p with
          | Some msg => Some (OSError msg p)
          | None => None
          end
      end in
  if Py.contains NUL p then Some (ValueError "embedded null byte")
  else
    match PosixPath.parent p with
    | None | Some EmptyString => target
    | Some d =>
        match files !! d with
        | Some Dir => target
        | Some (File _) => Some (OSError "[Errno 20] Not a directory" p)
        | None => Some (OSError "[Errno 2] No such file or directory" p)
        end
    end.

Definition content_of (files : gmap string node) (p : string) : string :=
  match files !! p with
  | Some (File old) => old
  | _ => EmptyString
  end.
End SysAux.

(** ** The steps of a run, in closed form *)

Module Steps.
Import Sys SysAux OHS.

(** The header line; it is the same with either writer. *)
Definition HEADER_LINE : string := Csv.writerow false COLUMNS.

Definition add_events (w : world) (evs : list event) : world :=
  {| fs := fs w; trace := trace w ++ evs |}.

(** First half of [initialize_storage]: the upload directory. *)
Definition init_dir (e : env) (w : world) : result unit * world :=
  match fs w !! UPLOADS_DIR with
  | Some _ => (Ok tt, w)
  | None =>
      match denies e UPLOADS_DIR with
      | Some msg => (Raise (OSError msg UPLOADS_DIR), w)
      | None => (Ok tt, {| fs := <[UPLOADS_DIR := Dir]> (fs w);
                           trace := trace w ++ [MakeDir UPLOADS_DIR] |})
      end
  end.

(** Second half: the log with its header. *)
Definition init_log (e : env) (w : world) : result unit * world :=
  match fs w !! REPORTS_CSV with
  | Some _ => (Ok tt, w)
  | None =>
      match denies e REPORTS_CSV with
      | Some msg => (Raise (OSError msg REPORTS_CSV), w)
      | None => (Ok tt, {| fs := <[REPORTS_CSV := File HEADER_LINE]> (fs w);
                           trace := trace w ++ [WriteFile REPORTS_CSV HEADER_LINE] |})
      end
  end.

(** The path [save_image] writes to. *)
Definition image_path_of (u : UploadedFile) (report_id : string) : string :=
  PosixPath.join UPLOADS_DIR (report_id +:+ snd (PosixPath.splitext (name u))).

(** The line [save_report] appends. *)
Definition line_of (f : Form) (e : env) (image_path : option string) : string :=
  Csv.writerow (quotes_cr e) (map snd (report_data_of f (now e) image_path)).

(** What follows [save_image] in an accepted submission. *)
Definition finish (f : Form) (image_path : option string) (e : env) (w : world)
    : result unit * world :=
  match open_error e (fs w) REPORTS_CSV with
  | Some x =>
      (Ok tt, {| fs := fs w;
                 trace := (trace w ++ [Ui StError ("Error saving report: " +:+ str_exn x)])
                          ++ [Ui StError "Failed to save the report. Please contact the OHS department directly."] |})
  | None =>
      (Ok tt, {| fs := <[REPORTS_CSV := File (content_of (fs w) REPORTS_CSV
                                             +:+ line_of f e image_path)]> (fs w);
                 trace := (((trace w ++ [AppendFile REPORTS_CSV (line_of f e image_path)])
                          ++ [Ui StSuccess "✅ Thank you! Your report has been submitted successfully."])
                          ++ [Ui StInfo ("Your Report ID is: **" +:+ report_id_of (now e) +:+ "**")])
                          ++ [Ui StBalloons EmptyString] |})
  end.

(** Why the header of the page raises, if it does: something is at the
    logo path and [st.image] cannot show it. *)
Definition logo_error (e : env) (logo : option node) : option exn :=
  match logo with
  | None => None
  | Some (File content) =>
      if decodes e content then None
      else Some (LibraryError "cannot identify image file")
  | Some Dir => Some (LibraryError ("Error opening '" +:+ LOGO_PATH +:+ "'"))
  end.

Definition header_error (e : env) (files : gmap string node) : option exn :=
  logo_error e (files !! LOGO_PATH).

(** What the header puts on the page when it does not raise. *)
Definition logo_event (files : gmap string node) : event :=
  match files !! LOGO_PATH with
  | Some _ => Ui StImage LOGO_PATH
  | None => Ui StWarning ("Logo not found at '" +:+ LOGO_PATH +:+ "'. Please update the path.")
  end.

End Steps.

(** ** Reading the identifiers and the log; sequences of runs *)

Module Runs.
Import Sys SysAux OHS Steps.

Definition is_digit (c : ascii) : bool :=
  let n := nat_of_ascii c in (48 <=? n) && (n <=? 57).

Fixpoint all_digits (s : string) : bool :=
  match s with
  | EmptyString => true
  | String c s' => is_digit c && all_digits s'
  end.

(** A full match of [HAZ\d{8}-\d{6}]. *)
Definition matches_id_pattern (s : string) : bool :=
  match s with
  | String "H" (String "A" (String "Z" r)) =>
      let date := Py.take 8 r in
      (String.length date =? 8) && all_digits date &&
      match Py.drop 8 r with
      | String "-" time => (String.length time =? 6) && all_digits time
      | _ => false
      end
  | _ => false
  end.

(** The values of a submission, in the column order of the log. *)
Definition submitted_row (e : env) (f : Form) : list string :=
  [report_id_of (now e);
   Clock.strftime "%Y-%m-%d %H:%M:%S" (now e);
   if Py.truthy (employee_id f) then employee_id f else "Anonymous";
   entity f;
   specific_area f;
   Py.item0 (Py.split " " (urgency f));
   description f;
   match uploaded_photo f with
   | Some u => image_path_of u (report_id_of (now e))
   | None => "N/A"
   end].

(** One run of the page after another, each on the files the previous
    one left; [true] when every run showed the success message. *)
Fixpoint submit_all (subs : list (env * Form)) (files : gmap string node)
    : bool * gmap string node :=
  match subs with
  | [] => (true, files)
  | (e, f) :: rest =>
      let w := snd (exec (main f) e files) in
      let '(ok, files') := submit_all rest (fs w) in
      (succeeded w && ok, files')
  end.

Definition rows_of (subs : list (env * Form)) : list (list string) :=
  map (fun s => submitted_row (fst s) (snd s)) subs.

(** The same rows, each with the writer of its run. *)
Definition records_of (subs : list (env * Form)) : list (bool * list string) :=
  map (fun s => (quotes_cr (fst s), submitted_row (fst s) (snd s))) subs.

(** The row of the submission reads back as it is written: every value
    with a carriage return in it gets quoted. *)
Definition readable (e : env) (f : Form) : Prop :=
  Csv.cr_quoted (quotes_cr e) (submitted_row e f) = true.

(** The name of the photo, if there is one, gives a path [open] takes. *)
Definition storable (e : env) (f : Form) : Prop :=
  forall u, uploaded_photo f = Some u ->
    name_error (image_path_of u (report_id_of (now e))) = None.

(** A submission that passes validation. *)
Definition passes_validation (f : Form) : Prop :=
  submitted f = true /\
  specific_area f <> EmptyString /\ description f <> EmptyString.

(** The system refuses nothing. *)
Definition permissive (e : env) : Prop := forall p, denies e p = None.

(** Nothing stands in the way of a run on these files: the system
    refuses nothing, the logo, if there is one, can be shown, and the
    path for the photo is one [open] takes. *)
Definition unhindered (files : gmap string node) (e : env) (f : Form) : Prop :=
  permissive e /\ header_error e files = None /\ storable e f.

(** Nothing is in the way of the storage: no file stands where the
    upload directory goes, no directory where the log goes, and the
    upload directory holds no directory. *)
Definition usable (files : gmap string node) : Prop :=
  (forall c, files !! UPLOADS_DIR <> Some (File c)) /\
  files !! REPORTS_CSV <> Some Dir /\
  (forall p, PosixPath.parent p = Some UPLOADS_DIR -> files !! p <> Some Dir).






End Runs.

(** ** Sample inputs *)

Module Samples.
Import Sys OHS.

Definition noon : Clock.datetime :=
  {| Clock.year := 2024; Clock.month := 3; Clock.day := 7;
     Clock.hour := 12; Clock.minute := 0; Clock.second := 5;
     Clock.microsecond := 250 |}.

Definition noon_later : Clock.datetime :=
  {| Clock.year := 2024; Clock.month := 3; Clock.day := 7;
     Clock.hour := 12; Clock.minute := 0; Clock.second := 5;
     Clock.microsecond := 990000 |}.

(** A system that refuses nothing, with no picture on disk that
    decodes, under an interpreter older than Python 3.13. *)
Definition calm (t : Clock.datetime) : env :=
  {| now := t; denies := fun _ => None;
     decodes := fun _ => false; quotes_cr := false |}.

(** The same under Python 3.13 or later. *)
Definition calm313 (t : Clock.datetime) : env :=
  {| now := t; denies := fun _ => None;
     decodes := fun _ => false; quotes_cr := true |}.

Definition guard_rail : Form :=
  {| employee_id := EmptyString;
     entity := "Flour Mill";
     specific_area := "Line 3 Wrapper";
     description := "Loose guard rail";
     urgency := "🟡 Needs Attention - Potential for Harm";
     uploaded_photo := None;
     submitted := true |}.

Definition with_photo (f : Form) (u : UploadedFile) : Form :=
  {| employee_id := employee_id f; entity := entity f;
     specific_area := specific_area f; description := description f;
     urgency := urgency f; uploaded_photo := Some u;
     submitted := submitted f |}.

Definition blank_area : Form :=
  {| employee_id := "E-1041";
     entity := "Warehouse";
     specific_area := " ";
     description := "Spill near the loading bay, slippery";
     urgency := "🔴 Immediate Danger - Stop Work Required";
     uploaded_photo := None;
     submitted := true |}.

Definition no_description : Form :=
  {| employee_id := "E-1041";
     entity := "Warehouse";
     specific_area := "Loading Bay";
     description := EmptyString;
     urgency := "🟢 General Improvement / Observation";
     uploaded_photo := None;
     submitted := true |}.

Definition photo_png : UploadedFile := {| name := "rail.png"; getbuffer := "PNG-bytes" |}.
Definition photo_jpg : UploadedFile := {| name := "rail.jpg"; getbuffer := "JPG-bytes" |}.
Definition photo_bare : UploadedFile := {| name := "snapshot"; getbuffer := "raw" |}.

(** A description in two parts with a bare carriage return between. *)
Definition two_lines : Form :=
  {| employee_id := "E-2210";
     entity := "Feed Mill";
     specific_area := "Press 2";
     description := "Oil on the floor" +:+ String Csv.CR "next to the press";
     urgency := "🟡 Needs Attention - Potential for Harm";
     uploaded_photo := None;
     submitted := true |}.

(** Names whose extension holds a carriage return, or is very long. *)
Definition photo_cr : UploadedFile :=
  {| name := "rail.p" +:+ String Csv.CR "ng"; getbuffer := "PNG-bytes" |}.

Definition photo_long : UploadedFile :=
  {| name := "scan." +:+ Clock.zeros 250; getbuffer := "PNG-bytes" |}.

End Samples.


(** ** Outcomes of a run, stored rows, and more sample inputs *)

Module Outcomes.
Import Sys OHS Steps Runs Samples.

Definition SAVE_FAILED_MESSAGE : string :=
  "Failed to save the report. Please contact the OHS department directly.".

Definition is_save_failure (ev : event) : bool :=
  match ev with
  | Ui StError text => String.eqb text SAVE_FAILED_MESSAGE
  | _ => false
  end.

(** The run showed the message that the report could not be saved. *)
Definition failed (w : world) : bool := existsb is_save_failure (trace w).

(** [timestamp.strftime("%Y-%m-%d %H:%M:%S")], the Timestamp column. *)
Definition timestamp_of (t : Clock.datetime) : string :=
  Clock.strftime "%Y-%m-%d %H:%M:%S" t.



(** The world after the initializer and the header of the page. *)
Definition page_drawn (w1 : world) : world :=
  add_events w1 [logo_event (fs w1)].

(** A system that refuses to touch one path. *)
Definition refusing (path : string) (t : Clock.datetime) : env :=
  {| now := t;
     denies := fun p => if String.eqb p path
                        then Some "[Errno 13] Permission denied"
                        else None;
     decodes := fun _ => false;
     quotes_cr := false |}.

(** Storage as the initializer leaves it on an empty directory. *)
Definition ready : gmap string node :=
  <[REPORTS_CSV := File HEADER_LINE]> {[ UPLOADS_DIR := Dir ]}.


(** A log that exists but holds nothing, not even the header. *)
Definition headerless : gmap string node :=
  <[REPORTS_CSV := File EmptyString]> {[ UPLOADS_DIR := Dir ]}.


Definition afternoon : Clock.datetime :=
  {| Clock.year := 2024; Clock.month := 3; Clock.day := 7;
     Clock.hour := 15; Clock.minute := 42; Clock.second := 9;
     Clock.microsecond := 0 |}.

End Outcomes.

(** * Proofs *)

(** ** Facts about the string operations *)

Section PyFacts.
Import Py.

Lemma append_cons a s t : String a s +:+ t = String a (s +:+ t).
Proof. reflexivity. Qed.

Lemma append_empty_r s : s +:+ EmptyString = s.
Proof. induction s as [|a s IH]; [reflexivity|]. rewrite append_cons, IH. reflexivity. Qed.

Lemma append_assoc s t u : (s +:+ t) +:+ u = s +:+ (t +:+ u).
Proof. induction s as [|a s IH]; [reflexivity|]. rewrite !append_cons, IH. reflexivity. Qed.

Lemma length_app s t :
  String.length (s +:+ t) = String.length s + String.length t.
Proof. induction s as [|a s IH]; [reflexivity|]. simpl. now rewrite IH. Qed.

Lemma contains_app c s t : contains c (s +:+ t) = contains c s || contains c t.
Proof.
  induction s as [|a s IH]; [reflexivity|].
  rewrite append_cons. simpl. rewrite IH. apply orb_assoc.
Qed.

Lemma rfind_from_cases c s i acc :
  rfind_from c s i acc = acc \/ (i <= rfind_from c s i acc)%Z.
Proof.
  revert i acc. induction s as [|a s IH]; intros i acc; simpl; [now left|].
  destruct (IH (i + 1)%Z (if Ascii.eqb a c then i else acc)) as [H|H].
  - rewrite H. destruct (Ascii.eqb a c); [right; lia | now left].
  - right. lia.
Qed.

Lemma rfind_from_absent c s i acc :
  contains c s = false -> rfind_from c s i acc = acc.
Proof.
  revert i acc. induction s as [|a s IH]; intros i acc H; simpl in *; [reflexivity|].
  apply orb_false_iff in H as [Ha Hs]. rewrite Ha. now apply IH.
Qed.

Lemma rfind_from_present c s i acc :
  contains c s = true -> (i <= rfind_from c s i acc)%Z.
Proof.
  revert i acc. induction s as [|a s IH]; intros i acc H; simpl in *; [discriminate|].
  destruct (Ascii.eqb a c).
  - destruct (rfind_from_cases c s (i + 1) i); lia.
  - simpl in H. specialize (IH (i + 1)%Z acc H). lia.
Qed.

Lemma rfind_from_drop c s i acc n :
  (rfind_from c s i acc < i + Z.of_nat n)%Z -> contains c (drop n s) = false.
Proof.
  revert i acc n. induction s as [|a s IH]; intros i acc n H.
  - destruct n; reflexivity.
  - destruct n as [|n].
    + simpl drop. destruct (contains c (String a s)) eqn:E; [|reflexivity].
      apply (rfind_from_present c _ i acc) in E. lia.
    + simpl in *. apply (IH (i + 1)%Z (if Ascii.eqb a c then i else acc) n). lia.
Qed.

Lemma split_item0 sep s :
  exists rest, s = item0 (split sep s) +:+ rest /\
    contains sep (item0 (split sep s)) = false /\
    (rest = EmptyString \/ exists r, rest = String sep r).
Proof.
  induction s as [|a s IH].
  - exists EmptyString. simpl. auto.
  - simpl. destruct (Ascii.eqb_spec a sep) as [->|Hne].
    + exists (String sep s). simpl. eauto.
    + destruct IH as (rest & Hs & Hc & Hr).
      destruct (split sep s) as [|h t] eqn:E.
      * exists s. simpl in *. subst.
        simpl. apply Ascii.eqb_neq in Hne. rewrite Hne. auto.
      * exists rest. simpl in *. split; [congruence|]. split; [|assumption].
        apply Ascii.eqb_neq in Hne. now rewrite Hne.
Qed.

End PyFacts.

(** ** Facts about the CSV writer and reader *)

Section CsvFacts.
Import Csv CsvAux.

Lemma feed_app st a b : feed st (a +:+ b) = feed (feed st a) b.
Proof.
  revert st. induction a as [|c a IH]; intros st; [reflexivity|].
  rewrite append_cons. simpl. apply IH.
Qed.

Lemma special_false d c :
  special d c = false ->
  Ascii.eqb c delimiter = false /\ Ascii.eqb c quotechar = false /\
  Ascii.eqb c LF = false.
Proof.
  unfold special. intros H.
  repeat (apply orb_false_iff in H as [H ?]). auto.
Qed.

(** With the writer of Python 3.13 a carriage return forces quotes. *)
Lemma needs_quotes_cr f :
  Py.contains CR f = true -> needs_quotes true f = true.
Proof.
  induction f as [|c f IH]; [discriminate|]. simpl. intros H.
  apply orb_true_iff in H as [H|H].
  - unfold special. rewrite H. cbn [andb]. now rewrite !orb_true_r.
  - rewrite (IH H). apply orb_true_r.
Qed.

Lemma cr_quoted_true row : cr_quoted true row = true.
Proof.
  unfold cr_quoted. apply forallb_forall. intros f _.
  destruct (Py.contains CR f) eqn:E; [|apply orb_true_r].
  now rewrite needs_quotes_cr.
Qed.

Lemma cr_quoted_no_cr d row :
  Forall (fun f => Py.contains CR f = false) row -> cr_quoted d row = true.
Proof.
  intros H. unfold cr_quoted. induction H as [|f row Hf _ IH]; [reflexivity|].
  cbn [forallb]. rewrite Hf, IH. cbn [negb]. now rewrite orb_true_r.
Qed.

(** An unquoted field without carriage returns is copied character by
    character. *)
Lemma feed_plain d f : forall rs fields acc,
  needs_quotes d f = false -> Py.contains CR f = false ->
  feed {| rows := rs; cur := InField fields acc |} f =
  {| rows := rs; cur := InField fields (acc +:+ f) |}.
Proof.
  induction f as [|c f IH]; intros rs fields acc H Hcr.
  - simpl. now rewrite append_empty_r.
  - simpl in H. apply orb_false_iff in H as [Hc Hf].
    simpl in Hcr. apply orb_false_iff in Hcr as [Hr Hcr].
    apply special_false in Hc as (Hd & _ & Hl).
    simpl. unfold step. simpl. rewrite Hl, Hr, Hd. unfold move. simpl.
    rewrite IH by assumption. unfold snoc. now rewrite append_assoc.
Qed.

(** A quoted body is read back with its doubled quotes undone. *)
Lemma feed_quoted f : forall rs fields acc,
  feed {| rows := rs; cur := InQuotedField fields acc |} (quoted_body f) =
  {| rows := rs; cur := QuoteInQuotedField fields (acc +:+ f) |}.
Proof.
  induction f as [|c f IH]; intros rs fields acc.
  - simpl. unfold step. simpl. now rewrite append_empty_r.
  - simpl. destruct (Ascii.eqb c quotechar) eqn:E.
    + apply Ascii.eqb_eq in E. subst c.
      simpl. unfold step at 2. simpl. unfold move. simpl.
      unfold step. simpl. unfold move. simpl.
      rewrite IH. unfold snoc. now rewrite append_assoc.
    + simpl. unfold step. simpl. rewrite E. unfold move. simpl.
      rewrite IH. unfold snoc. now rewrite append_assoc.
Qed.

Lemma feed_write_field d rs fields f :
  needs_quotes d f || negb (Py.contains CR f) = true ->
  feed {| rows := rs; cur := StartField fields |} (write_field d f) =
  {| rows := rs; cur := after_field d fields f |}.
Proof.
  unfold write_field, after_field. destruct (needs_quotes d f) eqn:E.
  - intros _. simpl. unfold step. simpl. unfold move. simpl. apply feed_quoted.
  - cbn [orb]. intros Hcr. apply negb_true_iff in Hcr.
    destruct f as [|c f]; [reflexivity|].
    simpl in E. apply orb_false_iff in E as [Hc Hf].
    simpl in Hcr. apply orb_false_iff in Hcr as [Hr Hcr].
    apply special_false in Hc as (Hd & Hq & Hl).
    simpl. unfold step. simpl. unfold start_field. rewrite Hl, Hr, Hq, Hd.
    unfold move. simpl. now rewrite (feed_plain d).
Qed.

Lemma step_after_field_delimiter d rs fields f :
  step {| rows := rs; cur := after_field d fields f |} delimiter =
  {| rows := rs; cur := StartField (fields ++ [f]) |}.
Proof.
  unfold after_field. destruct (needs_quotes d f); [reflexivity|].
  destruct f; reflexivity.
Qed.

Lemma step_after_field_LF d rs fields f :
  step {| rows := rs; cur := after_field d fields f |} LF =
  {| rows := rs ++ [fields ++ [f]]; cur := StartRecord |}.
Proof.
  unfold after_field. destruct (needs_quotes d f); [reflexivity|].
  destruct f; reflexivity.
Qed.

Lemma cr_quoted_cons d f row :
  cr_quoted d (f :: row) = true ->
  needs_quotes d f || negb (Py.contains CR f) = true /\ cr_quoted d row = true.
Proof. unfold cr_quoted. cbn [forallb]. apply andb_true_iff. Qed.

Lemma feed_join_fields d row : forall rs fields rest,
  row <> [] -> cr_quoted d row = true ->
  feed {| rows := rs; cur := StartField fields |}
       (join_fields d row +:+ String LF rest) =
  feed {| rows := rs ++ [fields ++ row]; cur := StartRecord |} rest.
Proof.
  induction row as [|f row IH]; intros rs fields rest Hne Hq; [congruence|].
  apply cr_quoted_cons in Hq as [Hf Hq].
  destruct row as [|g row].
  - simpl join_fields. rewrite feed_app, feed_write_field by assumption.
    simpl feed. now rewrite step_after_field_LF.
  - change (join_fields d (f :: g :: row))
      with (write_field d f +:+ String delimiter (join_fields d (g :: row))).
    rewrite append_assoc, feed_app, feed_write_field by assumption.
    rewrite append_cons. simpl feed. rewrite step_after_field_delimiter.
    rewrite IH by (discriminate || assumption). now rewrite <- app_assoc.
Qed.

(** A record boundary and the start of a first field read alike,
    except on a line end. *)
Lemma feed_start_record rs c text :
  Ascii.eqb c LF = false -> Ascii.eqb c CR = false ->
  feed {| rows := rs; cur := StartRecord |} (String c text) =
  feed {| rows := rs; cur := StartField [] |} (String c text).
Proof.
  intros Hl Hr. simpl. unfold step. simpl. unfold start_record. now rewrite Hl, Hr.
Qed.

Lemma write_field_head d f :
  f <> EmptyString ->
  needs_quotes d f || negb (Py.contains CR f) = true ->
  exists c t, write_field d f = String c t /\
    Ascii.eqb c LF = false /\ Ascii.eqb c CR = false.
Proof.
  intros Hne. unfold write_field. destruct (needs_quotes d f) eqn:E.
  - intros _. eexists _, _. split; [reflexivity|]. split; reflexivity.
  - cbn [orb]. intros Hcr. apply negb_true_iff in Hcr.
    destruct f as [|c f]; [congruence|]. simpl in E.
    apply orb_false_iff in E as [Hc _].
    simpl in Hcr. apply orb_false_iff in Hcr as [Hr _].
    apply special_false in Hc as (_ & _ & Hl). eauto.
Qed.

Lemma writerow_head d row :
  row <> [] -> row <> [EmptyString] -> cr_quoted d row = true ->
  exists c t, join_fields d row = String c t /\
    Ascii.eqb c LF = false /\ Ascii.eqb c CR = false.
Proof.
  intros Hne H1 Hq. destruct row as [|f row]; [congruence|].
  apply cr_quoted_cons in Hq as [Hf _].
  destruct (string_dec f EmptyString) as [->|Hnf].
  - destruct row as [|g row]; [congruence|].
    eexists _, _. split; [reflexivity|]. split; reflexivity.
  - destruct (write_field_head d f Hnf Hf) as (c & t & Hw & Hl & Hr).
    destruct row as [|g row]; simpl; rewrite Hw; eauto.
Qed.

Lemma feed_writerow d rs row rest :
  cr_quoted d row = true ->
  feed {| rows := rs; cur := StartRecord |} (writerow d row +:+ rest) =
  feed {| rows := rs ++ [row]; cur := StartRecord |} rest.
Proof.
  intros Hq. destruct row as [|f row]; [reflexivity|].
  destruct (decide (f :: row = [EmptyString])) as [E|E].
  - injection E as -> ->. reflexivity.
  - assert (writerow d (f :: row) = join_fields d (f :: row) +:+ String LF EmptyString) as ->.
    { destruct f; [destruct row; [congruence|]|]; reflexivity. }
    rewrite append_assoc. simpl (String LF EmptyString +:+ rest).
    destruct (writerow_head d (f :: row)) as (c & t & Hj & Hl & Hr);
      [discriminate|assumption|assumption|].
    pose proof (feed_join_fields d (f :: row) rs [] rest) as HJ.
    rewrite Hj in *. rewrite append_cons in *.
    rewrite feed_start_record by assumption. apply HJ; [discriminate|assumption].
Qed.

Lemma feed_written recs : forall rs rest,
  Forall (fun r => cr_quoted (fst r) (snd r) = true) recs ->
  feed {| rows := rs; cur := StartRecord |} (written recs +:+ rest) =
  feed {| rows := rs ++ map snd recs; cur := StartRecord |} rest.
Proof.
  induction recs as [|r recs IH]; intros rs rest Hq.
  - simpl. now rewrite app_nil_r.
  - apply Forall_cons_iff in Hq as [Hr Hq].
    simpl written. rewrite append_assoc, feed_writerow, IH by assumption.
    cbn [map]. now rewrite <- app_assoc.
Qed.

Lemma complete_feed text :
  complete text = true ->
  feed initial text = {| rows := reader text; cur := StartRecord |}.
Proof.
  unfold complete, reader. destruct (feed initial text) as [rs c]. simpl.
  destruct c; try discriminate. intros _. now rewrite app_nil_r.
Qed.

(** Appending a written row to a complete text adds that row, and only
    that row, to what a reader sees. *)
Lemma reader_append d text row :
  cr_quoted d row = true ->
  complete text = true ->
  reader (text +:+ writerow d row) = reader text ++ [row] /\
  complete (text +:+ writerow d row) = true.
Proof.
  intros Hq H. apply complete_feed in H.
  assert (feed initial (text +:+ writerow d row) =
          {| rows := reader text ++ [row]; cur := StartRecord |}) as E.
  { rewrite feed_app, H. rewrite <- (append_empty_r (writerow d row)).
    now rewrite feed_writerow. }
  unfold reader at 1, complete. rewrite E. simpl. now rewrite app_nil_r.
Qed.

Lemma reader_written recs :
  Forall (fun r => cr_quoted (fst r) (snd r) = true) recs ->
  reader (written recs) = map snd recs /\ complete (written recs) = true.
Proof.
  intros Hq.
  assert (feed initial (written recs) =
          {| rows := map snd recs; cur := StartRecord |}) as E.
  { rewrite <- (append_empty_r (written recs)). unfold initial.
    now rewrite feed_written. }
  unfold reader, complete. rewrite E. simpl. now rewrite app_nil_r.
Qed.

Lemma reader_writerow d row :
  cr_quoted d row = true -> reader (writerow d row) = [row].
Proof.
  intros Hq. pose proof (reader_written [(d, row)]) as [H _].
  { constructor; [assumption | constructor]. }
  simpl in H. now rewrite append_empty_r in H.
Qed.


(** On values without a carriage return the two writers write the same
    text. *)
Lemma needs_quotes_no_cr d f :
  Py.contains CR f = false -> needs_quotes d f = needs_quotes false f.
Proof.
  induction f as [|c f IH]; [reflexivity|]. simpl. intros H.
  apply orb_false_iff in H as [Hc Hf]. rewrite (IH Hf).
  unfold special. rewrite Hc. now rewrite !andb_false_r.
Qed.

Lemma writerow_no_cr d row :
  Forall (fun f => Py.contains CR f = false) row ->
  writerow d row = writerow false row.
Proof.
  intros H.
  assert (join_fields d row = join_fields false row) as E.
  { induction H as [|f row Hf Hrow IH]; [reflexivity|].
    assert (write_field d f = write_field false f) as Ef.
    { unfold write_field. now rewrite (needs_quotes_no_cr d). }
    destruct row as [|g row]; [exact Ef|].
    change (join_fields d (f :: g :: row))
      with (write_field d f +:+ String delimiter (join_fields d (g :: row))).
    change (join_fields false (f :: g :: row))
      with (write_field false f +:+ String delimiter (join_fields false (g :: row))).
    now rewrite Ef, IH. }
  unfold writerow. rewrite E. reflexivity.
Qed.

End CsvFacts.

(** ** Facts about paths and report identifiers *)

Section PathFacts.
Import Py PosixPath.

Lemma rfind_ge c s : (-1 <= rfind c s)%Z.
Proof. unfold rfind. destruct (rfind_from_cases c s 0 (-1)); lia. Qed.

(** The extension never contains a path separator. *)
Lemma splitext_ext_no_sep p : contains sep (snd (splitext p)) = false.
Proof.
  unfold splitext.
  destruct (rfind sep p <? rfind extsep p)%Z eqn:E; [|reflexivity].
  destruct (has_non_dot _ _ _); [|reflexivity].
  simpl. apply Z.ltb_lt in E. pose proof (rfind_ge sep p).
  apply (rfind_from_drop sep p 0 (-1)). fold (rfind sep p). lia.
Qed.

(** A name without a dot has no extension. *)
Lemma splitext_no_dot p :
  contains extsep p = false -> splitext p = (p, EmptyString).
Proof.
  intros H. unfold splitext.
  assert (rfind extsep p = (-1)%Z) as -> by now apply rfind_from_absent.
  pose proof (rfind_ge sep p).
  destruct (rfind sep p <? -1)%Z eqn:E; [apply Z.ltb_lt in E; lia | reflexivity].
Qed.

Lemma join_relative d c s :
  Ascii.eqb c sep = false -> Py.truthy d = true -> endswith_sep d = false ->
  join d (String c s) = d +:+ String sep (String c s).
Proof. intros Hc Hd He. unfold join. now rewrite Hc, Hd, He. Qed.

Lemma rfind_from_app c a b i acc :
  rfind_from c (a +:+ b) i acc =
  rfind_from c b (i + Z.of_nat (String.length a)) (rfind_from c a i acc).
Proof.
  revert i acc. induction a as [|x a IH]; intros i acc.
  - simpl. f_equal. lia.
  - rewrite append_cons. simpl rfind_from. rewrite IH. f_equal. simpl String.length. lia.
Qed.

Lemma take_app_length a b : take (String.length a) (a +:+ b) = a.
Proof. induction a as [|x a IH]; [now destruct b|]. simpl. now rewrite IH. Qed.

(** A file placed directly in a directory has that directory as parent. *)
Lemma parent_child d fname :
  contains sep fname = false ->
  parent (d +:+ String sep fname) = Some d.
Proof.
  intros H. unfold parent, rfind.
  rewrite rfind_from_app. simpl rfind_from.
  rewrite ?Ascii.eqb_refl, (rfind_from_absent _ _ _ _ H).
  destruct (0 + Z.of_nat (String.length d) <? 0)%Z eqn:E; [apply Z.ltb_lt in E; lia|].
  f_equal. rewrite Z.add_0_l, Nat2Z.id. apply take_app_length.
Qed.

Lemma drop_app_length a b : drop (String.length a) (a +:+ b) = b.
Proof. induction a as [|x a IH]; [now destruct b|]. simpl. now rewrite IH. Qed.

(** The name of a file placed directly in a directory. *)
Lemma basename_child d fname :
  contains sep fname = false ->
  basename (d +:+ String sep fname) = fname.
Proof.
  intros H. unfold basename, rfind.
  rewrite rfind_from_app. simpl rfind_from.
  rewrite ?Ascii.eqb_refl, (rfind_from_absent _ _ _ _ H).
  rewrite Z.add_0_l.
  replace (Z.to_nat (Z.of_nat (String.length d) + 1))
    with (String.length (d +:+ String sep EmptyString))
    by (rewrite length_app; simpl; lia).
  rewrite <- (drop_app_length (d +:+ String sep EmptyString) fname) at 2.
  now rewrite append_assoc.
Qed.

End PathFacts.

Section ClockFacts.
Import Py Clock Runs.

Lemma digit_is_digit n : is_digit (digit n) = true.
Proof.
  unfold digit. pose proof (Z.mod_pos_bound n 10 ltac:(lia)) as H.
  assert (exists k, (k < 10)%nat /\ Z.to_nat (48 + n mod 10) = (48 + k)%nat) as (k & Hk & ->).
  { exists (Z.to_nat (n mod 10)). lia. }
  do 10 (destruct k as [|k]; [reflexivity|]). lia.
Qed.

Lemma all_digits_app a b :
  all_digits (a +:+ b) = all_digits a && all_digits b.
Proof.
  induction a as [|c a IH]; [reflexivity|].
  rewrite append_cons. simpl. rewrite IH. apply andb_assoc.
Qed.

Lemma all_digits_no c s :
  is_digit c = false -> all_digits s = true -> contains c s = false.
Proof.
  intros Hc. induction s as [|a s IH]; [reflexivity|]. simpl.
  intros H. apply andb_true_iff in H as [Ha Hs].
  rewrite IH by assumption. rewrite orb_false_r.
  destruct (Ascii.eqb_spec a c); [congruence|reflexivity].
Qed.

Lemma zfill2 n : (0 <= n < 100)%Z ->
  zfill 2 n = String (digit (n / 10)) (String (digit n) EmptyString).
Proof.
  intros H. unfold zfill, decimal.
  destruct (Z.to_nat n) as [|k] eqn:E.
  - assert (n = 0%Z) as -> by lia. reflexivity.
  - simpl decimal_go. destruct (n / 10 =? 0)%Z eqn:D.
    + apply Z.eqb_eq in D. rewrite D. reflexivity.
    + destruct (n / 10 / 10 =? 0)%Z eqn:D2; [reflexivity|].
      apply Z.eqb_neq in D2. exfalso. apply D2.
      rewrite Z.div_div by lia. apply Z.div_small. lia.
Qed.

Lemma zfill4 n : (0 <= n < 10000)%Z ->
  zfill 4 n = String (digit (n / 10 / 10 / 10)) (String (digit (n / 10 / 10))
                (String (digit (n / 10)) (String (digit n) EmptyString))).
Proof.
  intros H. unfold zfill, decimal.
  destruct (Z.to_nat n) as [|[|[|k]]] eqn:E.
  - assert (n = 0%Z) as -> by lia. reflexivity.
  - assert (n = 1%Z) as -> by lia. reflexivity.
  - assert (n = 2%Z) as -> by lia. reflexivity.
  - simpl decimal_go. destruct (n / 10 =? 0)%Z eqn:D1.
    { apply Z.eqb_eq in D1. rewrite D1. reflexivity. }
    destruct (n / 10 / 10 =? 0)%Z eqn:D2.
    { apply Z.eqb_eq in D2. rewrite D2. reflexivity. }
    destruct (n / 10 / 10 / 10 =? 0)%Z eqn:D3.
    { apply Z.eqb_eq in D3. rewrite D3. reflexivity. }
    destruct (n / 10 / 10 / 10 / 10 =? 0)%Z eqn:D4; [reflexivity|].
    apply Z.eqb_neq in D4. exfalso. apply D4.
    rewrite !Z.div_div by lia. apply Z.div_small. lia.
Qed.

Lemma zfill2_length n : (0 <= n < 100)%Z -> String.length (zfill 2 n) = 2.
Proof. intros H. now rewrite zfill2. Qed.

Lemma zfill4_length n : (0 <= n < 10000)%Z -> String.length (zfill 4 n) = 4.
Proof. intros H. now rewrite zfill4. Qed.

End ClockFacts.

(** ** Facts about the file operations *)

Section SysFacts.
Import Sys SysAux.

Lemma open_for_writing_eq p e w :
  open_for_writing p e w =
  match open_error e (fs w) p with
  | Some x => (Raise x, w)
  | None => (Ok (match fs w !! p with
                 | Some (File old) => Some old
                 | _ => None
                 end), w)
  end.
Proof.
  unfold open_for_writing, check_nul, check_parent, check_length, open_error.
  unfold bind, lookup_node, denied, raise, ret.
  destruct (Py.contains NUL p); [reflexivity|].
  destruct (NAME_MAX <? String.length (PosixPath.basename p)).
  all: destruct (PosixPath.parent p) as [[|a d]|]; cbn [fs trace].
  all: try (destruct (fs w !! String a d) as [[|?]|]).
  all: try reflexivity.
  all: destruct (fs w !! p) as [[|?]|]; try reflexivity.
  all: destruct (denies e p); reflexivity.
Qed.

Lemma write_file_eq p c e w :
  write_file p c e w =
  match open_error e (fs w) p with
  | Some x => (Raise x, w)
  | None => (Ok tt, {| fs := <[p := File c]> (fs w);
                       trace := trace w ++ [WriteFile p c] |})
  end.
Proof.
  unfold write_file. unfold bind at 1. rewrite open_for_writing_eq.
  destruct (open_error e (fs w) p); reflexivity.
Qed.

Lemma append_file_eq p c e w :
  append_file p c e w =
  match open_error e (fs w) p with
  | Some x => (Raise x, w)
  | None => (Ok tt, {| fs := <[p := File (content_of (fs w) p +:+ c)]> (fs w);
                       trace := trace w ++ [AppendFile p c] |})
  end.
Proof.
  unfold append_file. unfold bind at 1. rewrite open_for_writing_eq.
  destruct (open_error e (fs w) p); [reflexivity|].
  unfold content_of, bind, put, record. cbn [fs trace].
  destruct (fs w !! p) as [[|old]|]; reflexivity.
Qed.
End SysFacts.

(** ** The program, step by step *)

Section ProgramFacts.
Import Sys SysAux OHS Steps.

Lemma open_error_top e files p :
  PosixPath.parent p = None -> name_error p = None ->
  open_error e files p =
  match files !! p with
  | Some Dir => Some (OSError "[Errno 21] Is a directory" p)
  | _ => match denies e p with
         | Some msg => Some (OSError msg p)
         | None => None
         end
  end.
Proof.
  intros H. unfold open_error, name_error. rewrite H.
  destruct (Py.contains NUL p); [discriminate|].
  destruct (NAME_MAX <? _); [discriminate|]. reflexivity.
Qed.

Lemma parent_reports : PosixPath.parent REPORTS_CSV = None.
Proof. reflexivity. Qed.

(** Opening the log fails on a directory or on a refusal. *)
Lemma open_error_log e files :
  open_error e files REPORTS_CSV =
  match files !! REPORTS_CSV with
  | Some Dir => Some (OSError "[Errno 21] Is a directory" REPORTS_CSV)
  | _ => match denies e REPORTS_CSV with
         | Some msg => Some (OSError msg REPORTS_CSV)
         | None => None
         end
  end.
Proof. apply open_error_top; reflexivity. Qed.

(** The header line does not depend on the writer. *)
Lemma header_line d : Csv.writerow d COLUMNS = HEADER_LINE.
Proof. destruct d; reflexivity. Qed.

Lemma csv_text_columns d cols :
  Pandas.csv_text d (Pandas.of_columns cols) true = Csv.writerow d cols.
Proof. unfold Pandas.csv_text. simpl. apply append_empty_r. Qed.

Lemma csv_text_dict d dict :
  Pandas.csv_text d (Pandas.of_dict dict) false = Csv.writerow d (map snd dict).
Proof. unfold Pandas.csv_text. simpl. apply append_empty_r. Qed.

Lemma makedirs_uploads e w :
  makedirs UPLOADS_DIR e w =
  match fs w !! UPLOADS_DIR with
  | Some _ => (Raise (OSError "[Errno 17] File exists" UPLOADS_DIR), w)
  | None =>
      match denies e UPLOADS_DIR with
      | Some msg => (Raise (OSError msg UPLOADS_DIR), w)
      | None => (Ok tt, {| fs := <[UPLOADS_DIR := Dir]> (fs w);
                           trace := trace w ++ [MakeDir UPLOADS_DIR] |})
      end
  end.
Proof.
  unfold makedirs, check_nul, check_length.
  change (Py.contains NUL UPLOADS_DIR) with false.
  change (NAME_MAX <? String.length (PosixPath.basename UPLOADS_DIR)) with false.
  unfold bind, lookup_node, ret, denied, raise, put, record. cbn [fs trace].
  destruct (fs w !! UPLOADS_DIR); [reflexivity|].
  destruct (denies e UPLOADS_DIR); reflexivity.
Qed.

Lemma initialize_storage_eq e w :
  initialize_storage e w =
  match init_dir e w with
  | (Ok _, w1) => init_log e w1
  | (Raise x, w1) => (Raise x, w1)
  end.
Proof.
  assert (forall w1, to_csv (Pandas.of_columns COLUMNS) REPORTS_CSV false true e w1 =
            match open_error e (fs w1) REPORTS_CSV with
            | Some x => (Raise x, w1)
            | None => (Ok tt, {| fs := <[REPORTS_CSV := File HEADER_LINE]> (fs w1);
                                 trace := trace w1 ++ [WriteFile REPORTS_CSV HEADER_LINE] |})
            end) as Hcsv.
  { intros w1. unfold to_csv, csv_writer. unfold bind at 1.
    now rewrite write_file_eq, csv_text_columns, header_line. }
  unfold initialize_storage, init_dir, init_log, path_exists.
  unfold bind at 1. unfold bind at 1. unfold lookup_node at 1, ret at 1.
  destruct (fs w !! UPLOADS_DIR) as [n|] eqn:Eu; cbn [negb].
  - unfold bind at 1. unfold ret at 1. unfold bind at 1. unfold bind at 1.
    unfold lookup_node, ret at 1.
    destruct (fs w !! REPORTS_CSV) as [m|] eqn:El; cbn [negb]; [reflexivity|].
    rewrite Hcsv, open_error_log, El.
    destruct (denies e REPORTS_CSV); reflexivity.
  - unfold bind at 1. rewrite makedirs_uploads, Eu.
    destruct (denies e UPLOADS_DIR) as [msg|]; [reflexivity|]. cbn [fs trace].
    unfold bind at 1. unfold bind at 1. unfold lookup_node, ret at 1. cbn [fs].
    destruct (<[UPLOADS_DIR:=Dir]> (fs w) !! REPORTS_CSV) as [m|] eqn:El; cbn [negb]; [reflexivity|].
    rewrite Hcsv, open_error_log. cbn [fs]. rewrite El.
    destruct (denies e REPORTS_CSV); reflexivity.
Qed.

Lemma save_report_eq d e w :
  save_report d e w =
  match open_error e (fs w) REPORTS_CSV with
  | Some x =>
      (Ok false, {| fs := fs w;
                    trace := trace w ++ [Ui StError ("Error saving report: " +:+ str_exn x)] |})
  | None =>
      (Ok true, {| fs := <[REPORTS_CSV := File (content_of (fs w) REPORTS_CSV
                                               +:+ Csv.writerow (quotes_cr e) (map snd d))]> (fs w);
                   trace := trace w ++ [AppendFile REPORTS_CSV
                                          (Csv.writerow (quotes_cr e) (map snd d))] |})
  end.
Proof.
  unfold save_report, try_except, to_csv, csv_writer. unfold bind at 1. unfold bind at 1.
  rewrite append_file_eq, csv_text_dict.
  destruct (open_error e (fs w) REPORTS_CSV); reflexivity.
Qed.

Lemma save_image_eq u rid e w :
  save_image (Some u) rid e w =
  match open_error e (fs w) (image_path_of u rid) with
  | Some x => (Raise x, w)
  | None =>
      (Ok (Some (image_path_of u rid)),
       {| fs := <[image_path_of u rid := File (getbuffer u)]> (fs w);
          trace := trace w ++ [WriteFile (image_path_of u rid) (getbuffer u)] |})
  end.
Proof.
  unfold save_image, bind. fold (image_path_of u rid).
  rewrite write_file_eq.
  destruct (open_error e (fs w) (image_path_of u rid)); reflexivity.
Qed.

(** An accepted submission: the image step, then the rest. *)
Lemma submission_accepted f e w :
  Py.truthy (description f) = true -> Py.truthy (specific_area f) = true ->
  submission f e w =
  match save_image (uploaded_photo f) (report_id_of (now e)) e w with
  | (Ok image_path, w1) => finish f image_path e w1
  | (Raise x, w1) => (Raise x, w1)
  end.
Proof.
  intros Hd Ha. unfold submission. rewrite Hd, Ha. cbn [negb orb].
  unfold bind at 1. unfold datetime_now at 1. unfold bind at 1.
  destruct (save_image _ _ e w) as [[ip|x] w1]; [|reflexivity].
  unfold bind at 1. rewrite save_report_eq. unfold finish, line_of.
  destruct (open_error e (fs w1) REPORTS_CSV); reflexivity.
Qed.

Lemma submission_rejected f e w :
  Py.truthy (description f) = false \/ Py.truthy (specific_area f) = false ->
  submission f e w = (Ok tt, add_events w [Ui StError VALIDATION_MESSAGE]).
Proof.
  intros H. unfold submission.
  assert (negb (Py.truthy (description f)) || negb (Py.truthy (specific_area f)) = true) as ->.
  { destruct H as [-> | ->]; [reflexivity | apply orb_true_r]. }
  reflexivity.
Qed.

(** The header raises when something that is no picture stands at the
    logo path, and otherwise shows the logo or the warning. *)
Lemma header_eq e w :
  header e w =
  match header_error e (fs w) with
  | Some x => (Raise x, w)
  | None => (Ok tt, add_events w [logo_event (fs w)])
  end.
Proof.
  unfold header, path_exists, st_image, header_error, logo_error, logo_event.
  unfold bind, lookup_node, ret, decoded, raise.
  destruct (fs w !! LOGO_PATH) as [[|content]|] eqn:E;
    cbn beta iota; rewrite ?E; try reflexivity.
  destruct (decodes e content); reflexivity.
Qed.

Lemma main_eq f e w :
  main f e w =
  match initialize_storage e w with
  | (Ok _, w1) =>
      match header_error e (fs w1) with
      | Some x => (Raise x, w1)
      | None =>
          if submitted f then submission f e (add_events w1 [logo_event (fs w1)])
          else (Ok tt, add_events w1 [logo_event (fs w1)])
      end
  | (Raise x, w1) => (Raise x, w1)
  end.
Proof.
  unfold main. unfold bind at 1.
  destruct (initialize_storage e w) as [[[]|x] w1]; [|reflexivity].
  unfold bind. rewrite header_eq.
  destruct (header_error e (fs w1)); [reflexivity|].
  destruct (submitted f); reflexivity.
Qed.

End ProgramFacts.

(** ** Validation *)

Section Validation.
Import Sys SysAux OHS Steps Runs Samples.

Lemma truthy_false s : Py.truthy s = false <-> s = EmptyString.
Proof. destruct s; simpl; split; congruence. Qed.

Lemma truthy_true s : Py.truthy s = true <-> s <> EmptyString.
Proof. destruct s; simpl; split; congruence. Qed.

Lemma existsb_snoc {A} (p : A -> bool) l x :
  existsb p (l ++ [x]) = existsb p l || p x.
Proof. rewrite existsb_app. simpl. now rewrite orb_false_r. Qed.

(** What the rest of an accepted submission shows is never the
    validation message. *)
Lemma finish_not_rejected f ip e w :
  rejected (snd (finish f ip e w)) = rejected w.
Proof.
  unfold finish, rejected.
  destruct (open_error e (fs w) REPORTS_CSV); cbn [snd trace];
    rewrite !existsb_snoc; cbn [is_validation_error];
    rewrite ?orb_false_r; try reflexivity.
Qed.

Lemma accepted_not_rejected f e files :
  Py.truthy (description f) = true -> Py.truthy (specific_area f) = true ->
  rejected (snd (exec (submission f) e files)) = false.
Proof.
  intros Hd Ha. unfold exec. rewrite submission_accepted by assumption.
  destruct (uploaded_photo f) as [u|].
  - rewrite save_image_eq.
    destruct (open_error e _ (image_path_of u _)); [reflexivity|].
    rewrite finish_not_rejected. reflexivity.
  - unfold save_image, ret. rewrite finish_not_rejected. reflexivity.
Qed.

(** C1, as stated, fails: a specific area made of one space is empty
    after trimming, yet the submission is accepted and a row is
    appended. *)
Lemma C1_whitespace_only_is_accepted :
  ~ (forall (f : Form) (e : env) (files : gmap string node),
       rejected (snd (exec (submission f) e files)) = true <->
       (Py.strip (specific_area f) = EmptyString \/
        Py.strip (description f) = EmptyString)).
Proof.
  intros H.
  destruct (H blank_area (calm noon) ∅) as [_ Hrej].
  assert (rejected (snd (exec (submission blank_area) (calm noon) ∅)) = true) as E.
  { apply Hrej. left. reflexivity. }
  vm_compute in E. discriminate.
Qed.

(** C1 (amended): the submission logic shows the validation error,
    the fixed message naming both required fields, exactly when
    [specific_area] or [description] is the empty string (no trimming
    is done); in that case nothing else happens: the file system is
    left as it was and the error is the only output. *)
Theorem C1_validation_error_iff_empty (f : Form) (e : env) (files : gmap string node) :
  (rejected (snd (exec (submission f) e files)) = true <->
   (specific_area f = EmptyString \/ description f = EmptyString)) /\
  (rejected (snd (exec (submission f) e files)) = true ->
   exec (submission f) e files =
   (Ok tt, {| fs := files; trace := [Ui StError VALIDATION_MESSAGE] |})).
Proof.
  destruct (Py.truthy (description f)) eqn:Hd;
    [destruct (Py.truthy (specific_area f)) eqn:Ha|].
  - rewrite (accepted_not_rejected f e files Hd Ha).
    apply truthy_true in Hd, Ha. split; [|discriminate].
    split; [discriminate|]. intros [H|H]; congruence.
  - unfold exec. rewrite submission_rejected by auto.
    apply truthy_false in Ha. split; [|reflexivity].
    split; [auto | reflexivity].
  - unfold exec. rewrite submission_rejected by auto.
    apply truthy_false in Hd. split; [|reflexivity].
    split; [auto | reflexivity].
Qed.

Lemma C1_validation_error_iff_empty_witness :
  exec (submission no_description) (calm noon) ∅ =
  (Ok tt, {| fs := ∅; trace := [Ui StError VALIDATION_MESSAGE] |}).
Proof.
  destruct (C1_validation_error_iff_empty no_description (calm noon) ∅) as [_ H].
  apply H. reflexivity.
Defined.

(** C3: when [specific_area] or [description] is missing, the
    submission logic only shows the validation error: no identifier is
    made, no image is written, no row is appended. Over a whole run of
    the page, the files are those the initializer leaves, every write
    of the run is the initializer's, and storage that is already set
    up is left exactly as it was. *)
Theorem C3_missing_field_changes_nothing (f : Form) (e : env) (files : gmap string node) :
  specific_area f = EmptyString \/ description f = EmptyString ->
  exec (submission f) e files =
    (Ok tt, {| fs := files; trace := [Ui StError VALIDATION_MESSAGE] |}) /\
  fs (snd (exec (main f) e files)) = fs (snd (exec initialize_storage e files)) /\
  (forall ev, In ev (trace (snd (exec (main f) e files))) ->
     is_file_write ev = true ->
     In ev (trace (snd (exec initialize_storage e files)))) /\
  (is_Some (files !! UPLOADS_DIR) -> is_Some (files !! REPORTS_CSV) ->
   fs (snd (exec (main f) e files)) = files /\
   forall ev, In ev (trace (snd (exec (main f) e files))) -> is_file_write ev = false).
Proof.
  intros Hmiss.
  assert (Py.truthy (description f) = false \/ Py.truthy (specific_area f) = false) as Hf.
  { destruct Hmiss as [H|H]; rewrite H; auto. }
  split; [unfold exec; now rewrite submission_rejected|].
  unfold exec. rewrite main_eq.
  destruct (initialize_storage e {| fs := files; trace := [] |}) as [[[]|x] w1] eqn:Ei.
  - assert (exists evs,
              snd (match header_error e (fs w1) with
                   | Some x => (Raise x, w1)
                   | None =>
                       if submitted f
                       then submission f e (add_events w1 [logo_event (fs w1)])
                       else (Ok tt, add_events w1 [logo_event (fs w1)])
                   end) = add_events w1 evs /\
              forall ev, In ev evs -> is_file_write ev = false) as (evs & -> & Hevs).
    { assert (is_file_write (logo_event (fs w1)) = false) as Hlogo.
      { unfold logo_event. destruct (fs w1 !! LOGO_PATH); reflexivity. }
      destruct (header_error e (fs w1)).
      - exists []. split; [|intros ev []].
        destruct w1. unfold add_events. cbn [snd fs trace]. now rewrite app_nil_r.
      - destruct (submitted f); [rewrite submission_rejected by assumption|].
        + exists [logo_event (fs w1); Ui StError VALIDATION_MESSAGE]. split.
          * unfold add_events. cbn [snd fs trace]. now rewrite <- app_assoc.
          * intros ev [<-|[<-|[]]]; [assumption | reflexivity].
        + exists [logo_event (fs w1)]. split; [reflexivity|].
          intros ev [<-|[]]. assumption. }
    cbn [snd fs trace add_events].
    assert (forall ev, In ev (trace w1 ++ evs) ->
              is_file_write ev = true -> In ev (trace w1)) as Hw.
    { intros ev Hin Hev. apply in_app_or in Hin as [Hin|Hin]; [assumption|].
      rewrite (Hevs _ Hin) in Hev. discriminate. }
    split; [reflexivity|]. split; [exact Hw|].
    intros [nu Hu] [nl Hl].
    rewrite initialize_storage_eq in Ei. unfold init_dir, init_log in Ei.
    cbn [fs trace] in Ei. rewrite Hu in Ei. cbn [fs trace] in Ei.
    rewrite Hl in Ei. injection Ei as <-.
    split; [reflexivity|]. cbn [fs trace] in *.
    intros ev Hin. destruct (is_file_write ev) eqn:Hev; [|reflexivity].
    destruct (Hw ev Hin Hev).
  - cbn [snd]. split; [reflexivity|]. split; [auto|].
    intros [nu Hu] [nl Hl].
    rewrite initialize_storage_eq in Ei. unfold init_dir, init_log in Ei.
    cbn [fs trace] in Ei. rewrite Hu in Ei. cbn [fs trace] in Ei.
    rewrite Hl in Ei. discriminate.
Qed.

Lemma C3_missing_field_changes_nothing_witness :
  exec (submission no_description) (calm noon) ∅ =
    (Ok tt, {| fs := ∅; trace := [Ui StError VALIDATION_MESSAGE] |}).
Proof.
  apply (C3_missing_field_changes_nothing no_description (calm noon) ∅).
  right. reflexivity.
Defined.

End Validation.

(** ** What the initializer and a successful run leave behind *)

Lemma uploads_not_reports : OHS.UPLOADS_DIR <> OHS.REPORTS_CSV.
Proof. discriminate. Qed.

(** Case analysis on a run of the initializer: was each path there, and
    did the system refuse to create it. *)
Ltac init_cases H :=
  rewrite initialize_storage_eq in H;
  unfold Steps.init_dir, Steps.init_log in H;
  repeat match type of H with
    | context [match ?m !! ?k with _ => _ end] =>
        let E := fresh "E" in destruct (m !! k) eqn:E; cbn [Sys.fs Sys.trace] in H
    | context [match Sys.denies ?e ?k with _ => _ end] =>
        let E := fresh "D" in destruct (Sys.denies e k) eqn:E; cbn [Sys.fs Sys.trace] in H
    end;
  inversion H; subst; clear H; cbn [Sys.fs Sys.trace] in *;
  rewrite ?(lookup_insert_ne _ _ _ _ uploads_not_reports) in *.

Section RunFacts.
Import Sys SysAux OHS Steps Runs.

Lemma init_spec e w r w1 :
  initialize_storage e w = (r, w1) ->
  (forall p, p <> UPLOADS_DIR -> p <> REPORTS_CSV -> fs w1 !! p = fs w !! p) /\
  (forall n, fs w !! REPORTS_CSV = Some n -> fs w1 !! REPORTS_CSV = Some n) /\
  (forall n, fs w !! UPLOADS_DIR = Some n -> fs w1 !! UPLOADS_DIR = Some n) /\
  (fs w !! REPORTS_CSV = None ->
     (fs w1 !! REPORTS_CSV = None /\ r <> Ok tt) \/
     fs w1 !! REPORTS_CSV = Some (File HEADER_LINE)) /\
  (fs w !! UPLOADS_DIR = None ->
     fs w1 !! UPLOADS_DIR = None \/ fs w1 !! UPLOADS_DIR = Some Dir) /\
  (r = Ok tt -> is_Some (fs w1 !! UPLOADS_DIR) /\ is_Some (fs w1 !! REPORTS_CSV)) /\
  (exists evs, trace w1 = trace w ++ evs /\
     forall ev, In ev evs ->
       ev = MakeDir UPLOADS_DIR \/ ev = WriteFile REPORTS_CSV HEADER_LINE).
Proof.
  intros H. init_cases H.
  all: repeat match goal with |- _ /\ _ => split end.
  all: try (intros; simplify_map_eq; eauto; fail).
  all: try (intros; simplify_map_eq; split; eauto; fail).
  all: try (intros; right; simplify_map_eq; eauto; fail).
  all: try (intros; left; simplify_map_eq; split; [eauto|discriminate]; fail).
  all: rewrite <- ?app_assoc.
  all: try (exists []; split; [now rewrite app_nil_r | intros ? []]).
  all: try (eexists; split; [reflexivity|]; simpl; intuition auto; fail).
Qed.

Lemma all_digits_zeros k : all_digits (Clock.zeros k) = true.
Proof. induction k; [reflexivity|]. simpl. assumption. Qed.

Lemma all_digits_decimal_go fuel : forall n acc,
  all_digits acc = true -> all_digits (Clock.decimal_go fuel n acc) = true.
Proof.
  induction fuel as [|fuel IH]; intros n acc H; [assumption|].
  simpl. assert (all_digits (String (Clock.digit n) acc) = true) as H'.
  { simpl. now rewrite digit_is_digit. }
  destruct (n / 10 =? 0)%Z; [assumption | now apply IH].
Qed.

Lemma all_digits_zfill width n : all_digits (Clock.zfill width n) = true.
Proof.
  unfold Clock.zfill. rewrite all_digits_app, all_digits_zeros.
  now apply all_digits_decimal_go.
Qed.

Lemma report_id_unfold t :
  report_id_of t =
  "HAZ" +:+ Clock.zfill 4 (Clock.year t) +:+ Clock.zfill 2 (Clock.month t)
        +:+ Clock.zfill 2 (Clock.day t) +:+ "-"
        +:+ Clock.zfill 2 (Clock.hour t) +:+ Clock.zfill 2 (Clock.minute t)
        +:+ Clock.zfill 2 (Clock.second t).
Proof.
  rewrite <- (append_empty_r (Clock.zfill 2 (Clock.second t))) at 1. reflexivity.
Qed.

(** An identifier is made of letters, digits and a hyphen. *)
Lemma report_id_no_sep t : Py.contains PosixPath.sep (report_id_of t) = false.
Proof.
  rewrite report_id_unfold. rewrite !contains_app.
  rewrite !(fun w n => all_digits_no PosixPath.sep (Clock.zfill w n) eq_refl (all_digits_zfill w n)).
  reflexivity.
Qed.

Lemma image_path_report u t :
  image_path_of u (report_id_of t) =
  UPLOADS_DIR +:+ String PosixPath.sep
    (report_id_of t +:+ snd (PosixPath.splitext (name u))).
Proof.
  unfold image_path_of. rewrite report_id_unfold.
  rewrite !append_assoc. cbn [String.append].
  apply join_relative; reflexivity.
Qed.

Lemma image_parent u t :
  PosixPath.parent (image_path_of u (report_id_of t)) = Some UPLOADS_DIR.
Proof.
  rewrite image_path_report. apply parent_child.
  now rewrite contains_app, report_id_no_sep, splitext_ext_no_sep.
Qed.

Lemma image_path_not_log u t : image_path_of u (report_id_of t) <> REPORTS_CSV.
Proof. rewrite image_path_report. discriminate. Qed.

Lemma image_path_not_uploads u t : image_path_of u (report_id_of t) <> UPLOADS_DIR.
Proof. rewrite image_path_report. discriminate. Qed.

(** For a clock reading in range the identifier has 18 characters. *)
Lemma report_id_length t :
  Clock.valid t -> String.length (report_id_of t) = 18.
Proof.
  intros (Hy & Hm & Hd & HH & HM & HS & _). rewrite report_id_unfold.
  rewrite !length_app, zfill4_length, !zfill2_length by lia. reflexivity.
Qed.

Lemma report_id_no_nul t : Py.contains NUL (report_id_of t) = false.
Proof.
  rewrite report_id_unfold. rewrite !contains_app.
  rewrite !(fun w n => all_digits_no NUL (Clock.zfill w n) eq_refl (all_digits_zfill w n)).
  reflexivity.
Qed.

(** A NUL byte in the path of an image comes from the extension. *)
Lemma image_path_nul u t :
  Py.contains NUL (image_path_of u (report_id_of t)) =
  Py.contains NUL (snd (PosixPath.splitext (name u))).
Proof.
  rewrite image_path_report, contains_app.
  cbn [Py.contains UPLOADS_DIR Ascii.eqb Bool.eqb NUL PosixPath.sep orb].
  now rewrite contains_app, report_id_no_nul.
Qed.

(** What [open] makes of the path of an image depends on the extension
    alone: it must hold no NUL byte and fit, after the identifier, in a
    file name. *)
Lemma name_error_image u t :
  Clock.valid t ->
  name_error (image_path_of u (report_id_of t)) = None <->
  (Py.contains NUL (snd (PosixPath.splitext (name u))) = false /\
   18 + String.length (snd (PosixPath.splitext (name u))) <= NAME_MAX).
Proof.
  intros Hv. unfold name_error. rewrite image_path_report.
  rewrite basename_child
    by now rewrite contains_app, report_id_no_sep, splitext_ext_no_sep.
  rewrite length_app, report_id_length by assumption.
  rewrite contains_app. cbn [Py.contains UPLOADS_DIR Ascii.eqb Bool.eqb NUL PosixPath.sep orb].
  rewrite contains_app, report_id_no_nul. cbn [orb].
  destruct (Py.contains NUL (snd (PosixPath.splitext (name u))));
    [split; [discriminate | intros [? _]; discriminate]|].
  destruct (NAME_MAX <? _) eqn:E.
  - apply Nat.ltb_lt in E. split; [discriminate | intros [_ ?]; lia].
  - apply Nat.ltb_ge in E. split; [auto | reflexivity].
Qed.

Lemma image_path_truthy u rid : Py.truthy (image_path_of u rid) = true.
Proof.
  unfold image_path_of, PosixPath.join.
  destruct (rid +:+ _) as [|c s]; [reflexivity|].
  destruct (Ascii.eqb c PosixPath.sep); reflexivity.
Qed.

(** Opening a file in a directory: the name must be one the system
    takes, the directory must be there, and the file must be neither a
    directory nor refused. *)
Lemma open_error_in_dir e files p d :
  PosixPath.parent p = Some d -> d <> EmptyString ->
  open_error e files p = None <->
  (name_error p = None /\ files !! d = Some Dir /\
   files !! p <> Some Dir /\ denies e p = None).
Proof.
  intros Hp Hd. unfold open_error, name_error. rewrite Hp.
  destruct d as [|a d]; [congruence|].
  destruct (Py.contains NUL p); [split; [discriminate | intros (? & _); discriminate]|].
  destruct (files !! String a d) as [[|?]|];
    try (split; [discriminate | intros (_ & ? & _); discriminate]).
  destruct (NAME_MAX <? _); [split; [discriminate | intros (? & _); discriminate]|].
  destruct (files !! p) as [[|?]|];
    try (split; [discriminate | intros (_ & _ & ? & _); congruence]);
    destruct (denies e p);
    try (split; [discriminate | intros (_ & _ & _ & ?); discriminate]);
    (split; [intros _; repeat split; congruence | reflexivity]).
Qed.

(** Writing an image succeeds only into an upload directory. *)
Lemma open_error_image e files u t :
  open_error e files (image_path_of u (report_id_of t)) = None ->
  files !! UPLOADS_DIR = Some Dir /\
  denies e (image_path_of u (report_id_of t)) = None /\
  files !! image_path_of u (report_id_of t) <> Some Dir.
Proof.
  intros H. apply (open_error_in_dir _ _ _ UPLOADS_DIR) in H as (_ & ? & ? & ?);
    [auto | apply image_parent | discriminate].
Qed.

Lemma init_no_success e w r w1 :
  initialize_storage e w = (r, w1) -> succeeded w1 = succeeded w.
Proof.
  intros H. apply init_spec in H as (_ & _ & _ & _ & _ & _ & evs & Ht & Hev).
  unfold succeeded. rewrite Ht, existsb_app.
  assert (existsb is_success evs = false) as ->; [|apply orb_false_r].
  apply not_true_is_false. intros Hex. apply existsb_exists in Hex as (ev & Hin & Hs).
  destruct (Hev ev Hin) as [-> | ->]; discriminate.
Qed.

(** The two ways [save_image] returns. *)
Lemma save_image_ok uf rid e w ip w2 :
  save_image uf rid e w = (Ok ip, w2) ->
  (uf = None /\ ip = None /\ w2 = w) \/
  (exists u, uf = Some u /\ ip = Some (image_path_of u rid) /\
     open_error e (fs w) (image_path_of u rid) = None /\
     w2 = {| fs := <[image_path_of u rid := File (getbuffer u)]> (fs w);
             trace := trace w ++ [WriteFile (image_path_of u rid) (getbuffer u)] |}).
Proof.
  destruct uf as [u|].
  - rewrite save_image_eq.
    destruct (open_error e (fs w) (image_path_of u rid)) eqn:E; [discriminate|].
    intros H. injection H as <- <-. right. eauto.
  - unfold save_image, ret. intros H. injection H as <- <-. auto.
Qed.

(** A failing [save_image] changes nothing. *)
Lemma save_image_raise uf rid e w x w2 :
  save_image uf rid e w = (Raise x, w2) -> w2 = w.
Proof.
  destruct uf as [u|].
  - rewrite save_image_eq. destruct (open_error e (fs w) _); congruence.
  - unfold save_image, ret. discriminate.
Qed.

Lemma save_image_no_success uf rid e w r w2 :
  save_image uf rid e w = (r, w2) -> succeeded w2 = succeeded w.
Proof.
  destruct r as [ip|x]; intros H.
  - apply save_image_ok in H as [(_ & _ & ->)|(u & _ & _ & _ & ->)]; [reflexivity|].
    unfold succeeded. cbn [trace]. rewrite existsb_snoc. apply orb_false_r.
  - apply save_image_raise in H as ->. reflexivity.
Qed.

Lemma finish_succeeded f ip e w :
  succeeded w = false ->
  succeeded (snd (finish f ip e w)) = true ->
  open_error e (fs w) REPORTS_CSV = None.
Proof.
  intros Hw. unfold finish. destruct (open_error e (fs w) REPORTS_CSV); [|reflexivity].
  unfold succeeded in *. cbn [snd trace]. rewrite !existsb_snoc, Hw. discriminate.
Qed.

(** Anatomy of a run that showed the success message. *)
Lemma main_succeeded f e files :
  succeeded (snd (exec (main f) e files)) = true ->
  exists w1 ip w2,
    exec initialize_storage e files = (Ok tt, w1) /\
    header_error e (fs w1) = None /\
    submitted f = true /\
    Py.truthy (description f) = true /\ Py.truthy (specific_area f) = true /\
    save_image (uploaded_photo f) (report_id_of (now e)) e
      (add_events w1 [logo_event (fs w1)]) = (Ok ip, w2) /\
    open_error e (fs w2) REPORTS_CSV = None /\
    exec (main f) e files = finish f ip e w2.
Proof.
  unfold exec. rewrite main_eq.
  destruct (initialize_storage e _) as [[[]|x] w1] eqn:Ei.
  2:{ apply init_no_success in Ei. cbn [snd]. rewrite Ei. discriminate. }
  pose proof (init_no_success _ _ _ _ Ei) as Hs1.
  destruct (header_error e (fs w1)) eqn:Eh; [cbn [snd]; rewrite Hs1; discriminate|].
  assert (succeeded (add_events w1 [logo_event (fs w1)]) = false) as Hs2.
  { unfold succeeded, add_events in *. cbn [trace] in *. rewrite existsb_snoc, Hs1.
    unfold logo_event. destruct (fs w1 !! LOGO_PATH); reflexivity. }
  destruct (submitted f); [|cbn [snd]; rewrite Hs2; discriminate].
  destruct (Py.truthy (description f)) eqn:Hd;
    [destruct (Py.truthy (specific_area f)) eqn:Ha|].
  - rewrite submission_accepted by assumption.
    destruct (save_image _ _ e _) as [[ip|x] w2] eqn:Es.
    + pose proof (save_image_no_success _ _ _ _ _ _ Es) as Hs3. rewrite Hs2 in Hs3.
      intros H. exists w1, ip, w2. repeat split; try reflexivity; try assumption.
      now apply (finish_succeeded f ip).
    + apply save_image_no_success in Es. cbn [snd]. rewrite Es, Hs2. discriminate.
  - rewrite submission_rejected by auto. cbn [snd]. unfold succeeded, add_events in *.
    cbn [trace] in *. rewrite existsb_snoc, Hs2. discriminate.
  - rewrite submission_rejected by auto. cbn [snd]. unfold succeeded, add_events in *.
    cbn [trace] in *. rewrite existsb_snoc, Hs2. discriminate.
Qed.

(** The line appended is the row of submitted values. *)
Lemma line_of_submitted f e ip w w2 :
  save_image (uploaded_photo f) (report_id_of (now e)) e w = (Ok ip, w2) ->
  line_of f e ip = Csv.writerow (quotes_cr e) (submitted_row e f).
Proof.
  intros H. unfold line_of, submitted_row, report_data_of. cbn [map snd].
  apply save_image_ok in H as [(-> & -> & _)|(u & -> & -> & _)]; [reflexivity|].
  now rewrite image_path_truthy.
Qed.

Lemma log_text_insert files c :
  log_text (<[REPORTS_CSV := File c]> files) = Some c.
Proof. unfold log_text. now rewrite lookup_insert_eq. Qed.

(** The log after a run that showed the success message: what was there
    (the header, if the run had to create the log), then the new row. *)
Lemma success_log f e files :
  succeeded (snd (exec (main f) e files)) = true ->
  exists before,
    log_text (fs (snd (exec (main f) e files))) =
      Some (before +:+ Csv.writerow (quotes_cr e) (submitted_row e f)) /\
    (files !! REPORTS_CSV = None -> before = HEADER_LINE) /\
    (forall c, log_text files = Some c -> before = c).
Proof.
  intros H. apply main_succeeded in H as (w1 & ip & w2 & Hi & _ & _ & _ & _ & Hs & Ho & ->).
  unfold finish. rewrite Ho. cbn [snd fs]. rewrite log_text_insert.
  rewrite (line_of_submitted _ _ _ _ _ Hs).
  exists (content_of (fs w2) REPORTS_CSV). split; [reflexivity|].
  assert (fs w2 !! REPORTS_CSV = fs w1 !! REPORTS_CSV) as E2.
  { apply save_image_ok in Hs as [(_ & _ & ->)|(u & _ & _ & _ & ->)]; [reflexivity|].
    cbn [fs add_events]. apply lookup_insert_ne, image_path_not_log. }
  unfold exec in Hi. apply init_spec in Hi as (_ & Hkeep & _ & Hnew & _ & _ & _).
  cbn [fs] in *. unfold content_of. rewrite E2. split.
  - intros Hn. destruct (Hnew Hn) as [[_ Hr]|Hh]; [congruence|]. now rewrite Hh.
  - intros c Hc. unfold log_text in Hc.
    destruct (files !! REPORTS_CSV) as [[|c']|] eqn:El; try discriminate.
    injection Hc as ->. now rewrite (Hkeep _ eq_refl).
Qed.

Lemma usable_insert_file files p c :
  p <> UPLOADS_DIR -> usable files -> usable (<[p := File c]> files).
Proof.
  intros Hne (Hu & Hl & Hd). split; [|split].
  - intros c'. rewrite lookup_insert_ne by assumption. apply Hu.
  - destruct (decide (p = REPORTS_CSV)) as [->|Hp].
    + rewrite lookup_insert_eq. discriminate.
    + now rewrite lookup_insert_ne.
  - intros q Hq. destruct (decide (p = q)) as [->|Hpq].
    + rewrite lookup_insert_eq. discriminate.
    + rewrite lookup_insert_ne by assumption. now apply Hd.
Qed.

Lemma usable_insert_uploads files :
  usable files -> usable (<[UPLOADS_DIR := Dir]> files).
Proof.
  intros (Hu & Hl & Hd). split; [|split].
  - intros c'. rewrite lookup_insert_eq. discriminate.
  - now rewrite lookup_insert_ne by discriminate.
  - intros q Hq. destruct (decide (UPLOADS_DIR = q)) as [<-|Hne]; [discriminate Hq|].
    rewrite lookup_insert_ne by assumption. now apply Hd.
Qed.

Lemma usable_init e w r w1 :
  initialize_storage e w = (r, w1) -> usable (fs w) -> usable (fs w1).
Proof.
  intros Hi Hus. init_cases Hi; try assumption;
    repeat first [ apply usable_insert_file; [discriminate|]
                 | apply usable_insert_uploads ];
    assumption.
Qed.

(** After the initializer has returned normally on usable storage, the
    upload directory is a directory and the log is a file. *)
Lemma init_ok_usable e w w1 :
  initialize_storage e w = (Ok tt, w1) -> usable (fs w) ->
  fs w1 !! UPLOADS_DIR = Some Dir /\ exists c, fs w1 !! REPORTS_CSV = Some (File c).
Proof.
  intros Hi Hus. pose proof (usable_init _ _ _ _ Hi Hus) as (Hu & Hl & _).
  apply init_spec in Hi as (_ & _ & _ & _ & _ & Hs & _).
  destruct (Hs eq_refl) as [[nu Hnu] [nl Hnl]]. split.
  - destruct nu as [|c]; [assumption | now destruct (Hu c)].
  - destruct nl as [|c]; [now destruct Hl | eauto].
Qed.

Lemma init_permissive e files :
  permissive e ->
  exists w1, exec initialize_storage e files = (Ok tt, w1).
Proof.
  intros Hp. unfold exec.
  destruct (initialize_storage e _) as [r w1] eqn:Ei.
  pose proof (Hp UPLOADS_DIR) as P1. pose proof (Hp REPORTS_CSV) as P2.
  init_cases Ei; try congruence; eexists; reflexivity.
Qed.

(** After the initializer, a submission that passes validation succeeds
    when nothing is refused. *)
Lemma submission_succeeds f e w :
  permissive e -> storable e f -> usable (fs w) ->
  fs w !! UPLOADS_DIR = Some Dir -> (exists c, fs w !! REPORTS_CSV = Some (File c)) ->
  succeeded w = false ->
  passes_validation f ->
  succeeded (snd (submission f e w)) = true /\
  usable (fs (snd (submission f e w))).
Proof.
  intros Hp Hst Hus Hdir Hlog Hs0 (Hsub & Ha & Hd). apply truthy_true in Ha, Hd.
  rewrite submission_accepted by assumption.
  assert (forall w2 ip, usable (fs w2) -> (exists c, fs w2 !! REPORTS_CSV = Some (File c)) ->
            succeeded (snd (finish f ip e w2)) = true /\
            usable (fs (snd (finish f ip e w2)))) as Hfin.
  { intros w2 ip Hus2 [c2 Hl2]. unfold finish.
    rewrite open_error_log. rewrite Hl2, (Hp REPORTS_CSV).
    cbn [snd fs trace]. split.
    - unfold succeeded. cbn [trace]. rewrite !existsb_snoc. cbn [is_success].
      now rewrite orb_true_r.
    - apply usable_insert_file; [discriminate | assumption]. }
  destruct (uploaded_photo f) as [u|] eqn:Eu.
  - rewrite save_image_eq.
    assert (open_error e (fs w) (image_path_of u (report_id_of (now e))) = None) as ->.
    { apply (open_error_in_dir _ _ _ UPLOADS_DIR); [apply image_parent | discriminate |].
      split; [now apply Hst|]. split; [assumption|]. split; [|apply Hp].
      destruct Hus as (_ & _ & Hd1). apply Hd1, image_parent. }
    apply Hfin; cbn [fs].
    + apply usable_insert_file; [apply image_path_not_uploads | assumption].
    + rewrite lookup_insert_ne by apply image_path_not_log. assumption.
  - unfold save_image, ret. now apply Hfin.
Qed.

(** No run touches the logo. *)
Lemma main_keeps_logo f e files :
  fs (snd (exec (main f) e files)) !! LOGO_PATH = files !! LOGO_PATH.
Proof.
  unfold exec. rewrite main_eq.
  destruct (initialize_storage e _) as [r w1] eqn:Ei.
  assert (fs w1 !! LOGO_PATH = files !! LOGO_PATH) as H1.
  { apply init_spec in Ei as (Hoth & _). apply Hoth; discriminate. }
  destruct r as [[]|x]; [|assumption].
  destruct (header_error e (fs w1)); [assumption|].
  destruct (submitted f); [|assumption].
  destruct (Py.truthy (description f)) eqn:Hd;
    [destruct (Py.truthy (specific_area f)) eqn:Ha|];
    try (rewrite submission_rejected by auto; assumption).
  rewrite submission_accepted by assumption.
  destruct (save_image _ _ e _) as [[ip|y] w2] eqn:Es.
  - assert (fs w2 !! LOGO_PATH = files !! LOGO_PATH) as H2.
    { apply save_image_ok in Es as [(_ & _ & ->)|(u & _ & _ & Ho & ->)]; [assumption|].
      cbn [fs add_events]. rewrite lookup_insert_ne; [assumption|].
      intros E. pose proof (image_parent u (now e)) as Hp. rewrite E in Hp. discriminate Hp. }
    unfold finish. destruct (open_error e (fs w2) REPORTS_CSV); cbn [snd fs]; [assumption|].
    now rewrite lookup_insert_ne by discriminate.
  - apply save_image_raise in Es as ->. assumption.
Qed.

Lemma init_keeps_logo e files :
  fs (snd (exec initialize_storage e files)) !! LOGO_PATH = files !! LOGO_PATH.
Proof.
  unfold exec. destruct (initialize_storage e _) as [r w1] eqn:Ei.
  apply init_spec in Ei as (Hoth & _). apply Hoth; discriminate.
Qed.

Lemma run_succeeds f e files :
  unhindered files e f -> usable files -> passes_validation f ->
  succeeded (snd (exec (main f) e files)) = true /\
  usable (fs (snd (exec (main f) e files))).
Proof.
  intros (Hp & Hh & Hst) Hus Hv.
  destruct (init_permissive e files Hp) as (w1 & Hi).
  pose proof (init_keeps_logo e files) as Hlogo. rewrite Hi in Hlogo. cbn [snd] in Hlogo.
  unfold exec in *. rewrite main_eq, Hi.
  unfold header_error in *. rewrite Hlogo, Hh.
  destruct (init_ok_usable _ _ _ Hi Hus) as [Hdir Hlog].
  pose proof (usable_init _ _ _ _ Hi Hus) as Hus1.
  apply init_no_success in Hi.
  destruct Hv as (Hsub & Hv). rewrite Hsub.
  apply submission_succeeds; cbn [fs add_events]; try assumption.
  - unfold succeeded in *. cbn [trace add_events] in *. rewrite existsb_snoc, Hi.
    unfold logo_event. destruct (fs w1 !! LOGO_PATH); reflexivity.
  - now split.
Qed.

Lemma unhindered_logo files files' e f :
  files' !! LOGO_PATH = files !! LOGO_PATH ->
  unhindered files e f -> unhindered files' e f.
Proof.
  intros E (Hp & Hh & Hst). repeat split; try assumption.
  unfold header_error in *. now rewrite E.
Qed.

Lemma submit_all_succeeds subs : forall files0 files,
  files !! LOGO_PATH = files0 !! LOGO_PATH ->
  usable files ->
  Forall (fun s => unhindered files0 (fst s) (snd s) /\ passes_validation (snd s)) subs ->
  fst (submit_all subs files) = true.
Proof.
  induction subs as [|[e f] subs IH]; intros files0 files Hlogo Hus Hall; [reflexivity|].
  apply Forall_cons_iff in Hall as [[Hp Hv] Hall]. cbn [fst snd] in *.
  apply (unhindered_logo files0 files) in Hp; [|assumption].
  destruct (run_succeeds f e files Hp Hus Hv) as [Hs Hus'].
  simpl.
  assert (fs (snd (exec (main f) e files)) !! LOGO_PATH = files0 !! LOGO_PATH) as Hlogo'.
  { now rewrite main_keeps_logo. }
  specialize (IH files0 _ Hlogo' Hus' Hall).
  destruct (submit_all subs _) as [ok fin]. cbn [fst] in *. now rewrite Hs, IH.
Qed.

End RunFacts.

(** ** The log round trip *)

Section RoundTrip.
Import Sys SysAux OHS Steps Runs Samples.

Lemma submit_all_app pre : forall post files files',
  submit_all (pre ++ post) files = (true, files') ->
  exists mid, submit_all pre files = (true, mid) /\ submit_all post mid = (true, files').
Proof.
  induction pre as [|[e f] pre IH]; intros post files files' H.
  - exists files. auto.
  - simpl in H. destruct (submit_all (pre ++ post) _) as [ok fin] eqn:E.
    injection H as Hok ->. apply andb_true_iff in Hok as [Hs ->].
    destruct (IH _ _ _ E) as (mid & Hpre & Hpost).
    exists mid. simpl. rewrite Hpre, Hs. auto.
Qed.

(** Each successful run extends the text of the log by its row. *)
Lemma submit_all_text subs : forall files files' text,
  log_text files = Some text ->
  submit_all subs files = (true, files') ->
  log_text files' = Some (text +:+ Csv.written (records_of subs)).
Proof.
  induction subs as [|[e f] subs IH]; intros files files' text Ht H.
  - injection H as <-. simpl. now rewrite append_empty_r.
  - simpl in H. destruct (submit_all subs _) as [ok fin] eqn:E.
    injection H as Hok ->. apply andb_true_iff in Hok as [Hs ->].
    destruct (success_log f e files Hs) as (before & Hlog & _ & Hb).
    rewrite (Hb _ Ht) in Hlog.
    rewrite (IH _ _ _ Hlog E). simpl. now rewrite append_assoc.
Qed.

Lemma reader_header_rows recs :
  Forall (fun r => Csv.cr_quoted (fst r) (snd r) = true) recs ->
  Csv.reader (HEADER_LINE +:+ Csv.written recs) = COLUMNS :: map snd recs.
Proof.
  intros H. apply (reader_written ((false, COLUMNS) :: recs)).
  constructor; [reflexivity | assumption].
Qed.

Lemma rows_of_records subs : map snd (records_of subs) = rows_of subs.
Proof. unfold records_of, rows_of. rewrite map_map. reflexivity. Qed.

Lemma records_of_app a b : records_of (a ++ b) = records_of a ++ records_of b.
Proof. apply map_app. Qed.

Lemma readable_records subs :
  Forall (fun s => readable (fst s) (snd s)) subs ->
  Forall (fun r => Csv.cr_quoted (fst r) (snd r) = true) (records_of subs).
Proof.
  induction 1 as [|s subs Hs _ IH]; [constructor|].
  cbn [records_of map]. constructor; assumption.
Qed.

(** The row of a submission reads back as written under Python 3.13
    and later, and under any writer when no value holds a carriage
    return. *)
Lemma readable_when e f :
  quotes_cr e = true \/
  Forall (fun v => Py.contains Csv.CR v = false) (submitted_row e f) ->
  readable e f.
Proof.
  unfold readable. intros [->|H]; [apply cr_quoted_true | now apply cr_quoted_no_cr].
Qed.

(** What a bare carriage return does to the log: under an interpreter
    older than Python 3.13 the one accepted submission reads back as two
    broken rows after the header, of 7 and 2 columns; under Python 3.13
    it reads back as the row that was submitted. *)
Example bare_carriage_return_in_description :
  map (@length string)
      (log_rows (fs (snd (exec (main two_lines) (calm noon) ∅)))) = [8; 7; 2] /\
  log_rows (fs (snd (exec (main two_lines) (calm313 noon) ∅))) =
    [COLUMNS; submitted_row (calm313 noon) two_lines].
Proof. split; vm_compute; reflexivity. Qed.

(** C2, as stated, fails under an interpreter older than Python 3.13:
    a description with a bare carriage return in it is written without
    quotes, and the log of that one accepted submission does not read
    back as the header and the row that was submitted. *)
Lemma C2_carriage_return_breaks_rows :
  ~ (forall (e0 : env) (files0 : gmap string node) (w0 : world)
            (subs : list (env * Form)) (files' : gmap string node),
       files0 !! REPORTS_CSV = None ->
       exec initialize_storage e0 files0 = (Ok tt, w0) ->
       Forall (fun s => passes_validation (snd s)) subs ->
       submit_all subs (fs w0) = (true, files') ->
       log_rows files' = COLUMNS :: rows_of subs).
Proof.
  intros H.
  specialize (H (calm noon) ∅ (snd (exec initialize_storage (calm noon) ∅))
                [(calm noon, two_lines)]
                (snd (submit_all [(calm noon, two_lines)]
                        (fs (snd (exec initialize_storage (calm noon) ∅)))))).
  assert (length (log_rows (snd (submit_all [(calm noon, two_lines)]
                     (fs (snd (exec initialize_storage (calm noon) ∅)))))) <> 2) as Hn.
  { vm_compute. discriminate. }
  apply Hn. rewrite H; [reflexivity | reflexivity | vm_compute; reflexivity | |
                        vm_compute; reflexivity].
  constructor; [|constructor]. repeat split; discriminate.
Qed.

(** C2 (amended): after the initializer has created the log, N
    submissions that pass validation all succeed when nothing stands in
    the way, and N runs that each report success leave a log whose text
    is the header line followed by the lines of the N rows, in order.
    When the rows are readable (every value with a carriage return in it
    is written in quotes: always so from Python 3.13 on, and under any
    interpreter when no value holds a carriage return) the log reads
    back as N+1 rows: the header [ReportID, Timestamp, EmployeeID,
    Entity, SpecificArea, Urgency, Description, ImagePath], then one row
    per submission, in order, whose columns are the submitted values in
    that column order. After any number of the runs the log held the
    header and the rows so far, and the later appends only add text
    after it. More generally, on any log that ends at a record boundary
    a successful run adds its line at the end and leaves the text, hence
    the rows, before it untouched. *)
Theorem C2_log_round_trip (e0 : env) (files0 : gmap string node) (w0 : world)
    (subs : list (env * Form)) :
  files0 !! REPORTS_CSV = None ->
  exec initialize_storage e0 files0 = (Ok tt, w0) ->
  (usable files0 ->
   Forall (fun s => unhindered files0 (fst s) (snd s) /\ passes_validation (snd s)) subs ->
   fst (submit_all subs (fs w0)) = true) /\
  (forall files',
     submit_all subs (fs w0) = (true, files') ->
     log_text files' = Some (HEADER_LINE +:+ Csv.written (records_of subs)) /\
     (Forall (fun s => readable (fst s) (snd s)) subs ->
      log_rows files' = COLUMNS :: rows_of subs /\
      length (log_rows files') = S (length subs)) /\
     (forall pre post, subs = pre ++ post ->
        exists text,
          log_text (snd (submit_all pre (fs w0))) = Some text /\
          text = HEADER_LINE +:+ Csv.written (records_of pre) /\
          (Forall (fun s => readable (fst s) (snd s)) pre ->
           Csv.reader text = COLUMNS :: rows_of pre) /\
          log_text files' = Some (text +:+ Csv.written (records_of post)))) /\
  (forall e f,
     quotes_cr e = true \/
     Forall (fun v => Py.contains Csv.CR v = false) (submitted_row e f) ->
     readable e f) /\
  (forall e f files text,
     log_text files = Some text -> Csv.complete text = true ->
     succeeded (snd (exec (main f) e files)) = true ->
     log_text (fs (snd (exec (main f) e files))) =
       Some (text +:+ Csv.writerow (quotes_cr e) (submitted_row e f)) /\
     (readable e f ->
      log_rows (fs (snd (exec (main f) e files))) =
        log_rows files ++ [submitted_row e f])).
Proof.
  intros Hfresh Hinit. split; [|split; [|split; [exact readable_when|]]].
  - intros Hus Hall. apply (submit_all_succeeds subs files0); [| |assumption].
    + pose proof (init_keeps_logo e0 files0) as Hl. now rewrite Hinit in Hl.
    + unfold exec in Hinit. now apply (usable_init _ _ _ _ Hinit).
  - intros files' Hall.
    assert (log_text (fs w0) = Some HEADER_LINE) as H0.
    { unfold exec in Hinit. apply init_spec in Hinit as (_ & _ & _ & Hnew & _).
      destruct (Hnew Hfresh) as [[_ Hr]|Hh]; [congruence|].
      unfold log_text. now rewrite Hh. }
    pose proof (submit_all_text _ _ _ _ H0 Hall) as Htext.
    split; [assumption|]. split.
    { intros Hread.
      assert (log_rows files' = COLUMNS :: rows_of subs) as Hrows.
      { unfold log_rows. rewrite Htext, reader_header_rows by now apply readable_records.
        now rewrite rows_of_records. }
      split; [assumption|].
      rewrite Hrows. unfold rows_of. simpl. now rewrite length_map. }
    intros pre post ->.
    destruct (submit_all_app _ _ _ _ Hall) as (mid & Hpre & Hpost).
    rewrite Hpre. cbn [snd].
    pose proof (submit_all_text _ _ _ _ H0 Hpre) as Hmid.
    exists (HEADER_LINE +:+ Csv.written (records_of pre)).
    split; [assumption|]. split; [reflexivity|]. split.
    + intros Hread. rewrite reader_header_rows by now apply readable_records.
      now rewrite rows_of_records.
    + apply (submit_all_text _ _ _ _ Hmid Hpost).
  - intros e f files text Ht Hc Hs.
    destruct (success_log f e files Hs) as (before & Hlog & _ & Hb).
    rewrite (Hb _ Ht) in Hlog. split; [assumption|].
    intros Hread. unfold log_rows. rewrite Hlog, Ht. now apply reader_append.
Qed.

Lemma C2_log_round_trip_witness :
  fst (submit_all
         [(calm noon, guard_rail); (calm313 noon_later, with_photo two_lines photo_png)]
         (fs (snd (exec initialize_storage (calm noon) ∅)))) = true /\
  log_rows (snd (submit_all
              [(calm noon, guard_rail); (calm313 noon_later, with_photo two_lines photo_png)]
              (fs (snd (exec initialize_storage (calm noon) ∅))))) =
  COLUMNS :: rows_of [(calm noon, guard_rail);
                      (calm313 noon_later, with_photo two_lines photo_png)].
Proof.
  destruct (C2_log_round_trip (calm noon) ∅
              (snd (exec initialize_storage (calm noon) ∅))
              [(calm noon, guard_rail); (calm313 noon_later, with_photo two_lines photo_png)])
    as (Hlive & Hrows & _).
  - reflexivity.
  - vm_compute. reflexivity.
  - split.
    + apply Hlive.
      * repeat split; intros; rewrite lookup_empty; discriminate.
      * repeat constructor; cbn; try discriminate.
        intros u Hu. injection Hu as <-. vm_compute. reflexivity.
    + apply Hrows; [vm_compute; reflexivity|].
      repeat constructor; vm_compute; reflexivity.
Defined.

End RoundTrip.

(** ** The image and the row that refers to it *)

Section ImageReference.
Import Sys SysAux OHS Steps Runs Samples.

Lemma image_ref_submitted e f :
  image_ref (submitted_row e f) =
  match uploaded_photo f with
  | Some u => image_path_of u (report_id_of (now e))
  | None => "N/A"
  end.
Proof. reflexivity. Qed.

(** C4: after a run that reports success the log is what it was before
    (the header, if the run created it) followed by the row of the
    submission, which reads back as that row when it is readable. With
    a photo attached, the row's ImagePath is the path
    [uploads/{report_id}{extension}], a file with the uploaded bytes is
    at that path, and it lies in the upload directory. Without a photo
    the ImagePath is [N/A], the run writes no file other than the log,
    and every other file is as before. *)
Theorem C4_image_reference (f : Form) (e : env) (files : gmap string node) :
  succeeded (snd (exec (main f) e files)) = true ->
  let after := fs (snd (exec (main f) e files)) in
  let row := submitted_row e f in
  (exists before,
     log_text after = Some (before +:+ Csv.writerow (quotes_cr e) row) /\
     (files !! REPORTS_CSV = None -> before = HEADER_LINE) /\
     (forall c, log_text files = Some c -> before = c)) /\
  (readable e f -> Csv.reader (Csv.writerow (quotes_cr e) row) = [row]) /\
  match uploaded_photo f with
  | Some u =>
      image_ref row =
        UPLOADS_DIR +:+ "/" +:+ report_id_of (now e)
                    +:+ snd (PosixPath.splitext (name u)) /\
      after !! image_ref row = Some (File (getbuffer u)) /\
      PosixPath.parent (image_ref row) = Some UPLOADS_DIR /\
      after !! UPLOADS_DIR = Some Dir
  | None =>
      image_ref row = "N/A" /\
      (forall p c, In (WriteFile p c) (trace (snd (exec (main f) e files))) ->
         p = REPORTS_CSV) /\
      (forall p, p <> REPORTS_CSV -> p <> UPLOADS_DIR -> after !! p = files !! p)
  end.
Proof.
  intros H. cbv zeta.
  split; [now apply success_log|]. split; [apply reader_writerow|].
  rewrite image_ref_submitted.
  apply main_succeeded in H as (w1 & ip & w2 & Hi & _ & _ & _ & _ & Hs & Ho & ->).
  unfold finish. rewrite Ho. cbn [snd fs trace].
  unfold exec in Hi. apply init_spec in Hi as (Hoth & _ & _ & _ & _ & _ & evs & Ht & Hev).
  cbn [fs trace] in *.
  apply save_image_ok in Hs as [(Hu & _ & ->)|(u & Hu & _ & Herr & ->)]; rewrite Hu.
  - split; [reflexivity|]. cbn [fs trace add_events]. split.
    + intros p c Hin. rewrite Ht in Hin. cbn [app] in Hin.
      rewrite !in_app_iff in Hin. cbn [In] in Hin.
      repeat match goal with
             | H : _ \/ _ |- _ => destruct H
             | H : False |- _ => destruct H
             end; try discriminate.
      * destruct (Hev _ H) as [Hx|Hx]; [discriminate|]. now injection Hx.
      * unfold logo_event in H. destruct (fs w1 !! LOGO_PATH); discriminate.
    + intros p Hp Hq. rewrite lookup_insert_ne by congruence. now apply Hoth.
  - apply open_error_image in Herr as (Hdir & _ & _). cbn [fs add_events] in *.
    split; [apply image_path_report|].
    split; [|split].
    + rewrite lookup_insert_ne by (intros E; symmetry in E; now apply image_path_not_log in E).
      apply lookup_insert_eq.
    + apply image_parent.
    + rewrite lookup_insert_ne by discriminate.
      rewrite lookup_insert_ne by apply image_path_not_uploads.
      assumption.
Qed.

Lemma C4_image_reference_witness :
  log_text (fs (snd (exec (main (with_photo guard_rail photo_png)) (calm noon) ∅))) =
    Some (HEADER_LINE +:+
          Csv.writerow false (submitted_row (calm noon) (with_photo guard_rail photo_png))) /\
  fs (snd (exec (main (with_photo guard_rail photo_png)) (calm noon) ∅))
    !! "uploads/HAZ20240307-120005.png" = Some (File (getbuffer photo_png)) /\
  image_ref (submitted_row (calm noon) (with_photo guard_rail photo_png)) =
    "uploads/HAZ20240307-120005.png".
Proof.
  destruct (C4_image_reference (with_photo guard_rail photo_png) (calm noon) ∅)
    as ((before & Hlog & Hnew & _) & _ & Hpath & Hfile & _).
  - vm_compute. reflexivity.
  - rewrite (Hnew eq_refl) in Hlog. split; [exact Hlog|].
    split; [exact Hfile | exact Hpath].
Defined.

End ImageReference.

(** ** Report identifiers *)

Section ReportId.
Import Sys SysAux OHS Steps Runs Samples.

Lemma report_id_shape t :
  Clock.valid t ->
  exists d1 d2 d3 d4 d5 d6 d7 d8 t1 t2 t3 t4 t5 t6,
    report_id_of t =
      String "H" (String "A" (String "Z"
        (String d1 (String d2 (String d3 (String d4 (String d5 (String d6
        (String d7 (String d8 (String "-"
        (String t1 (String t2 (String t3 (String t4 (String t5 (String t6
         EmptyString))))))))))))))))) /\
    forallb is_digit [d1; d2; d3; d4; d5; d6; d7; d8; t1; t2; t3; t4; t5; t6] = true.
Proof.
  intros (Hy & Hm & Hd & HH & HM & HS & _).
  rewrite report_id_unfold.
  rewrite zfill4 by lia. rewrite !zfill2 by lia.
  do 14 eexists. split; [reflexivity|].
  cbn [forallb]. now rewrite !digit_is_digit.
Qed.

(** What an accepted submission writes, and that it goes through when
    neither write is refused. *)
Lemma submission_run f e files :
  specific_area f <> EmptyString -> description f <> EmptyString ->
  (forall p c, In (WriteFile p c) (trace (snd (exec (submission f) e files))) ->
     exists u, uploaded_photo f = Some u /\ c = getbuffer u /\
       p = image_path_of u (report_id_of (now e))) /\
  (forall p line, In (AppendFile p line) (trace (snd (exec (submission f) e files))) ->
     p = REPORTS_CSV /\ line = Csv.writerow (quotes_cr e) (submitted_row e f)) /\
  (open_error e files REPORTS_CSV = None ->
   (forall u, uploaded_photo f = Some u ->
      open_error e files (image_path_of u (report_id_of (now e))) = None) ->
   fst (exec (submission f) e files) = Ok tt /\
   succeeded (snd (exec (submission f) e files)) = true /\
   In (Ui StInfo ("Your Report ID is: **" +:+ report_id_of (now e) +:+ "**"))
      (trace (snd (exec (submission f) e files))) /\
   In (AppendFile REPORTS_CSV (Csv.writerow (quotes_cr e) (submitted_row e f)))
      (trace (snd (exec (submission f) e files)))).
Proof.
  intros Ha Hd. apply truthy_true in Ha, Hd.
  unfold exec. rewrite submission_accepted by assumption.
  destruct (save_image _ _ e _) as [[ip|x] w1] eqn:Es.
  - pose proof (line_of_submitted _ _ _ _ _ Es) as Hline.
    assert (open_error e (fs w1) REPORTS_CSV = open_error e files REPORTS_CSV) as Hopen.
    { rewrite !open_error_log.
      apply save_image_ok in Es as [(_ & _ & ->)|(u & _ & _ & _ & ->)]; [reflexivity|].
      cbn [fs]. now rewrite lookup_insert_ne by apply image_path_not_log. }
    assert (forall p c, In (WriteFile p c) (trace w1) ->
              exists u, uploaded_photo f = Some u /\ c = getbuffer u /\
                p = image_path_of u (report_id_of (now e))) as Hw.
    { apply save_image_ok in Es as [(_ & _ & ->)|(u & Hu & _ & _ & ->)]; cbn [trace].
      - intros p c [].
      - intros p c [E|[]]. injection E as <- <-. eauto. }
    assert (forall p line, ~ In (AppendFile p line) (trace w1)) as Hnoapp.
    { apply save_image_ok in Es as [(_ & _ & ->)|(u & Hu & _ & _ & ->)]; cbn [trace].
      - intros p c [].
      - intros p c [E|[]]. discriminate E. }
    unfold finish. rewrite Hopen, Hline.
    destruct (open_error e files REPORTS_CSV) as [x|]; cbn [fst snd trace].
    + split; [|split; [|discriminate]].
      * intros p c Hin. rewrite !in_app_iff in Hin. cbn [In] in Hin.
        destruct Hin as [[Hin|[E|[]]]|[E|[]]]; try discriminate. now apply Hw.
      * intros p line Hin. rewrite !in_app_iff in Hin. cbn [In] in Hin.
        destruct Hin as [[Hin|[E|[]]]|[E|[]]]; try discriminate.
        now apply Hnoapp in Hin.
    + split; [|split].
      * intros p c Hin. rewrite !in_app_iff in Hin. cbn [In] in Hin.
        destruct Hin as [[[[Hin|[E|[]]]|[E|[]]]|[E|[]]]|[E|[]]]; try discriminate.
        now apply Hw.
      * intros p line Hin. rewrite !in_app_iff in Hin. cbn [In] in Hin.
        destruct Hin as [[[[Hin|[E|[]]]|[E|[]]]|[E|[]]]|[E|[]]]; try discriminate.
        -- now apply Hnoapp in Hin.
        -- injection E as <- <-. auto.
      * intros _ _. split; [reflexivity|]. split.
        { unfold succeeded. cbn [trace]. rewrite !existsb_snoc. cbn [is_success].
          now rewrite orb_true_r. }
        rewrite !in_app_iff. cbn [In]. split; [left; right|left; left; left; right]; auto.
  - pose proof Es as Er. apply save_image_raise in Er as ->. cbn [fst snd trace].
    split; [intros p c []|]. split; [intros p c []|].
    intros _ Himg. destruct (uploaded_photo f) as [u|] eqn:Eu.
    + rewrite save_image_eq in Es. cbn [fs] in Es.
      rewrite (Himg u eq_refl) in Es. discriminate.
    + unfold save_image, ret in Es. discriminate.
Qed.

(** C5: when [specific_area] and [description] are not empty the
    submission passes validation, and the identifier made from the clock
    is [HAZ], the eight digits of the date, a hyphen and the six digits
    of the time of day, so it matches [HAZ\d{8}-\d{6}]. The submission
    works with that identifier: an image it writes goes to
    [uploads/{identifier}{extension}], a line it appends is the row whose
    first column is the identifier, and when neither write is refused it
    returns normally, appends that line and shows the success message
    and the identifier. A run of the page that reports success stores a
    row whose first column is that identifier. *)
Theorem C5_report_id_pattern (f : Form) (e : env) (files : gmap string node) :
  Clock.valid (now e) ->
  specific_area f <> EmptyString -> description f <> EmptyString ->
  rejected (snd (exec (submission f) e files)) = false /\
  matches_id_pattern (report_id_of (now e)) = true /\
  report_id_of (now e) =
    "HAZ" +:+ Clock.zfill 4 (Clock.year (now e))
          +:+ Clock.zfill 2 (Clock.month (now e))
          +:+ Clock.zfill 2 (Clock.day (now e)) +:+ "-"
          +:+ Clock.zfill 2 (Clock.hour (now e))
          +:+ Clock.zfill 2 (Clock.minute (now e))
          +:+ Clock.zfill 2 (Clock.second (now e)) /\
  nth 0 (submitted_row e f) EmptyString = report_id_of (now e) /\
  (forall p c, In (WriteFile p c) (trace (snd (exec (submission f) e files))) ->
     exists u, uploaded_photo f = Some u /\ c = getbuffer u /\
       p = UPLOADS_DIR +:+ "/" +:+ report_id_of (now e)
                       +:+ snd (PosixPath.splitext (name u))) /\
  (forall p line, In (AppendFile p line) (trace (snd (exec (submission f) e files))) ->
     p = REPORTS_CSV /\ line = Csv.writerow (quotes_cr e) (submitted_row e f)) /\
  (open_error e files REPORTS_CSV = None ->
   (forall u, uploaded_photo f = Some u ->
      open_error e files (image_path_of u (report_id_of (now e))) = None) ->
   fst (exec (submission f) e files) = Ok tt /\
   succeeded (snd (exec (submission f) e files)) = true /\
   In (Ui StInfo ("Your Report ID is: **" +:+ report_id_of (now e) +:+ "**"))
      (trace (snd (exec (submission f) e files))) /\
   In (AppendFile REPORTS_CSV (Csv.writerow (quotes_cr e) (submitted_row e f)))
      (trace (snd (exec (submission f) e files)))) /\
  (succeeded (snd (exec (main f) e files)) = true ->
   (exists before,
      log_text (fs (snd (exec (main f) e files))) =
        Some (before +:+ Csv.writerow (quotes_cr e) (submitted_row e f))) /\
   (readable e f ->
    Csv.reader (Csv.writerow (quotes_cr e) (submitted_row e f)) = [submitted_row e f])).
Proof.
  intros Hv Ha Hd.
  destruct (submission_run f e files Ha Hd) as (Hw & Happ & Hgo).
  apply truthy_true in Ha, Hd.
  split; [now apply accepted_not_rejected|].
  split; [|split; [apply report_id_unfold|]].
  { destruct (report_id_shape _ Hv)
      as (d1 & d2 & d3 & d4 & d5 & d6 & d7 & d8 & t1 & t2 & t3 & t4 & t5 & t6 & -> & Hdig).
    cbn [forallb] in Hdig.
    repeat (apply andb_true_iff in Hdig as [? Hdig]).
    unfold matches_id_pattern. cbn [Py.take Py.drop String.length all_digits Nat.eqb].
    repeat match goal with H : is_digit _ = true |- _ => rewrite H; clear H end.
    reflexivity. }
  split; [reflexivity|]. split.
  { intros p c Hin. destruct (Hw p c Hin) as (u & Hu & Hc & Hp).
    exists u. rewrite Hp, image_path_report. auto. }
  split; [assumption|]. split; [assumption|].
  intros Hs. destruct (success_log f e files Hs) as (before & Hlog & _).
  split; [now exists before|]. apply reader_writerow.
Qed.

Lemma C5_report_id_pattern_witness :
  succeeded (snd (exec (submission guard_rail) (calm noon) ∅)) = true /\
  In (Ui StInfo "Your Report ID is: **HAZ20240307-120005**")
     (trace (snd (exec (submission guard_rail) (calm noon) ∅))) /\
  matches_id_pattern "HAZ20240307-120005" = true.
Proof.
  destruct (C5_report_id_pattern guard_rail (calm noon) ∅)
    as (_ & H2 & _ & _ & _ & _ & Hgo & _).
  - unfold Clock.valid. simpl. lia.
  - discriminate.
  - discriminate.
  - destruct Hgo as (_ & Hs & Hinfo & _).
    + vm_compute. reflexivity.
    + intros u Hu. discriminate Hu.
    + split; [exact Hs|]. split; [exact Hinfo | exact H2].
Defined.

(** C9: the stored urgency is the part of the selected option before
    its first space: the option is that tag followed by nothing or by a
    space and the rest, and the tag holds no space. For the three
    options of the form the tag is the coloured symbol. A run that
    reports success stores a row whose Urgency column is the tag; the
    line reads back as that row when the row is readable. *)
Theorem C9_urgency_tag (f : Form) (e : env) (files : gmap string node) :
  (exists rest,
     urgency f = Py.item0 (Py.split " " (urgency f)) +:+ rest /\
     Py.contains " " (Py.item0 (Py.split " " (urgency f))) = false /\
     (rest = EmptyString \/ exists r, rest = String " " r)) /\
  (forall image_path,
     nth 5 (map snd (report_data_of f (now e) image_path)) EmptyString =
       Py.item0 (Py.split " " (urgency f))) /\
  Py.item0 (Py.split " " "🔴 Immediate Danger - Stop Work Required") = "🔴" /\
  Py.item0 (Py.split " " "🟡 Needs Attention - Potential for Harm") = "🟡" /\
  Py.item0 (Py.split " " "🟢 General Improvement / Observation") = "🟢" /\
  (succeeded (snd (exec (main f) e files)) = true ->
   (exists before,
      log_text (fs (snd (exec (main f) e files))) =
        Some (before +:+ Csv.writerow (quotes_cr e) (submitted_row e f))) /\
   (readable e f ->
    Csv.reader (Csv.writerow (quotes_cr e) (submitted_row e f)) = [submitted_row e f]) /\
   nth 5 (submitted_row e f) EmptyString = Py.item0 (Py.split " " (urgency f))).
Proof.
  split; [apply split_item0|].
  split; [intros ip; reflexivity|].
  repeat (split; [reflexivity|]).
  intros Hs. destruct (success_log f e files Hs) as (before & Hlog & _).
  split; [now exists before|]. split; [apply reader_writerow | reflexivity].
Qed.

Lemma C9_urgency_tag_witness :
  (exists before,
     log_text (fs (snd (exec (main guard_rail) (calm noon) ∅))) =
       Some (before +:+ Csv.writerow false (submitted_row (calm noon) guard_rail))) /\
  Csv.reader (Csv.writerow false (submitted_row (calm noon) guard_rail)) =
    [submitted_row (calm noon) guard_rail] /\
  nth 5 (submitted_row (calm noon) guard_rail) EmptyString = "🟡".
Proof.
  destruct (C9_urgency_tag guard_rail (calm noon) ∅) as (_ & _ & _ & _ & _ & H).
  destruct H as (H1 & H2 & H3); [vm_compute; reflexivity|].
  split; [exact H1|]. split; [|exact H3].
  apply H2. vm_compute. reflexivity.
Defined.

End ReportId.

(** ** Saving the image *)

Section SaveImage.
Import Sys SysAux OHS Steps Runs Samples.

(** C10, as stated, fails: with the upload directory in place and a
    system that refuses nothing, [save_image] still raises for a photo
    whose extension is 251 bytes long, because identifier and extension
    together are no file name the system takes. *)
Lemma C10_long_extension_is_refused :
  ~ (forall (u : UploadedFile) (t : Clock.datetime) (e : env) (w : world),
       Clock.valid t -> permissive e ->
       fs w !! UPLOADS_DIR = Some Dir ->
       fs w !! image_path_of u (report_id_of t) <> Some Dir ->
       exists p w', save_image (Some u) (report_id_of t) e w = (Ok (Some p), w')).
Proof.
  intros H.
  destruct (H photo_long noon (calm noon) {| fs := {[ UPLOADS_DIR := Dir ]}; trace := [] |})
    as (p & w' & E).
  - unfold Clock.valid. simpl. lia.
  - intros q. reflexivity.
  - reflexivity.
  - vm_compute. discriminate.
  - vm_compute in E. discriminate E.
Qed.

(** C10 (amended): for a name that holds no dot the extension is the
    empty string and the image goes to [uploads/{report_id}], the bare
    identifier: the name plays no part in the path, [open] takes that
    path, and the call returns it, with the bytes stored there, whenever
    the upload directory exists, the path is not a directory and the
    system does not refuse it. Whatever the name is, the image goes to a
    path directly inside the upload directory. But the call can fail
    because of the name: it raises [ValueError] when the extension holds
    a NUL byte and "File name too long" when identifier and extension
    exceed 255 bytes; with the upload directory in place it succeeds
    exactly when neither is so, the path is not a directory and the
    system does not refuse it. *)
Theorem C10_name_without_dot (u : UploadedFile) (t : Clock.datetime) (e : env) (w : world) :
  Clock.valid t ->
  (Py.contains "." (name u) = false ->
   snd (PosixPath.splitext (name u)) = EmptyString /\
   image_path_of u (report_id_of t) = UPLOADS_DIR +:+ "/" +:+ report_id_of t /\
   name_error (UPLOADS_DIR +:+ "/" +:+ report_id_of t) = None /\
   (fs w !! UPLOADS_DIR = Some Dir ->
    fs w !! (UPLOADS_DIR +:+ "/" +:+ report_id_of t) <> Some Dir ->
    denies e (UPLOADS_DIR +:+ "/" +:+ report_id_of t) = None ->
    save_image (Some u) (report_id_of t) e w =
      (Ok (Some (UPLOADS_DIR +:+ "/" +:+ report_id_of t)),
       {| fs := <[UPLOADS_DIR +:+ "/" +:+ report_id_of t := File (getbuffer u)]> (fs w);
          trace := trace w ++ [WriteFile (UPLOADS_DIR +:+ "/" +:+ report_id_of t)
                                         (getbuffer u)] |}))) /\
  PosixPath.parent (image_path_of u (report_id_of t)) = Some UPLOADS_DIR /\
  (fs w !! UPLOADS_DIR = Some Dir ->
   (save_image (Some u) (report_id_of t) e w =
      (Ok (Some (image_path_of u (report_id_of t))),
       {| fs := <[image_path_of u (report_id_of t) := File (getbuffer u)]> (fs w);
          trace := trace w ++ [WriteFile (image_path_of u (report_id_of t)) (getbuffer u)] |})
    <->
    (Py.contains NUL (snd (PosixPath.splitext (name u))) = false /\
     18 + String.length (snd (PosixPath.splitext (name u))) <= NAME_MAX /\
     fs w !! image_path_of u (report_id_of t) <> Some Dir /\
     denies e (image_path_of u (report_id_of t)) = None))) /\
  (Py.contains NUL (snd (PosixPath.splitext (name u))) = true ->
   save_image (Some u) (report_id_of t) e w =
     (Raise (ValueError "embedded null byte"), w)) /\
  (fs w !! UPLOADS_DIR = Some Dir ->
   Py.contains NUL (snd (PosixPath.splitext (name u))) = false ->
   NAME_MAX < 18 + String.length (snd (PosixPath.splitext (name u))) ->
   save_image (Some u) (report_id_of t) e w =
     (Raise (OSError "[Errno 36] File name too long" (image_path_of u (report_id_of t))), w)).
Proof.
  intros Hv.
  pose proof (image_path_nul u t) as Hnul.
  assert (String.length (PosixPath.basename (image_path_of u (report_id_of t))) =
          18 + String.length (snd (PosixPath.splitext (name u)))) as Hlen.
  { rewrite image_path_report.
    rewrite basename_child
      by now rewrite contains_app, report_id_no_sep, splitext_ext_no_sep.
    now rewrite length_app, report_id_length. }
  assert (fs w !! UPLOADS_DIR = Some Dir ->
          (save_image (Some u) (report_id_of t) e w =
             (Ok (Some (image_path_of u (report_id_of t))),
              {| fs := <[image_path_of u (report_id_of t) := File (getbuffer u)]> (fs w);
                 trace := trace w ++ [WriteFile (image_path_of u (report_id_of t))
                                                (getbuffer u)] |})
           <->
           (Py.contains NUL (snd (PosixPath.splitext (name u))) = false /\
            18 + String.length (snd (PosixPath.splitext (name u))) <= NAME_MAX /\
            fs w !! image_path_of u (report_id_of t) <> Some Dir /\
            denies e (image_path_of u (report_id_of t)) = None))) as Hiff.
  { intros Hdir. rewrite save_image_eq.
    pose proof (open_error_in_dir e (fs w) _ UPLOADS_DIR (image_parent u t)
                  ltac:(discriminate)) as Hopen.
    rewrite (name_error_image u t Hv) in Hopen.
    destruct (open_error e (fs w) (image_path_of u (report_id_of t))) as [x|].
    - split; [discriminate|]. intros (H1 & H2 & H3 & H4).
      assert (Some x = None) as E by (apply Hopen; auto). discriminate E.
    - split; [|reflexivity]. intros _.
      destruct Hopen as [Hopen _]. destruct (Hopen eq_refl) as ((? & ?) & _ & ? & ?).
      auto. }
  split; [|split; [apply image_parent|split; [exact Hiff|split]]].
  - intros Hdot.
    assert (snd (PosixPath.splitext (name u)) = EmptyString) as Hext.
    { now rewrite splitext_no_dot. }
    assert (image_path_of u (report_id_of t) = UPLOADS_DIR +:+ "/" +:+ report_id_of t) as Hpath.
    { rewrite image_path_report, Hext. now rewrite append_empty_r. }
    split; [assumption|]. split; [assumption|]. split.
    + rewrite <- Hpath. apply name_error_image; [assumption|].
      rewrite Hext. split; [reflexivity | cbn; unfold NAME_MAX; lia].
    + intros Hdir Hnd Hden. rewrite <- Hpath in *. apply Hiff; [assumption|].
      rewrite Hext. repeat split; try assumption. cbn. unfold NAME_MAX. lia.
  - intros Hn. rewrite save_image_eq. unfold open_error. now rewrite Hnul, Hn.
  - intros Hdir Hn Hlong. rewrite save_image_eq. unfold open_error.
    rewrite Hnul, Hn, image_parent. cbn [UPLOADS_DIR]. fold UPLOADS_DIR.
    rewrite Hdir, Hlen.
    destruct (NAME_MAX <? _) eqn:E; [reflexivity|]. apply Nat.ltb_ge in E. lia.
Qed.

Lemma C10_name_without_dot_witness :
  (snd (PosixPath.splitext (name photo_bare)) = EmptyString /\
   image_path_of photo_bare (report_id_of noon) = UPLOADS_DIR +:+ "/" +:+ report_id_of noon) /\
  save_image (Some photo_bare) (report_id_of noon) (calm noon)
    {| fs := {[ UPLOADS_DIR := Dir ]}; trace := [] |} =
  (Ok (Some "uploads/HAZ20240307-120005"),
   {| fs := <[UPLOADS_DIR +:+ "/" +:+ report_id_of noon := File "raw"]>
              {[ UPLOADS_DIR := Dir ]};
      trace := [] ++ [WriteFile (UPLOADS_DIR +:+ "/" +:+ report_id_of noon) "raw"] |}) /\
  save_image (Some photo_long) (report_id_of noon) (calm noon)
    {| fs := {[ UPLOADS_DIR := Dir ]}; trace := [] |} =
  (Raise (OSError "[Errno 36] File name too long"
            (image_path_of photo_long (report_id_of noon))),
   {| fs := {[ UPLOADS_DIR := Dir ]}; trace := [] |}).
Proof.
  assert (Clock.valid noon) as Hv by (unfold Clock.valid; simpl; lia).
  destruct (C10_name_without_dot photo_bare noon (calm noon)
              {| fs := {[ UPLOADS_DIR := Dir ]}; trace := [] |} Hv) as (H1 & _).
  destruct (C10_name_without_dot photo_long noon (calm noon)
              {| fs := {[ UPLOADS_DIR := Dir ]}; trace := [] |} Hv) as (_ & _ & _ & _ & H5).
  destruct H1 as (Hext & Hpath & _ & Hsave); [reflexivity|].
  split; [split; [exact Hext | exact Hpath]|]. split.
  - apply Hsave; vm_compute; [reflexivity | discriminate | reflexivity].
  - apply H5; [reflexivity | vm_compute; reflexivity | vm_compute; lia].
Defined.

(** C8, as stated, fails: two submissions in the same second with
    photos [rail.png] and [rail.jpg] get the same identifier, but their
    images go to different paths. *)
Lemma C8_same_second_different_paths :
  ~ (forall (e1 e2 : env) (u1 u2 : UploadedFile) (w w1 w2 : world) (p1 p2 : string),
       Clock.same_second (now e1) (now e2) ->
       save_image (Some u1) (report_id_of (now e1)) e1 w = (Ok (Some p1), w1) ->
       save_image (Some u2) (report_id_of (now e2)) e2 w1 = (Ok (Some p2), w2) ->
       report_id_of (now e1) = report_id_of (now e2) /\ p1 = p2).
Proof.
  intros H.
  pose (w := {| fs := {[ UPLOADS_DIR := Dir ]}; trace := [] |}).
  destruct (save_image (Some photo_png) (report_id_of noon) (calm noon) w) as [r1 w1] eqn:E1.
  destruct (save_image (Some photo_jpg) (report_id_of noon_later) (calm noon_later) w1)
    as [r2 w2] eqn:E2.
  vm_compute in E1. injection E1 as <- <-.
  vm_compute in E2. injection E2 as <- <-.
  destruct (H (calm noon) (calm noon_later) photo_png photo_jpg w _ _ _ _
              ltac:(repeat split) eq_refl eq_refl) as [_ Hp].
  discriminate Hp.
Qed.

Lemma report_id_same_second t1 t2 :
  Clock.same_second t1 t2 -> report_id_of t1 = report_id_of t2.
Proof.
  intros (Hy & Hm & Hd & HH & HM & HS). rewrite !report_id_unfold.
  now rewrite Hy, Hm, Hd, HH, HM, HS.
Qed.

Lemma append_inj_l a b c : a +:+ b = a +:+ c -> b = c.
Proof. induction a as [|x a IH]; [auto|]. cbn [String.append]. intros H. injection H. auto. Qed.

(** C8 (amended): two assemblies whose clock values fall in the same
    second make the same identifier, and nothing checks it against
    earlier ones. Their images go to the same path exactly when the two
    original names have the same extension; in that case the second
    image replaces the first on disk. *)
Theorem C8_same_second_same_id (e1 e2 : env) (u1 u2 : UploadedFile)
    (w w1 w2 : world) (p1 p2 : string) :
  Clock.same_second (now e1) (now e2) ->
  save_image (Some u1) (report_id_of (now e1)) e1 w = (Ok (Some p1), w1) ->
  save_image (Some u2) (report_id_of (now e2)) e2 w1 = (Ok (Some p2), w2) ->
  report_id_of (now e1) = report_id_of (now e2) /\
  (p1 = p2 <->
   snd (PosixPath.splitext (name u1)) = snd (PosixPath.splitext (name u2))) /\
  fs w1 !! p1 = Some (File (getbuffer u1)) /\
  (p1 = p2 -> fs w2 !! p1 = Some (File (getbuffer u2))).
Proof.
  intros Hsame H1 H2.
  pose proof (report_id_same_second _ _ Hsame) as Hid.
  apply save_image_ok in H1 as [(? & _)|(u & Hu & Hp1 & _ & ->)]; [discriminate|].
  apply save_image_ok in H2 as [(? & _)|(u' & Hu' & Hp2 & _ & ->)]; [discriminate|].
  injection Hu as <-. injection Hu' as <-. injection Hp1 as ->. injection Hp2 as ->.
  split; [assumption|]. cbn [fs]. split; [|split].
  - rewrite !image_path_report, <- Hid. split.
    + intros E. apply append_inj_l in E. injection E as E. now apply append_inj_l in E.
    + now intros ->.
  - apply lookup_insert_eq.
  - intros <-. apply lookup_insert_eq.
Qed.

Lemma C8_same_second_same_id_witness :
  report_id_of noon = report_id_of noon_later /\
  fs (snd (save_image (Some photo_png) (report_id_of noon_later) (calm noon_later)
             (snd (save_image (Some photo_png) (report_id_of noon) (calm noon)
                     {| fs := {[ UPLOADS_DIR := Dir ]}; trace := [] |}))))
    !! (UPLOADS_DIR +:+ "/" +:+ report_id_of noon +:+ ".png")
  = Some (File (getbuffer photo_png)).
Proof.
  pose (w := {| fs := {[ UPLOADS_DIR := Dir ]}; trace := [] |}).
  destruct (C8_same_second_same_id (calm noon) (calm noon_later) photo_png photo_png w
              (snd (save_image (Some photo_png) (report_id_of noon) (calm noon) w))
              (snd (save_image (Some photo_png) (report_id_of noon_later) (calm noon_later)
                      (snd (save_image (Some photo_png) (report_id_of noon) (calm noon) w))))
              (UPLOADS_DIR +:+ "/" +:+ report_id_of noon +:+ ".png")
              (UPLOADS_DIR +:+ "/" +:+ report_id_of noon +:+ ".png"))
    as (Hid & _ & _ & Hover).
  - repeat split.
  - vm_compute. reflexivity.
  - vm_compute. reflexivity.
  - split; [exact Hid | exact (Hover eq_refl)].
Defined.

End SaveImage.

(** ** The initializer *)

Section Initializer.
Import Sys SysAux OHS Steps Runs Samples.

(** Once both paths exist the initializer does nothing. *)
Lemma init_noop e w :
  is_Some (fs w !! UPLOADS_DIR) -> is_Some (fs w !! REPORTS_CSV) ->
  initialize_storage e w = (Ok tt, w).
Proof.
  intros [nu Hu] [nl Hl]. rewrite initialize_storage_eq.
  unfold init_dir, init_log. rewrite Hu. cbn [fs]. now rewrite Hl.
Qed.

(** C7: running the initializer a second time leaves the files as the
    first run left them and writes nothing; after a first run that
    returned normally this holds whatever the system refuses the second
    time. A log that already exists, empty or not, keeps its content:
    the header is not written again and no row is lost; a log the first
    run created reads back as the header row alone. *)
Theorem C7_initialize_idempotent (e : env) (files : gmap string node) :
  fs (snd (exec initialize_storage e (fs (snd (exec initialize_storage e files))))) =
    fs (snd (exec initialize_storage e files)) /\
  trace (snd (exec initialize_storage e (fs (snd (exec initialize_storage e files))))) = [] /\
  (forall e2, fst (exec initialize_storage e files) = Ok tt ->
     exec initialize_storage e2 (fs (snd (exec initialize_storage e files))) =
       (Ok tt, {| fs := fs (snd (exec initialize_storage e files)); trace := [] |})) /\
  (forall c, files !! REPORTS_CSV = Some (File c) ->
     log_text (fs (snd (exec initialize_storage e files))) = Some c /\
     log_text (fs (snd (exec initialize_storage e
                          (fs (snd (exec initialize_storage e files)))))) = Some c /\
     log_rows (fs (snd (exec initialize_storage e
                          (fs (snd (exec initialize_storage e files)))))) = log_rows files) /\
  (files !! REPORTS_CSV = None ->
   fst (exec initialize_storage e files) = Ok tt ->
   log_rows (fs (snd (exec initialize_storage e
                        (fs (snd (exec initialize_storage e files)))))) = [COLUMNS]).
Proof.
  assert (forall e2, fst (exec initialize_storage e files) = Ok tt ->
     exec initialize_storage e2 (fs (snd (exec initialize_storage e files))) =
       (Ok tt, {| fs := fs (snd (exec initialize_storage e files)); trace := [] |})) as Hok.
  { intros e2 Hr. unfold exec in *.
    destruct (initialize_storage e _) as [r w1] eqn:Ei. cbn [fst snd] in *. subst r.
    apply init_spec in Ei as (_ & _ & _ & _ & _ & Hs & _).
    destruct (Hs eq_refl). now apply init_noop. }
  assert (fs (snd (exec initialize_storage e (fs (snd (exec initialize_storage e files))))) =
            fs (snd (exec initialize_storage e files)) /\
          trace (snd (exec initialize_storage e (fs (snd (exec initialize_storage e files))))) = [])
    as Hidem.
  { clear Hok. unfold exec.
    destruct (initialize_storage e {| fs := files; trace := [] |}) as [r w1] eqn:Ei.
    init_cases Ei; cbn [snd fs trace];
      rewrite initialize_storage_eq; unfold init_dir, init_log; cbn [fs trace];
      repeat (rewrite ?lookup_insert_eq, ?(lookup_insert_ne _ _ _ _ uploads_not_reports),
                ?(lookup_insert_ne _ _ _ _ (not_eq_sym uploads_not_reports));
              repeat match goal with
                     | H : ?x = _ |- context [?x] => rewrite H
                     end;
              cbn [fs trace snd]);
      auto. }
  destruct Hidem as [Hfs Htr].
  split; [assumption|]. split; [assumption|]. split; [assumption|]. split.
  - intros c Hc. rewrite Hfs.
    assert (log_text (fs (snd (exec initialize_storage e files))) = Some c) as Hl.
    { unfold exec. destruct (initialize_storage e _) as [r w1] eqn:Ei.
      apply init_spec in Ei as (_ & Hkeep & _). cbn [snd fs] in *.
      unfold log_text. now rewrite (Hkeep _ Hc). }
    split; [assumption|]. split; [assumption|].
    unfold log_rows. rewrite Hl. unfold log_text. now rewrite Hc.
  - intros Hn Hr. rewrite Hfs. unfold exec in *.
    destruct (initialize_storage e _) as [r w1] eqn:Ei. cbn [fst snd] in *. subst r.
    apply init_spec in Ei as (_ & _ & _ & Hnew & _). cbn [fs] in *.
    destruct (Hnew Hn) as [[_ ?]|Hh]; [congruence|].
    unfold log_rows, log_text. rewrite Hh.
    apply (reader_header_rows []). constructor.
Qed.

Lemma C7_initialize_idempotent_witness :
  log_text (fs (snd (exec initialize_storage (calm noon)
                       {[ REPORTS_CSV := File (HEADER_LINE +:+ "HAZ20240101-080000,2024-01-01 08:00:00,Anonymous,Warehouse,Dock,🟢,Worn tape,N/A") ]})))
  = Some (HEADER_LINE +:+ "HAZ20240101-080000,2024-01-01 08:00:00,Anonymous,Warehouse,Dock,🟢,Worn tape,N/A").
Proof.
  apply (C7_initialize_idempotent (calm noon)).
  vm_compute. reflexivity.
Defined.

End Initializer.

(** ** Records never point at a missing image *)

Section Ordering.
Import Sys SysAux OHS Steps Runs Samples.











(** A carriage return in the extension of the photo: under an
    interpreter older than Python 3.13 the row reads back cut in two,
    and the path in the eighth column of the first part is no file. *)
Example bare_carriage_return_in_extension :
  map image_ref
      (tl (log_rows (fs (snd (exec (main (with_photo guard_rail photo_cr))
                               (calm noon) ∅))))) =
    ["uploads/HAZ20240307-120005.p"; EmptyString] /\
  is_file (fs (snd (exec (main (with_photo guard_rail photo_cr)) (calm noon) ∅)))
          "uploads/HAZ20240307-120005.p" = false /\
  is_file (fs (snd (exec (main (with_photo guard_rail photo_cr)) (calm noon) ∅)))
          (image_path_of photo_cr (report_id_of noon)) = true.
Proof. repeat split; vm_compute; reflexivity. Qed.




End Ordering.

(** * Further properties of the program *)

(** ** Every way a run can go *)

Section RunOutcomes.
Import Sys SysAux OHS Steps Runs Samples Outcomes.

(** A run of [main] raises with the initializer or with the header,
    only draws the page, shows the validation error, raises with
    [save_image], or reaches [save_report]. *)
Lemma main_outcome f e files :
  exists r1 w1,
    exec initialize_storage e files = (r1, w1) /\
    ((exists x, (r1 = Raise x \/ (r1 = Ok tt /\ header_error e (fs w1) = Some x)) /\
        exec (main f) e files = (Raise x, w1)) \/
     (r1 = Ok tt /\ submitted f = false /\
      exec (main f) e files = (Ok tt, page_drawn w1)) \/
     (r1 = Ok tt /\ submitted f = true /\
      (specific_area f = EmptyString \/ description f = EmptyString) /\
      exec (main f) e files =
        (Ok tt, add_events (page_drawn w1) [Ui StError VALIDATION_MESSAGE])) \/
     (r1 = Ok tt /\ passes_validation f /\
      exists u x,
        uploaded_photo f = Some u /\
        open_error e (fs w1) (image_path_of u (report_id_of (now e))) = Some x /\
        exec (main f) e files = (Raise x, page_drawn w1)) \/
     (r1 = Ok tt /\ passes_validation f /\
      exists ip w3,
        save_image (uploaded_photo f) (report_id_of (now e)) e (page_drawn w1) = (Ok ip, w3) /\
        exec (main f) e files = finish f ip e w3)).
Proof.
  unfold exec. rewrite main_eq. fold (exec initialize_storage e files).
  destruct (exec initialize_storage e files) as [[[]|x] w1] eqn:Ei;
    exists (fst (exec initialize_storage e files)), w1; rewrite Ei; cbn [fst];
    (split; [reflexivity|]).
  2:{ left. eauto. }
  destruct (header_error e (fs w1)) as [x|] eqn:Eh; [left; eauto|].
  right. fold (page_drawn w1).
  destruct (submitted f) eqn:Hsub; [|left; auto].
  right.
  destruct (Py.truthy (description f)) eqn:Hd;
    [destruct (Py.truthy (specific_area f)) eqn:Ha|].
  - right. rewrite submission_accepted by assumption.
    assert (passes_validation f) as Hv.
    { split; [assumption|]. split; now apply truthy_true. }
    destruct (save_image _ _ e _) as [[ip|x] w3] eqn:Es.
    + right. split; [reflexivity|]. split; [assumption|]. eauto.
    + left. split; [reflexivity|]. split; [assumption|].
      destruct (uploaded_photo f) as [u|]; [|discriminate].
      rewrite save_image_eq in Es. cbn [page_drawn add_events fs] in Es.
      destruct (open_error e (fs w1) _) as [y|] eqn:Eo; [|discriminate].
      injection Es as -> <-. exists u, x. auto.
  - left. rewrite submission_rejected by auto. apply truthy_false in Ha. auto.
  - left. rewrite submission_rejected by auto. apply truthy_false in Hd. auto.
Qed.

Lemma init_events e files r w1 :
  exec initialize_storage e files = (r, w1) ->
  forall ev, In ev (trace w1) ->
    ev = MakeDir UPLOADS_DIR \/ ev = WriteFile REPORTS_CSV HEADER_LINE.
Proof.
  unfold exec. intros H. apply init_spec in H as (_ & _ & _ & _ & _ & _ & evs & Ht & Hev).
  cbn [trace app] in Ht. now rewrite Ht.
Qed.

(** Nothing the initializer and the header do counts as an outcome. *)
Lemma page_drawn_flags e files r w1 (p : event -> bool) :
  exec initialize_storage e files = (r, w1) ->
  (forall path, p (MakeDir path) = false) ->
  (forall path c, p (WriteFile path c) = false) ->
  (forall text, p (Ui StImage text) = false) ->
  (forall text, p (Ui StWarning text) = false) ->
  existsb p (trace w1) = false /\ existsb p (trace (page_drawn w1)) = false.
Proof.
  intros Hi Hm Hw Him Hwa.
  assert (existsb p (trace w1) = false) as H1.
  { apply not_true_is_false. intros Hex. apply existsb_exists in Hex as (ev & Hin & Hp).
    destruct (init_events _ _ _ _ Hi ev Hin) as [-> | ->]; congruence. }
  split; [assumption|]. unfold page_drawn, add_events. cbn [trace].
  rewrite existsb_snoc, H1. unfold logo_event.
  destruct (fs w1 !! LOGO_PATH); rewrite ?Him, ?Hwa; reflexivity.
Qed.

Lemma save_image_flags uf rid e w ip w3 (p : event -> bool) :
  save_image uf rid e w = (Ok ip, w3) ->
  (forall path c, p (WriteFile path c) = false) ->
  existsb p (trace w3) = existsb p (trace w).
Proof.
  intros Hs Hw. apply save_image_ok in Hs as [(_ & _ & ->)|(u & _ & _ & _ & ->)]; [reflexivity|].
  cbn [trace]. rewrite existsb_snoc, Hw. apply orb_false_r.
Qed.

Lemma save_image_keeps_log uf t e w ip w3 :
  save_image uf (report_id_of t) e w = (Ok ip, w3) ->
  fs w3 !! REPORTS_CSV = fs w !! REPORTS_CSV.
Proof.
  intros Hs. apply save_image_ok in Hs as [(_ & _ & ->)|(u & _ & _ & _ & ->)]; [reflexivity|].
  cbn [fs]. apply lookup_insert_ne, image_path_not_log.
Qed.

(** The four outcomes of a run, with what each shows and what each
    leaves in the log. *)
Lemma main_table f e files :
  (rejected (snd (exec (main f) e files)) = false /\
   succeeded (snd (exec (main f) e files)) = false /\
   failed (snd (exec (main f) e files)) = false /\
   existsb is_append (trace (snd (exec (main f) e files))) = false /\
   log_text (fs (snd (exec (main f) e files))) =
     log_text (fs (snd (exec initialize_storage e files))) /\
   ((exists x, fst (exec (main f) e files) = Raise x) \/ submitted f = false)) \/
  (rejected (snd (exec (main f) e files)) = true /\
   succeeded (snd (exec (main f) e files)) = false /\
   failed (snd (exec (main f) e files)) = false /\
   existsb is_append (trace (snd (exec (main f) e files))) = false /\
   fs (snd (exec (main f) e files)) = fs (snd (exec initialize_storage e files)) /\
   fst (exec (main f) e files) = Ok tt /\ submitted f = true /\
   (specific_area f = EmptyString \/ description f = EmptyString)) \/
  (rejected (snd (exec (main f) e files)) = false /\
   succeeded (snd (exec (main f) e files)) = false /\
   failed (snd (exec (main f) e files)) = true /\
   existsb is_append (trace (snd (exec (main f) e files))) = false /\
   log_text (fs (snd (exec (main f) e files))) =
     log_text (fs (snd (exec initialize_storage e files))) /\
   fst (exec (main f) e files) = Ok tt /\ passes_validation f) \/
  (rejected (snd (exec (main f) e files)) = false /\
   succeeded (snd (exec (main f) e files)) = true /\
   failed (snd (exec (main f) e files)) = false /\
   existsb is_append (trace (snd (exec (main f) e files))) = true /\
   fst (exec (main f) e files) = Ok tt /\ passes_validation f /\
   exists before,
     log_text (fs (snd (exec initialize_storage e files))) = Some before /\
     log_text (fs (snd (exec (main f) e files))) =
       Some (before +:+ Csv.writerow (quotes_cr e) (submitted_row e f))).
Proof.
  destruct (main_outcome f e files) as (r1 & w1 & Hi & Hcases). rewrite Hi. cbn [snd].
  pose proof (page_drawn_flags e files r1 w1 is_validation_error Hi
                ltac:(reflexivity) ltac:(reflexivity) ltac:(reflexivity) ltac:(reflexivity))
    as [R1 R2].
  pose proof (page_drawn_flags e files r1 w1 is_success Hi
                ltac:(reflexivity) ltac:(reflexivity) ltac:(reflexivity) ltac:(reflexivity))
    as [S1 S2].
  pose proof (page_drawn_flags e files r1 w1 is_save_failure Hi
                ltac:(reflexivity) ltac:(reflexivity) ltac:(reflexivity) ltac:(reflexivity))
    as [F1 F2].
  pose proof (page_drawn_flags e files r1 w1 is_append Hi
                ltac:(reflexivity) ltac:(reflexivity) ltac:(reflexivity) ltac:(reflexivity))
    as [A1 A2].
  destruct Hcases as [(x & _ & ->)|[(-> & Hsub & ->)|[(-> & Hsub & Hmiss & ->)|
                     [(-> & Hv & u & x & Hu & Ho & ->)|(-> & Hv & ip & w3 & Hs & ->)]]]];
    cbn [fst snd].
  - left. unfold rejected, succeeded, failed. repeat split; eauto.
  - left. unfold rejected, succeeded, failed. repeat split; auto.
  - right. left. unfold rejected, succeeded, failed, add_events. cbn [trace fs].
    rewrite !existsb_snoc. unfold rejected, succeeded, failed in *.
    rewrite R2, S2, F2, A2. repeat split; auto.
  - left. unfold rejected, succeeded, failed. repeat split; eauto.
  - right. right.
    pose proof (save_image_flags _ _ _ _ _ _ is_validation_error Hs ltac:(reflexivity)) as R3.
    pose proof (save_image_flags _ _ _ _ _ _ is_success Hs ltac:(reflexivity)) as S3.
    pose proof (save_image_flags _ _ _ _ _ _ is_save_failure Hs ltac:(reflexivity)) as F3.
    pose proof (save_image_flags _ _ _ _ _ _ is_append Hs ltac:(reflexivity)) as A3.
    rewrite R2 in R3. rewrite S2 in S3. rewrite F2 in F3. rewrite A2 in A3.
    pose proof (save_image_keeps_log _ _ _ _ _ _ Hs) as Hlog.
    cbn [page_drawn add_events fs] in Hlog.
    unfold finish. destruct (open_error e (fs w3) REPORTS_CSV) as [x|] eqn:Eo; cbn [fst snd fs trace].
    + left. unfold rejected, succeeded, failed. cbn [trace].
      rewrite !existsb_snoc, R3, S3, F3, A3.
      repeat split; auto; try apply Hv. unfold log_text. now rewrite Hlog.
    + right. unfold rejected, succeeded, failed. cbn [trace].
      rewrite !existsb_snoc, R3, S3, F3, A3.
      repeat split; auto; try apply Hv.
      rewrite (line_of_submitted _ _ _ _ _ Hs).
      unfold exec in Hi. apply init_spec in Hi as (_ & _ & _ & _ & _ & Hex & _).
      destruct (Hex eq_refl) as [_ [nl Hnl]].
      rewrite open_error_log in Eo.
      rewrite Hlog, Hnl in Eo. destruct nl as [|c]; [discriminate|].
      exists c. unfold log_text, content_of. rewrite Hlog, Hnl, lookup_insert_eq. auto.
Qed.

End RunOutcomes.


(** ** What a run shows and what it leaves in the log *)

Section Shown.
Import Sys SysAux OHS Steps Runs Samples Outcomes.

(** X13: a run shows at most one of the validation error, the success
    message and the save failure; a run that raises, or whose form was
    not submitted, shows none of them; a submitted run that returns
    normally shows exactly one. *)
Theorem X13_one_outcome (f : Form) (e : env) (files : gmap string node) :
  rejected (snd (exec (main f) e files)) && succeeded (snd (exec (main f) e files)) = false /\
  rejected (snd (exec (main f) e files)) && failed (snd (exec (main f) e files)) = false /\
  succeeded (snd (exec (main f) e files)) && failed (snd (exec (main f) e files)) = false /\
  ((forall x, fst (exec (main f) e files) = Raise x ->
      rejected (snd (exec (main f) e files))
      || succeeded (snd (exec (main f) e files))
      || failed (snd (exec (main f) e files)) = false) /\
   (submitted f = false ->
      rejected (snd (exec (main f) e files))
      || succeeded (snd (exec (main f) e files))
      || failed (snd (exec (main f) e files)) = false) /\
   (fst (exec (main f) e files) = Ok tt -> submitted f = true ->
      rejected (snd (exec (main f) e files))
      || succeeded (snd (exec (main f) e files))
      || failed (snd (exec (main f) e files)) = true)).
Proof.
  destruct (main_table f e files)
    as [(-> & -> & -> & _ & _ & Hwhy)|[(-> & -> & -> & _ & _ & Hr & Hs & _)|
       [(-> & -> & -> & _ & _ & Hr & Hs & _)|(-> & -> & -> & _ & Hr & (Hs & _) & _)]]];
    cbn [andb orb]; repeat split; auto; try congruence.
  intros Hok Hsub. destruct Hwhy as [[x Hx]|Hn]; congruence.
Qed.

Lemma X13_one_outcome_witness :
  rejected (snd (exec (main no_description) (calm noon) ready))
  || succeeded (snd (exec (main no_description) (calm noon) ready))
  || failed (snd (exec (main no_description) (calm noon) ready)) = true.
Proof.
  destruct (X13_one_outcome no_description (calm noon) ready) as (_ & _ & _ & _ & _ & H).
  apply H; reflexivity.
Defined.



Lemma init_keeps_log e files text :
  log_text files = Some text ->
  log_text (fs (snd (exec initialize_storage e files))) = Some text.
Proof.
  intros Ht. unfold exec. destruct (initialize_storage e _) as [r w1] eqn:Ei.
  apply init_spec in Ei as (_ & Hkeep & _). cbn [snd fs] in *.
  unfold log_text in *. destruct (files !! REPORTS_CSV) as [n|] eqn:E; [|discriminate].
  now rewrite (Hkeep _ eq_refl).
Qed.




End Shown.


(** ** Which paths a run can touch *)

Section Frame.
Import Sys SysAux OHS Steps Runs Samples Outcomes.

Lemma init_frame e files r w1 :
  exec initialize_storage e files = (r, w1) ->
  forall p,
    fs w1 !! p = files !! p \/
    (p = UPLOADS_DIR /\ files !! p = None /\ fs w1 !! p = Some Dir) \/
    (p = REPORTS_CSV /\ files !! p = None /\ fs w1 !! p = Some (File HEADER_LINE)).
Proof.
  unfold exec. intros Hi p.
  apply init_spec in Hi as (Hoth & Hlog & Hup & Hnl & Hnu & _). cbn [fs] in *.
  destruct (decide (p = UPLOADS_DIR)) as [->|H1].
  - destruct (files !! UPLOADS_DIR) as [n|] eqn:E; [left; now apply Hup|].
    destruct (Hnu eq_refl) as [H|H]; [left; congruence | right; left; auto].
  - destruct (decide (p = REPORTS_CSV)) as [->|H2]; [|left; now apply Hoth].
    destruct (files !! REPORTS_CSV) as [n|] eqn:E; [left; now apply Hlog|].
    destruct (Hnl eq_refl) as [[H _]|H]; [left; congruence | right; right; auto].
Qed.

Lemma open_error_not_dir e files p :
  open_error e files p = None -> files !! p <> Some Dir.
Proof.
  unfold open_error. intros H E. rewrite E in H.
  destruct (Py.contains NUL p); [discriminate|].
  destruct (NAME_MAX <? _); destruct (PosixPath.parent p) as [[|a d]|];
    try discriminate;
    destruct (files !! String a d) as [[|?]|]; discriminate.
Qed.

(** The paths a run can change, and what it puts there. *)
Lemma main_frame f e files p :
  fs (snd (exec (main f) e files)) !! p = files !! p \/
  (p = UPLOADS_DIR /\ files !! p = None /\
   fs (snd (exec (main f) e files)) !! p = Some Dir) \/
  (p = REPORTS_CSV /\ files !! p <> Some Dir /\
   exists c, fs (snd (exec (main f) e files)) !! p = Some (File c)) \/
  (exists u, uploaded_photo f = Some u /\
     p = image_path_of u (report_id_of (now e)) /\ files !! p <> Some Dir /\
     fs (snd (exec (main f) e files)) !! p = Some (File (getbuffer u))).
Proof.
  destruct (main_outcome f e files) as (r1 & w1 & Hi & Hcases).
  pose proof (init_frame _ _ _ _ Hi p) as Hp.
  assert (fs w1 !! p = files !! p \/
          (p = UPLOADS_DIR /\ files !! p = None /\ fs w1 !! p = Some Dir) \/
          (p = REPORTS_CSV /\ files !! p <> Some Dir /\
           exists c, fs w1 !! p = Some (File c))) as Hp1.
  { destruct Hp as [H|[H|(H1 & H2 & H3)]]; auto.
    right. right. split; [assumption|]. split; [congruence|eauto]. }
  assert (forall w, fs w = fs w1 ->
            fs w !! p = files !! p \/
            (p = UPLOADS_DIR /\ files !! p = None /\ fs w !! p = Some Dir) \/
            (p = REPORTS_CSV /\ files !! p <> Some Dir /\
             exists c, fs w !! p = Some (File c)) \/
            (exists u, uploaded_photo f = Some u /\
               p = image_path_of u (report_id_of (now e)) /\ files !! p <> Some Dir /\
               fs w !! p = Some (File (getbuffer u)))) as Hsame.
  { intros w ->. destruct Hp1 as [H|[H|H]]; auto. }
  destruct Hcases as [(x & _ & ->)|[(-> & Hsub & ->)|[(-> & Hsub & Hmiss & ->)|
                     [(-> & Hv & u & x & Hu & Ho & ->)|(-> & Hv & ip & w3 & Hs & ->)]]]];
    cbn [snd]; try (apply Hsame; reflexivity).
  (* the submission reached save_report *)
  assert (fs w3 !! p = files !! p \/
          (p = UPLOADS_DIR /\ files !! p = None /\ fs w3 !! p = Some Dir) \/
          (p = REPORTS_CSV /\ files !! p <> Some Dir /\
           exists c, fs w3 !! p = Some (File c)) \/
          (exists u, uploaded_photo f = Some u /\
             p = image_path_of u (report_id_of (now e)) /\ files !! p <> Some Dir /\
             fs w3 !! p = Some (File (getbuffer u)))) as H3.
  { apply save_image_ok in Hs as [(_ & _ & ->)|(u & Hu & _ & Herr & ->)];
      [apply Hsame; reflexivity|].
    cbn [fs page_drawn add_events] in *.
    destruct (decide (image_path_of u (report_id_of (now e)) = p)) as [<-|Hne].
    - right. right. right. exists u. rewrite lookup_insert_eq.
      repeat split; auto.
      apply open_error_not_dir in Herr.
      destruct Hp1 as [H|[(H & _)|(H & _)]].
      + congruence.
      + now apply image_path_not_uploads in H.
      + now apply image_path_not_log in H.
    - rewrite lookup_insert_ne by assumption.
      destruct Hp1 as [H|[H|H]]; auto. }
  unfold finish. destruct (open_error e (fs w3) REPORTS_CSV) as [x|] eqn:Eo;
    cbn [snd fs]; [assumption|].
  destruct (decide (REPORTS_CSV = p)) as [<-|Hne].
  - right. right. left. rewrite lookup_insert_eq. split; [reflexivity|]. split; [|eauto].
    apply open_error_not_dir in Eo.
    destruct H3 as [H|[(H & _)|[(_ & H & _)|(u & _ & H & _)]]].
    + congruence.
    + discriminate H.
    + assumption.
    + symmetry in H. now apply image_path_not_log in H.
  - rewrite lookup_insert_ne by assumption. assumption.
Qed.

(** X4: a run deletes nothing and changes at most three paths: the
    upload directory, the log, and the image of the submission. A path
    that existed still exists, a directory stays a directory, a file
    stays a file, and every other path holds exactly what it held. *)
Theorem X4_run_touches_three_paths (f : Form) (e : env) (files : gmap string node)
    (p : string) :
  (is_Some (files !! p) -> is_Some (fs (snd (exec (main f) e files)) !! p)) /\
  (files !! p = Some Dir -> fs (snd (exec (main f) e files)) !! p = Some Dir) /\
  (forall c, files !! p = Some (File c) ->
     exists c', fs (snd (exec (main f) e files)) !! p = Some (File c')) /\
  (p <> UPLOADS_DIR -> p <> REPORTS_CSV ->
   (forall u, uploaded_photo f = Some u -> p <> image_path_of u (report_id_of (now e))) ->
   fs (snd (exec (main f) e files)) !! p = files !! p).
Proof.
  pose proof (main_frame f e files p) as H. repeat split.
  - intros [n Hn]. destruct H as [H|[(_ & H & _)|[(_ & _ & c & H)|(u & _ & _ & _ & H)]]];
      rewrite ?H; eauto; congruence.
  - intros Hd. destruct H as [H|[(_ & H & _)|[(_ & H & _)|(u & _ & _ & H & _)]]];
      congruence.
  - intros c Hc. destruct H as [H|[(_ & H & _)|[(_ & _ & c' & H)|(u & _ & _ & _ & H)]]];
      rewrite ?H; eauto; congruence.
  - intros H1 H2 H3. destruct H as [H|[(H & _)|[(H & _)|(u & Hu & H & _)]]];
      try congruence. now destruct (H3 u Hu).
Qed.

Lemma X4_run_touches_three_paths_witness :
  fs (snd (exec (main (with_photo guard_rail photo_png)) (calm noon)
             (<[LOGO_PATH := File "logo"]> ready))) !! LOGO_PATH = Some (File "logo").
Proof.
  destruct (X4_run_touches_three_paths (with_photo guard_rail photo_png) (calm noon)
              (<[LOGO_PATH := File "logo"]> ready) LOGO_PATH) as (_ & _ & _ & H).
  rewrite H; [reflexivity | discriminate | discriminate |].
  intros u Hu. injection Hu as <-. vm_compute. discriminate.
Defined.

Lemma is_Some_insert (files : gmap string node) q n p :
  is_Some (files !! p) -> is_Some (<[q := n]> files !! p).
Proof.
  intros H. destruct (decide (q = p)) as [->|Hne].
  - rewrite lookup_insert_eq. eauto.
  - now rewrite lookup_insert_ne.
Qed.

(** What is there after the initializer is there at the end of the run. *)
Lemma main_keeps_after_init f e files p :
  is_Some (fs (snd (exec initialize_storage e files)) !! p) ->
  is_Some (fs (snd (exec (main f) e files)) !! p).
Proof.
  destruct (main_outcome f e files) as (r1 & w1 & Hi & Hcases). rewrite Hi. cbn [snd].
  intros H1.
  destruct Hcases as [(x & _ & ->)|[(-> & Hsub & ->)|[(-> & Hsub & Hmiss & ->)|
                     [(-> & Hv & u & x & Hu & Ho & ->)|(-> & Hv & ip & w3 & Hs & ->)]]]];
    cbn [snd page_drawn add_events fs]; try assumption.
  assert (is_Some (fs w3 !! p)) as H3.
  { apply save_image_ok in Hs as [(_ & _ & ->)|(u & _ & _ & _ & ->)]; [assumption|].
    cbn [fs page_drawn add_events]. now apply is_Some_insert. }
  unfold finish. destruct (open_error e (fs w3) REPORTS_CSV); cbn [snd fs];
    [assumption | now apply is_Some_insert].
Qed.

(** X5: whenever a run of the page returns without raising, the upload
    path and the log both exist afterwards. *)
Theorem X5_storage_exists_after_run (f : Form) (e : env) (files : gmap string node) :
  fst (exec (main f) e files) = Ok tt ->
  is_Some (fs (snd (exec (main f) e files)) !! UPLOADS_DIR) /\
  is_Some (fs (snd (exec (main f) e files)) !! REPORTS_CSV).
Proof.
  intros Hok.
  destruct (main_outcome f e files) as (r1 & w1 & Hi & Hcases).
  assert (r1 = Ok tt) as ->.
  { destruct Hcases as [(x & _ & H)|[(-> & _)|[(-> & _)|[(-> & _)|(-> & _)]]]]; auto.
    rewrite H in Hok. discriminate. }
  pose proof Hi as Hex. unfold exec in Hex.
  apply init_spec in Hex as (_ & _ & _ & _ & _ & Hex & _).
  destruct (Hex eq_refl) as [Hu Hl].
  split; apply main_keeps_after_init; now rewrite Hi.
Qed.

Lemma X5_storage_exists_after_run_witness :
  is_Some (fs (snd (exec (main no_description) (calm noon) ∅)) !! UPLOADS_DIR) /\
  is_Some (fs (snd (exec (main no_description) (calm noon) ∅)) !! REPORTS_CSV).
Proof.
  apply (X5_storage_exists_after_run no_description (calm noon) ∅). reflexivity.
Defined.

End Frame.


(** ** Failures and odd storage *)

Section Failures.
Import Sys SysAux OHS Steps Runs Samples Outcomes.



Lemma open_error_reports e files files' :
  files' !! REPORTS_CSV = files !! REPORTS_CSV ->
  open_error e files' REPORTS_CSV = open_error e files REPORTS_CSV.
Proof.
  intros H. rewrite !open_error_log. now rewrite H.
Qed.

(** X2: when the append to the log fails, the run still returns
    normally: [save_report] catches the error, the page shows the error
    text and then the save failure, nothing is appended and the log is
    left as it was. An image saved just before stays on disk, although
    the run has appended no row for it. *)
Theorem X2_failed_append_keeps_image (f : Form) (e : env) (files : gmap string node)
    (w1 : world) (x : exn) :
  passes_validation f ->
  exec initialize_storage e files = (Ok tt, w1) ->
  header_error e (fs w1) = None ->
  open_error e (fs w1) REPORTS_CSV = Some x ->
  (forall u, uploaded_photo f = Some u ->
     open_error e (fs w1) (image_path_of u (report_id_of (now e))) = None) ->
  fst (exec (main f) e files) = Ok tt /\
  failed (snd (exec (main f) e files)) = true /\
  succeeded (snd (exec (main f) e files)) = false /\
  In (Ui StError ("Error saving report: " +:+ str_exn x))
     (trace (snd (exec (main f) e files))) /\
  existsb is_append (trace (snd (exec (main f) e files))) = false /\
  fs (snd (exec (main f) e files)) !! REPORTS_CSV = fs w1 !! REPORTS_CSV /\
  (forall u, uploaded_photo f = Some u ->
     fs (snd (exec (main f) e files)) !! image_path_of u (report_id_of (now e))
       = Some (File (getbuffer u))).
Proof.
  intros Hv Hi Hh Hlog Himg.
  destruct (main_outcome f e files) as (r1 & w1' & Hi' & Hcases).
  rewrite Hi in Hi'. injection Hi' as <- <-.
  destruct Hv as (Hsub & Ha & Hd).
  destruct Hcases as [(y & [Hy|[_ Hy]] & _)|[(_ & Hn & _)|[(_ & _ & Hmiss & _)|
                     [(_ & _ & u & y & Hu & Ho & _)|(_ & _ & ip & w3 & Hs & ->)]]]].
  - discriminate.
  - congruence.
  - congruence.
  - destruct Hmiss; congruence.
  - rewrite (Himg u Hu) in Ho. discriminate.
  - pose proof (save_image_keeps_log _ _ _ _ _ _ Hs) as Hk.
    cbn [page_drawn add_events fs] in Hk.
    unfold finish. rewrite (open_error_reports e (fs w1) (fs w3) Hk), Hlog.
    cbn [fst snd fs trace]. split; [reflexivity|].
    pose proof (page_drawn_flags e files _ _ is_success Hi
                  ltac:(reflexivity) ltac:(reflexivity) ltac:(reflexivity) ltac:(reflexivity))
      as [_ S2].
    pose proof (page_drawn_flags e files _ _ is_append Hi
                  ltac:(reflexivity) ltac:(reflexivity) ltac:(reflexivity) ltac:(reflexivity))
      as [_ A2].
    pose proof (save_image_flags _ _ _ _ _ _ is_success Hs ltac:(reflexivity)) as S3.
    pose proof (save_image_flags _ _ _ _ _ _ is_append Hs ltac:(reflexivity)) as A3.
    unfold failed, succeeded. cbn [trace]. rewrite !existsb_snoc, S3, S2, A3, A2.
    split; [apply orb_true_r|]. split; [reflexivity|].
    split; [apply in_or_app; left; apply in_or_app; right; now left|].
    split; [reflexivity|].
    split; [assumption|].
    intros u Hu. rewrite Hu in Hs.
    apply save_image_ok in Hs as [(? & _)|(u' & Hu' & _ & _ & ->)]; [discriminate|].
    injection Hu' as <-. cbn [fs]. apply lookup_insert_eq.
Qed.

Lemma X2_failed_append_keeps_image_witness :
  failed (snd (exec (main (with_photo guard_rail photo_png))
                 (refusing REPORTS_CSV noon) ready)) = true /\
  fs (snd (exec (main (with_photo guard_rail photo_png))
             (refusing REPORTS_CSV noon) ready))
    !! image_path_of photo_png (report_id_of noon) = Some (File (getbuffer photo_png)) /\
  log_rows (fs (snd (exec (main (with_photo guard_rail photo_png))
                       (refusing REPORTS_CSV noon) ready))) = [COLUMNS].
Proof.
  destruct (X2_failed_append_keeps_image (with_photo guard_rail photo_png)
              (refusing REPORTS_CSV noon) ready
              {| fs := ready; trace := [] |}
              (OSError "[Errno 13] Permission denied" REPORTS_CSV))
    as (_ & Hf & _ & _ & _ & Hl & Hi).
  - repeat split; discriminate.
  - vm_compute. reflexivity.
  - reflexivity.
  - vm_compute. reflexivity.
  - intros u Hu. injection Hu as <-. vm_compute. reflexivity.
  - split; [exact Hf|]. split; [exact (Hi photo_png eq_refl)|].
    unfold log_rows, log_text. rewrite Hl. vm_compute. reflexivity.
Defined.





(** X6: the initializer never adds a header to a log that already
    exists. A log that exists but is empty stays empty, and after the
    first successful submission it holds the line of that one row and
    nothing else, no header line before it: it reads back as that one
    row when the row is readable. *)
Theorem X6_existing_log_gets_no_header (f : Form) (e : env) (files : gmap string node) :
  log_text files = Some EmptyString ->
  log_text (fs (snd (exec initialize_storage e files))) = Some EmptyString /\
  (succeeded (snd (exec (main f) e files)) = true ->
   log_text (fs (snd (exec (main f) e files))) =
     Some (Csv.writerow (quotes_cr e) (submitted_row e f)) /\
   submitted_row e f <> COLUMNS /\
   (readable e f ->
    log_rows (fs (snd (exec (main f) e files))) = [submitted_row e f])).
Proof.
  intros Ht. split; [now apply init_keeps_log|].
  intros Hs. destruct (success_log f e files Hs) as (before & Hlog & _ & Hb).
  rewrite (Hb _ Ht) in Hlog. cbn [String.append] in Hlog.
  split; [assumption|]. split.
  - unfold submitted_row, COLUMNS. rewrite report_id_unfold. intros H.
    injection H as H _. discriminate H.
  - intros Hread. unfold log_rows. rewrite Hlog. now apply reader_writerow.
Qed.

Lemma X6_existing_log_gets_no_header_witness :
  log_rows (fs (snd (exec (main guard_rail) (calm noon) headerless))) =
  [submitted_row (calm noon) guard_rail].
Proof.
  destruct (X6_existing_log_gets_no_header guard_rail (calm noon) headerless) as [_ H].
  - reflexivity.
  - destruct H as (_ & _ & H); [vm_compute; reflexivity|].
    apply H. vm_compute. reflexivity.
Defined.

End Failures.


(** ** Identifiers, one per second *)

Section Identifiers.
Import Sys SysAux OHS Steps Runs Samples Outcomes.

Lemma digit_mod a b :
  Clock.digit a = Clock.digit b -> (a mod 10 = b mod 10)%Z.
Proof.
  unfold Clock.digit. intros H. apply (f_equal nat_of_ascii) in H.
  pose proof (Z.mod_pos_bound a 10 ltac:(lia)).
  pose proof (Z.mod_pos_bound b 10 ltac:(lia)).
  rewrite !nat_ascii_embedding in H by lia. lia.
Qed.

Lemma zfill2_inj n m :
  (0 <= n < 100)%Z -> (0 <= m < 100)%Z ->
  Clock.zfill 2 n = Clock.zfill 2 m -> n = m.
Proof.
  intros Hn Hm H. rewrite !zfill2 in H by assumption.
  injection H as H1 H0. apply digit_mod in H1, H0.
  Z.div_mod_to_equations. lia.
Qed.

Lemma zfill4_inj n m :
  (0 <= n < 10000)%Z -> (0 <= m < 10000)%Z ->
  Clock.zfill 4 n = Clock.zfill 4 m -> n = m.
Proof.
  intros Hn Hm H. rewrite !zfill4 in H by assumption.
  injection H as H3 H2 H1 H0. apply digit_mod in H3, H2, H1, H0.
  Z.div_mod_to_equations. lia.
Qed.

(** Two strings of the same length in front of two others: equal wholes
    have equal parts. *)
Lemma append_inj a b c d :
  String.length a = String.length b -> a +:+ c = b +:+ d -> a = b /\ c = d.
Proof.
  revert b. induction a as [|x a IH]; intros [|y b] Hl H; try discriminate.
  - auto.
  - cbn [String.append] in H. injection H as -> H. injection Hl as Hl.
    destruct (IH _ Hl H) as [-> ->]. auto.
Qed.

Lemma timestamp_unfold t :
  timestamp_of t =
  Clock.zfill 4 (Clock.year t) +:+ "-" +:+ Clock.zfill 2 (Clock.month t) +:+ "-"
    +:+ Clock.zfill 2 (Clock.day t) +:+ " " +:+ Clock.zfill 2 (Clock.hour t) +:+ ":"
    +:+ Clock.zfill 2 (Clock.minute t) +:+ ":" +:+ Clock.zfill 2 (Clock.second t).
Proof.
  rewrite <- (append_empty_r (Clock.zfill 2 (Clock.second t))) at 1. reflexivity.
Qed.

Ltac peel H :=
  repeat first
    [ apply append_inj_l in H
    | let E := fresh "E" in
      apply append_inj in H;
      [ destruct H as [E H]
      | rewrite ?zfill4_length, ?zfill2_length by lia; reflexivity ] ].

(** X9: for clock readings in range, two report identifiers are equal
    exactly when the readings fall in the same second, and so are two
    Timestamp columns: readings in different seconds never share an
    identifier, and the identifier and the Timestamp of a row always name
    the same second. *)
Theorem X9_identifier_names_the_second (t1 t2 : Clock.datetime) :
  Clock.valid t1 -> Clock.valid t2 ->
  (report_id_of t1 = report_id_of t2 <-> Clock.same_second t1 t2) /\
  (timestamp_of t1 = timestamp_of t2 <-> Clock.same_second t1 t2).
Proof.
  intros (Hy1 & Hm1 & Hd1 & HH1 & HM1 & HS1 & _) (Hy2 & Hm2 & Hd2 & HH2 & HM2 & HS2 & _).
  split; split.
  - rewrite !report_id_unfold. intros H. peel H.
    apply zfill4_inj in E; [|lia|lia].
    apply zfill2_inj in E0, E1, E2, E3, H; try lia.
    repeat split; assumption.
  - apply report_id_same_second.
  - rewrite !timestamp_unfold. intros H. peel H.
    apply zfill4_inj in E; [|lia|lia].
    apply zfill2_inj in E0, E1, E2, E3, H; try lia.
    repeat split; assumption.
  - intros (Hy & Hm & Hd & HH & HM & HS). rewrite !timestamp_unfold.
    now rewrite Hy, Hm, Hd, HH, HM, HS.
Qed.

Lemma X9_identifier_names_the_second_witness :
  report_id_of noon = report_id_of noon_later /\
  report_id_of noon <> report_id_of afternoon.
Proof.
  assert (Clock.valid noon /\ Clock.valid noon_later /\ Clock.valid afternoon)
    as (V1 & V2 & V3) by (unfold Clock.valid; simpl; lia).
  split.
  - apply (X9_identifier_names_the_second noon noon_later V1 V2). repeat split.
  - intros H. apply (X9_identifier_names_the_second noon afternoon V1 V3) in H.
    destruct H as (_ & _ & _ & H & _). discriminate H.
Defined.

End Identifiers.


(** ** Splitting off the extension *)

Section Extension.
Import Py PosixPath.

Lemma take_drop n s : take n s +:+ drop n s = s.
Proof.
  revert s. induction n as [|n IH]; intros [|a s]; try reflexivity.
  simpl. now rewrite IH.
Qed.

(** At the index [rfind] returns stands the character, for the last time. *)
Lemma rfind_from_found c s : forall k acc,
  (acc < k)%Z -> (k <= rfind_from c s k acc)%Z ->
  exists rest,
    drop (Z.to_nat (rfind_from c s k acc - k)) s = String c rest /\
    contains c rest = false.
Proof.
  induction s as [|a s IH]; intros k acc Hacc Hr; simpl in *; [lia|].
  destruct (rfind_from_cases c s (k + 1) (if Ascii.eqb a c then k else acc)) as [E|E].
  - rewrite E in *. destruct (Ascii.eqb_spec a c) as [->|Hne]; [|lia].
    rewrite Z.sub_diag. simpl. exists s. split; [reflexivity|].
    destruct (contains c s) eqn:Hc; [|reflexivity].
    apply (rfind_from_present c s (k + 1) k) in Hc. lia.
  - destruct (IH (k + 1)%Z (if Ascii.eqb a c then k else acc)) as (rest & Hd & Hc);
      [destruct (Ascii.eqb a c); lia | assumption |].
    exists rest. split; [|assumption].
    replace (Z.to_nat (rfind_from c s (k + 1) (if Ascii.eqb a c then k else acc) - k))
      with (S (Z.to_nat (rfind_from c s (k + 1) (if Ascii.eqb a c then k else acc) - (k + 1))))
      by lia.
    exact Hd.
Qed.

Lemma has_non_dot_fuel p i fuel : has_non_dot p i fuel = true -> 0 < fuel.
Proof. destruct fuel; [discriminate | lia]. Qed.

Lemma take_nonempty n s : 0 < n -> s <> EmptyString -> take n s <> EmptyString.
Proof. destruct n; [lia|]. destruct s; [congruence | discriminate]. Qed.

(** X10: [os.path.splitext] cuts a name in two without losing
    anything: root and extension put together give the name back. The
    extension is empty or is a dot followed by characters that are
    neither dots nor slashes, and the root of a non-empty name is never
    empty (a name made of a dot and letters, like [.png], has no
    extension). *)
Theorem X10_splitext_cuts_the_name (p : string) :
  fst (splitext p) +:+ snd (splitext p) = p /\
  (snd (splitext p) = EmptyString \/
   exists rest, snd (splitext p) = String extsep rest /\
     contains extsep rest = false /\ contains sep rest = false) /\
  (p <> EmptyString -> fst (splitext p) <> EmptyString).
Proof.
  unfold splitext.
  destruct (rfind sep p <? rfind extsep p)%Z eqn:E;
    [|cbn [fst snd]; rewrite append_empty_r; auto].
  destruct (has_non_dot p _ _) eqn:Hn;
    [|cbn [fst snd]; rewrite append_empty_r; auto].
  cbn [fst snd]. apply Z.ltb_lt in E. pose proof (rfind_ge sep p) as Hs.
  split; [apply take_drop|]. split.
  - right. unfold rfind in *.
    destruct (rfind_from_found extsep p 0 (-1)) as (rest & Hd & Hc); [lia|lia|].
    rewrite Z.sub_0_r in Hd. exists rest. split; [assumption|]. split; [assumption|].
    pose proof (rfind_from_drop sep p 0 (-1) (Z.to_nat (rfind_from extsep p 0 (-1)))) as Hsep.
    rewrite Hd in Hsep. simpl in Hsep.
    assert (contains sep (String extsep rest) = false) as Hx by (apply Hsep; lia).
    simpl in Hx. exact Hx.
  - intros Hp. apply has_non_dot_fuel in Hn. apply take_nonempty; [lia | assumption].
Qed.

Lemma X10_splitext_cuts_the_name_witness :
  fst (splitext "site.photo.jpeg") <> EmptyString /\
  fst (splitext "site.photo.jpeg") +:+ snd (splitext "site.photo.jpeg") = "site.photo.jpeg".
Proof.
  destruct (X10_splitext_cuts_the_name "site.photo.jpeg") as (H1 & _ & H3).
  split; [apply H3; discriminate | exact H1].
Defined.

End Extension.


(** ** The rows of the log *)

Section StoredRows.
Import Sys SysAux OHS Steps Runs Samples Outcomes.



End StoredRows.


(** ** Two submissions in one second *)

Section Collision.
Import Sys SysAux OHS Steps Runs Samples Outcomes.

(** After a successful run the uploaded bytes are at the image path. *)
Lemma success_image f e files u :
  succeeded (snd (exec (main f) e files)) = true ->
  uploaded_photo f = Some u ->
  fs (snd (exec (main f) e files)) !! image_path_of u (report_id_of (now e))
    = Some (File (getbuffer u)).
Proof.
  intros H Hu.
  apply main_succeeded in H as (w1 & ip & w2 & _ & _ & _ & _ & _ & Hs & Ho & ->).
  unfold finish. rewrite Ho. cbn [snd fs].
  rewrite Hu in Hs.
  apply save_image_ok in Hs as [(? & _)|(u' & Hu' & _ & _ & ->)]; [discriminate|].
  injection Hu' as <-. cbn [fs].
  rewrite lookup_insert_ne by (intros E; symmetry in E; now apply image_path_not_log in E).
  apply lookup_insert_eq.
Qed.

(** X12: when two submissions with photos of the same extension
    succeed within one second, the log keeps both rows, with the same
    ReportID and the same ImagePath, but the file at that path holds the
    second photo: the first row now points at the other report's image. *)
Theorem X12_same_second_rows_share_image (e1 e2 : env) (f1 f2 : Form)
    (u1 u2 : UploadedFile) (files : gmap string node) (text : string) :
  Clock.same_second (now e1) (now e2) ->
  uploaded_photo f1 = Some u1 -> uploaded_photo f2 = Some u2 ->
  snd (PosixPath.splitext (name u1)) = snd (PosixPath.splitext (name u2)) ->
  log_text files = Some text ->
  succeeded (snd (exec (main f1) e1 files)) = true ->
  succeeded (snd (exec (main f2) e2 (fs (snd (exec (main f1) e1 files))))) = true ->
  log_text (fs (snd (exec (main f2) e2 (fs (snd (exec (main f1) e1 files)))))) =
    Some (text +:+ Csv.writerow (quotes_cr e1) (submitted_row e1 f1)
               +:+ Csv.writerow (quotes_cr e2) (submitted_row e2 f2)) /\
  nth 0 (submitted_row e1 f1) EmptyString = nth 0 (submitted_row e2 f2) EmptyString /\
  image_ref (submitted_row e1 f1) = image_ref (submitted_row e2 f2) /\
  fs (snd (exec (main f1) e1 files)) !! image_ref (submitted_row e1 f1)
    = Some (File (getbuffer u1)) /\
  fs (snd (exec (main f2) e2 (fs (snd (exec (main f1) e1 files)))))
    !! image_ref (submitted_row e1 f1) = Some (File (getbuffer u2)).
Proof.
  intros Hsame Hu1 Hu2 Hext Ht Hs1 Hs2.
  pose proof (report_id_same_second _ _ Hsame) as Hid.
  destruct (success_log f1 e1 files Hs1) as (b1 & Hl1 & _ & Hb1).
  rewrite (Hb1 _ Ht) in Hl1.
  destruct (success_log f2 e2 _ Hs2) as (b2 & Hl2 & _ & Hb2).
  rewrite (Hb2 _ Hl1) in Hl2.
  assert (image_ref (submitted_row e1 f1) = image_path_of u1 (report_id_of (now e1))) as R1.
  { rewrite image_ref_submitted. now rewrite Hu1. }
  assert (image_ref (submitted_row e2 f2) = image_path_of u2 (report_id_of (now e2))) as R2.
  { rewrite image_ref_submitted. now rewrite Hu2. }
  assert (image_path_of u1 (report_id_of (now e1)) =
          image_path_of u2 (report_id_of (now e2))) as Hp.
  { unfold image_path_of. now rewrite Hid, Hext. }
  split; [rewrite Hl2; now rewrite append_assoc|].
  split; [exact Hid|]. split; [congruence|]. split.
  - rewrite R1. now apply success_image.
  - rewrite R1, Hp. now apply success_image.
Qed.

Lemma X12_same_second_rows_share_image_witness :
  fs (snd (exec (main (with_photo blank_area photo_png)) (calm noon_later)
             (fs (snd (exec (main (with_photo guard_rail
                                     {| name := "first.png"; getbuffer := "first" |}))
                        (calm noon) ready)))))
    !! image_ref (submitted_row (calm noon)
                    (with_photo guard_rail {| name := "first.png"; getbuffer := "first" |}))
  = Some (File (getbuffer photo_png)).
Proof.
  apply (X12_same_second_rows_share_image (calm noon) (calm noon_later)
           (with_photo guard_rail {| name := "first.png"; getbuffer := "first" |})
           (with_photo blank_area photo_png)
           {| name := "first.png"; getbuffer := "first" |} photo_png ready HEADER_LINE);
    first [ reflexivity | repeat split | vm_compute; reflexivity ].
Defined.

End Collision.


(** ** The contract of [save_report] *)

Section SaveReport.
Import Sys SysAux OHS Steps Runs Samples Outcomes.



End SaveReport.


(** ** The header of the page *)

Section Header.
Import Sys SysAux OHS Steps Runs Samples Outcomes.

(** X16: the logo is drawn before the form is looked at. When
    something stands at the logo path that [st.image] cannot show (a
    directory, or a file whose bytes are no picture), a run whose
    initializer returns ends at the header with that exception: the
    files are as the initializer left them, nothing is on the page and
    no row is appended, whatever the form holds. When the header does
    not raise, the run shows the warning if no file is at the logo path
    and the logo otherwise. *)
Theorem X16_header_failure_ends_run (f : Form) (e : env) (files : gmap string node)
    (w1 : world) :
  exec initialize_storage e files = (Ok tt, w1) ->
  (forall x, header_error e files = Some x ->
     exec (main f) e files = (Raise x, w1) /\
     (forall kind text, ~ In (Ui kind text) (trace w1)) /\
     existsb is_append (trace w1) = false) /\
  ((exists x, header_error e files = Some x) <->
   (files !! LOGO_PATH = Some Dir \/
    exists c, files !! LOGO_PATH = Some (File c) /\ decodes e c = false)) /\
  (header_error e files = None ->
   In (match files !! LOGO_PATH with
       | Some _ => Ui StImage LOGO_PATH
       | None => Ui StWarning "Logo not found at 'fmf_logo.png'. Please update the path."
       end)
      (trace (snd (exec (main f) e files)))).
Proof.
  intros Hi.
  assert (fs w1 !! LOGO_PATH = files !! LOGO_PATH) as Hlogo.
  { pose proof (init_keeps_logo e files) as Hl. now rewrite Hi in Hl. }
  assert (header_error e (fs w1) = header_error e files) as Hh.
  { unfold header_error. now rewrite Hlogo. }
  split; [|split].
  - intros x Hx. split; [|split].
    + unfold exec in *. rewrite main_eq, Hi, Hh, Hx. reflexivity.
    + intros kind text Hin. destruct (init_events _ _ _ _ Hi _ Hin); discriminate.
    + apply (page_drawn_flags e files _ _ is_append Hi); reflexivity.
  - unfold header_error, logo_error.
    destruct (files !! LOGO_PATH) as [[|c]|].
    + split; [auto | eauto].
    + destruct (decodes e c) eqn:Ed.
      * split; [intros [x Hx]; discriminate|].
        intros [H|(c' & H & Hd)]; [discriminate|]. injection H as <-. congruence.
      * split; [eauto | eauto].
    + split; [intros [x Hx]; discriminate|].
      intros [H|(c' & H & _)]; discriminate.
  - intros Hok.
    assert (In (logo_event (fs w1)) (trace (snd (exec (main f) e files)))) as Hin.
    { destruct (main_outcome f e files) as (r1 & w1' & Hi' & Hcases).
      rewrite Hi in Hi'. injection Hi' as <- <-.
      assert (In (logo_event (fs w1)) (trace (page_drawn w1))) as Hp.
      { unfold page_drawn, add_events. cbn [trace]. apply in_or_app. right. now left. }
      destruct Hcases as [(y & [Hy|[_ Hy]] & _)|[(_ & _ & ->)|[(_ & _ & _ & ->)|
                         [(_ & _ & u & y & _ & _ & ->)|(_ & _ & ip & w3 & Hs & ->)]]]];
        cbn [snd]; try assumption.
      - discriminate.
      - congruence.
      - unfold add_events. cbn [trace]. apply in_or_app. now left.
      - assert (In (logo_event (fs w1)) (trace w3)) as H3.
        { apply save_image_ok in Hs as [(_ & _ & ->)|(u & _ & _ & _ & ->)]; [assumption|].
          cbn [trace]. apply in_or_app. now left. }
        unfold finish. destruct (open_error e (fs w3) REPORTS_CSV); cbn [snd trace];
          rewrite !in_app_iff; auto 10. }
    unfold logo_event in Hin. rewrite Hlogo in Hin. exact Hin.
Qed.

Lemma X16_header_failure_ends_run_witness :
  exists x,
    exec (main guard_rail) (calm noon) (<[LOGO_PATH := File "not a picture"]> ready) =
    (Raise x, {| fs := <[LOGO_PATH := File "not a picture"]> ready; trace := [] |}).
Proof.
  destruct (X16_header_failure_ends_run guard_rail (calm noon)
              (<[LOGO_PATH := File "not a picture"]> ready)
              {| fs := <[LOGO_PATH := File "not a picture"]> ready; trace := [] |})
    as (H & _).
  - vm_compute. reflexivity.
  - eexists. apply H. reflexivity.
Defined.

End Header.
